(** * Billboard booking back end: availability, booking lifecycle,
      campaign creation and purchase-order settlement

    A shallow embedding of the service layer of the billboard back end
    ([BookingService], [CampaignService], [PurchaseOrderService] and
    [SequenceService]) together with the properties its specification
    states about them.

    Conventions of the embedding.
    - A JavaScript [number] is an IEEE 754 binary64 value: Rocq's primitive
      [float].  [Math.ceil], [Number.prototype.toFixed] with two digits and
      [parseFloat] of a stored decimal are written out on that type.
    - A [date] column, and a date string accepted for one, is a calendar day:
      the number of days since 1970-01-01.  [new Date(s)] of such a string is
      midnight UTC of that day, a time value in milliseconds.
    - A [decimal(p, 2)] column is its number of hundredths.
    - Tables are lists of rows in insertion order; a query filters the list.
    - An [async] method is a function on the database state that returns a
      value or throws, together with the state it leaves behind: no write is
      rolled back when a later step throws.
    - The store refuses a write the schema excludes, and the call throws:
      a [decimal(14, 2)] from 1,000,000,000,000.00 in absolute value, an
      [integer] counter beyond 2147483647, a [varchar(20)] status of more
      than twenty characters, and the deletion of a booking a purchase order
      refers to.  The customer and campaign tables, and with them the
      foreign keys into them, the length of a creative reference and the
      syntax of a [uuid] are not part of the embedding.
    - The [createdAt]/[updatedAt] stamps and the joined customer and
      campaign summaries of a booking are left out. *)

From Stdlib Require Import ZArith List String Ascii Bool Lia.
From Stdlib Require Import PrimFloat FloatOps SpecFloat DecimalString.
From Stdlib Require DecimalPos.
From Stdlib Require Import Permutation.
Import ListNotations.
Open Scope string_scope.
Open Scope Z_scope.

(** ** JavaScript primitives used by the services *)

Module JS.

Definition Number := float.

(** The number nearest to an integer (exact below 2^53). *)
Definition of_Z (z : Z) : Number :=
  SF2Prim (binary_normalize prec emax z 0 false).

(** [String(z)] for an integral number. *)
Definition string_of_Z (z : Z) : string :=
  NilZero.string_of_int (Z.to_int z).

Fixpoint repeat_string (s : string) (n : nat) : string :=
  match n with
  | O => ""
  | S k => s ++ repeat_string s k
  end.

(** [s.padStart(targetLength, fill)] for a one-character [fill]. *)
Definition padStart (s : string) (targetLength : nat) (fill : string) : string :=
  repeat_string fill (targetLength - String.length s) ++ s.

(** [xs.join(sep)]. *)
Definition join (sep : string) (xs : list string) : string :=
  String.concat sep xs.

(** Truthiness of a string: only the empty string is falsy. *)
Definition truthy (s : string) : bool :=
  negb (String.eqb s "").

(** [Math.ceil]. *)
Definition Math_ceil (x : Number) : Number :=
  match Prim2SF x with
  | S754_finite s m e =>
      if 0 <=? e then x
      else
        let q := Z.shiftr (Zpos m) (- e) in
        if s then (if q =? 0 then (-0)%float else PrimFloat.opp (of_Z q))
        else if Zpos m =? Z.shiftl q (- e) then of_Z q
        else of_Z (q + 1)
  | _ => x
  end.

(** The integer [n] for which [n / 100] is nearest to [m * 2^e], the larger
    one when two are equally near (step 10.a of [Number.prototype.toFixed]
    with two fraction digits). *)
Definition nearest_hundredths (m : positive) (e : Z) : Z :=
  if 0 <=? e then 100 * Z.shiftl (Zpos m) e
  else Z.shiftr (200 * Zpos m + Z.shiftl 1 (- e)) (1 - e).

(** What [x.toFixed(2)] denotes: a sign and a count of hundredths for a
    finite number below 10^21, and the number itself (to be written by
    [Number::toString]) otherwise. *)
Inductive Fixed2 :=
| Digits (negative : bool) (n : Z)
| Plain (x : Number).

Definition toFixed2_value (x : Number) : Fixed2 :=
  match Prim2SF x with
  | S754_zero _ => Digits false 0
  | S754_finite s m e =>
      if (0 <=? e) && (10 ^ 21 <=? Z.shiftl (Zpos m) e) then Plain x
      else Digits s (nearest_hundredths m e)
  | _ => Plain x
  end.






(** [parseFloat(x.toFixed(2))]. *)
Definition parseFloat_fixed2 (v : Fixed2) : Number :=
  match v with
  | Digits s n =>
      let a := PrimFloat.div (of_Z n) (of_Z 100) in
      if s then PrimFloat.opp a else a
  | Plain y => y
  end.

(** A [Date] object is its time value: milliseconds since the epoch. *)
Definition Date := Z.

(** [new Date(s)] for a calendar-day string [s]. *)
Definition new_Date (day : Z) : Date := day * 86400000.

Definition getTime (d : Date) : Number := of_Z d.

(** [1000 * 60 * 60 * 24]. *)
Definition MS_PER_DAY : Number :=
  PrimFloat.mul (PrimFloat.mul (PrimFloat.mul (of_Z 1000) (of_Z 60)) (of_Z 60)) (of_Z 24).

(** The day count every service computes in line:
    [Math.ceil((end.getTime() - start.getTime()) / (1000 * 60 * 60 * 24)) + 1]. *)
Definition inclusiveDays (startDate endDate : Date) : Number :=
  PrimFloat.add
    (Math_ceil (PrimFloat.div (PrimFloat.sub (getTime endDate) (getTime startDate))
                              MS_PER_DAY))
    (of_Z 1).

End JS.

(** ** Column types and tables *)

Definition UUID := string.

(** A [date] column: days since 1970-01-01. *)
Definition CalendarDate := Z.

(** The calendar day written [year-month-day] (proleptic Gregorian). *)
Definition calendarDate (year month day : Z) : CalendarDate :=
  let y := if month <=? 2 then year - 1 else year in
  let era := y / 400 in
  let yoe := y - era * 400 in
  let mp := (month + 9) mod 12 in
  let doy := (153 * mp + 2) / 5 + day - 1 in
  let doe := yoe * 365 + yoe / 4 - yoe / 100 + doy in
  era * 146097 + doe - 719468.

(** A [decimal(p, 2)] column: hundredths. *)
Definition Decimal := Z.

(** The text of [x.toFixed(2)] as a [decimal(14, 2)] column takes it:
    refused when it is no plain decimal or needs more than fourteen digits. *)
Definition decimal14_of_fixed2 (v : JS.Fixed2) : option Decimal :=
  match v with
  | JS.Digits s n => if n <? 10 ^ 14 then Some (if s then - n else n) else None
  | JS.Plain _ => None
  end.

(** [parseFloat] of the text of a decimal column. *)
Definition parseFloat (d : Decimal) : JS.Number :=
  PrimFloat.div (JS.of_Z d) (JS.of_Z 100).

Definition dquote : string := String (ascii_of_nat 34) "".
Definition newline : string := String (ascii_of_nat 10) "".

Module Billboard.
Record t := mk {
  id : UUID;
  name : string;
  code : string;
  type : string;
  status : string;
  ratePerDay : Decimal;
  slotCount : option Z
}.
End Billboard.

Module Booking.
Record t := mk {
  id : UUID;
  referenceCode : string;
  customerId : UUID;
  campaignId : option UUID;
  billboardId : UUID;
  slotNumber : option Z;
  startDate : CalendarDate;
  endDate : CalendarDate;
  actualEndDate : option CalendarDate;
  notionalValue : Decimal;
  status : string;
  creativeRef : option string;
  notes : option string;
  createdBy : option UUID;
  updatedBy : option UUID
}.
End Booking.

Module Campaign.
Record t := mk {
  id : UUID;
  referenceCode : string;
  name : string;
  customerId : UUID;
  description : option string;
  totalValue : Decimal;
  startDate : option JS.Date;
  endDate : option JS.Date;
  createdBy : option UUID;
  updatedBy : option UUID
}.
End Campaign.

Module PurchaseOrder.
Record t := mk {
  id : UUID;
  poNumber : string;
  bookingId : UUID;
  actualStartDate : CalendarDate;
  actualEndDate : CalendarDate;
  actualValue : Decimal;
  adjustmentNotes : option string;
  createdBy : option UUID;
  updatedBy : option UUID
}.
End PurchaseOrder.

Module SequenceEntityType.
Inductive t := booking | campaign | po | invoice.

Definition eqb (a b : t) : bool :=
  match a, b with
  | booking, booking | campaign, campaign | po, po | invoice, invoice => true
  | _, _ => false
  end.
End SequenceEntityType.

Definition SEQUENCE_PREFIXES (e : SequenceEntityType.t) : string :=
  match e with
  | SequenceEntityType.booking => "BK"
  | SequenceEntityType.campaign => "CP"
  | SequenceEntityType.po => "PO"
  | SequenceEntityType.invoice => "INV"
  end.

Module Sequence.
Record t := mk {
  entityType : SequenceEntityType.t;
  year : Z;
  currentValue : Z
}.
End Sequence.

(** The store, with the two things the services draw from their
    environment: the next [defaultRandom()] identifier and the calendar
    year of [new Date()]. *)
Record DB := mkDB {
  billboards : list Billboard.t;
  bookings : list Booking.t;
  campaigns : list Campaign.t;
  purchaseOrders : list PurchaseOrder.t;
  sequences : list Sequence.t;
  uuidSupply : Z;
  currentYear : Z
}.

Definition with_bookings (db : DB) (bs : list Booking.t) : DB :=
  mkDB (billboards db) bs (campaigns db) (purchaseOrders db) (sequences db)
       (uuidSupply db) (currentYear db).

Definition with_campaigns (db : DB) (cs : list Campaign.t) : DB :=
  mkDB (billboards db) (bookings db) cs (purchaseOrders db) (sequences db)
       (uuidSupply db) (currentYear db).

Definition with_purchaseOrders (db : DB) (ps : list PurchaseOrder.t) : DB :=
  mkDB (billboards db) (bookings db) (campaigns db) ps (sequences db)
       (uuidSupply db) (currentYear db).

Definition with_sequences (db : DB) (ss : list Sequence.t) : DB :=
  mkDB (billboards db) (bookings db) (campaigns db) (purchaseOrders db) ss
       (uuidSupply db) (currentYear db).

Definition with_uuidSupply (db : DB) (n : Z) : DB :=
  mkDB (billboards db) (bookings db) (campaigns db) (purchaseOrders db)
       (sequences db) n (currentYear db).

(** ** Asynchronous methods: state and exceptions *)

Record Error := mkError { message : string }.

Inductive Outcome (A : Type) :=
| Ok (a : A)
| Throw (e : Error).
Arguments Ok {A} a.
Arguments Throw {A} e.

Definition Async (A : Type) : Type := DB -> Outcome A * DB.

Definition ret {A} (a : A) : Async A := fun db => (Ok a, db).

Definition throw {A} (msg : string) : Async A := fun db => (Throw (mkError msg), db).

Definition bind {A B} (c : Async A) (k : A -> Async B) : Async B :=
  fun db =>
    match c db with
    | (Ok a, db') => k a db'
    | (Throw e, db') => (Throw e, db')
    end.

(** A [select]: reads the store and leaves it as it is. *)
Definition query {A} (f : DB -> A) : Async A := fun db => (Ok (f db), db).

(** A read that may throw. *)
Definition attempt {A} (f : DB -> Outcome A) : Async A := fun db => (f db, db).

(** An [insert], [update] or [delete]. *)
Definition write (f : DB -> DB) : Async unit := fun db => (Ok tt, f db).

Declare Scope async_scope.
Delimit Scope async_scope with async.
Notation "x <- c ;; k" := (bind c (fun x => k))
  (at level 61, c at next level, right associativity) : async_scope.
Notation "c ;;; k" := (bind c (fun _ => k))
  (at level 61, right associativity) : async_scope.
Open Scope async_scope.

(** [uuid('id').defaultRandom()]: the identifier of a new row. *)
Definition defaultRandom : Async UUID :=
  fun db => (Ok ("uuid-" ++ JS.string_of_Z (uuidSupply db)),
             with_uuidSupply db (uuidSupply db + 1)).

(** ** SequenceService *)

Module SequenceService.

(** [current_value] is an [integer] column: the largest value it takes. *)
Definition INT4_MAX : Z := 2147483647.

(** [INSERT ... ON CONFLICT (entity_type, year) DO UPDATE SET current_value =
    current_value + 1 RETURNING current_value]: the rows after the statement
    and the value it returns, or nothing when [current_value + 1] does not
    fit the column; the statement then fails and writes no row. *)
Fixpoint upsert (e : SequenceEntityType.t) (y : Z) (rows : list Sequence.t)
  : option (list Sequence.t * Z) :=
  match rows with
  | [] => Some ([Sequence.mk e y 1], 1)
  | r :: rest =>
      if SequenceEntityType.eqb (Sequence.entityType r) e && (Sequence.year r =? y)
      then
        if Sequence.currentValue r + 1 <=? INT4_MAX
        then Some (Sequence.mk e y (Sequence.currentValue r + 1) :: rest,
                   Sequence.currentValue r + 1)
        else None
      else
        match upsert e y rest with
        | Some (rest', v) => Some (r :: rest', v)
        | None => None
        end
  end.

Definition getNextSequence (entityType : SequenceEntityType.t) : Async string :=
  fun db =>
    let year := currentYear db in
    let prefix := SEQUENCE_PREFIXES entityType in
    match upsert entityType year (sequences db) with
    | None => (Throw (mkError "integer out of range"), db)
    | Some (rows, current_value) =>
        let nextValue := if current_value =? 0 then 1 else current_value in
        let paddedNumber := JS.padStart (JS.string_of_Z nextValue) 4 "0" in
        (Ok (prefix ++ "-" ++ JS.string_of_Z year ++ "-" ++ paddedNumber),
         with_sequences db rows)
    end.

(** [existing?.currentValue || 0] of the row of this entity and year. *)
Definition getCurrentSequence (entityType : SequenceEntityType.t) (db : DB) : Z :=
  match find (fun r => SequenceEntityType.eqb (Sequence.entityType r) entityType
                       && (Sequence.year r =? currentYear db))
             (sequences db) with
  | Some existing => Sequence.currentValue existing
  | None => 0
  end.

End SequenceService.

(** ** Query helpers *)

(** A [where] condition on a booking row. *)
Definition Condition := Booking.t -> bool.

(** [and(...conditions)]. *)
Definition and_ (conditions : list Condition) : Condition :=
  fun row => forallb (fun c => c row) conditions.

(** [eq(column, value)] on a nullable integer column: never true on NULL,
    and never true of a [null] value. *)
Definition sql_eq_int (column : option Z) (value : option Z) : bool :=
  match column, value with
  | Some v, Some n => v =? n
  | _, _ => false
  end.

(** [select().from(billboards).where(eq(billboards.id, id)).limit(1)]. *)
Definition findBillboard (id : UUID) (db : DB) : option Billboard.t :=
  find (fun b => String.eqb (Billboard.id b) id) (billboards db).

(** [update(bookings).set(...).where(eq(bookings.id, id))]. *)
Definition updateBookings (id : UUID) (set : Booking.t -> Booking.t) (db : DB) : DB :=
  with_bookings db
    (map (fun b => if String.eqb (Booking.id b) id then set b else b) (bookings db)).

(** [value || null] on a number that may be absent or [null], and on an
    optional string. *)
Definition number_or_null (v : option (option Z)) : option Z :=
  match v with
  | Some (Some n) => if n =? 0 then None else Some n
  | Some None => None
  | None => None
  end.

(** [value ?? undefined] on a number that may be [null]: the key is absent
    from the result on [null]. *)
Definition number_or_undefined (v : option Z) : option (option Z) :=
  match v with
  | Some n => Some (Some n)
  | None => None
  end.

Definition string_or_null (v : option string) : option string :=
  match v with
  | Some s => if JS.truthy s then Some s else None
  | None => None
  end.

(** The text given to a decimal column: a decimal the caller supplied, or
    the result of [toFixed(2)]. *)
Inductive DecimalText :=
| Supplied (d : Decimal)
| Fixed (v : JS.Fixed2).

(** The store takes the text for a [decimal(14, 2)] column or throws: the
    column holds the decimals below 10^12 in magnitude. *)
Definition storeDecimal (t : DecimalText) : Async Decimal :=
  match t with
  | Supplied d =>
      if Z.abs d <? 10 ^ 14 then ret d else throw "numeric field overflow"
  | Fixed v =>
      match decimal14_of_fixed2 v with
      | Some d => ret d
      | None => throw "numeric field overflow"
      end
  end.

(** ** BookingService *)

Module BookingService.

(** [slotNumber] is [None] when the key is absent, [Some None] when the
    request carries [null], which the route admits, and [Some (Some n)] when
    it carries a number. *)
Module CreateBookingDto.
Record t := mk {
  customerId : UUID;
  billboardId : UUID;
  campaignId : option UUID;
  slotNumber : option (option Z);
  startDate : CalendarDate;
  endDate : CalendarDate;
  notionalValue : option Decimal;
  creativeRef : option string;
  notes : option string;
  createdBy : option UUID
}.
End CreateBookingDto.

(** An optional field is [None] when the key is absent; [campaignId] and
    [slotNumber] may also be present and [null]. *)
Module UpdateBookingDto.
Record t := mk {
  customerId : option UUID;
  billboardId : option UUID;
  campaignId : option (option UUID);
  slotNumber : option (option Z);
  startDate : option CalendarDate;
  endDate : option CalendarDate;
  notionalValue : option Decimal;
  status : option string;
  creativeRef : option string;
  notes : option string;
  updatedBy : option UUID
}.
End UpdateBookingDto.

(** [slotNumber] is as in [CreateBookingDto], whose value [createBooking]
    hands over unchanged. *)
Module AvailabilityQuery.
Record t := mk {
  billboardId : UUID;
  startDate : CalendarDate;
  endDate : CalendarDate;
  slotNumber : option (option Z);
  excludeBookingId : option UUID
}.
End AvailabilityQuery.

(** A row of the [conflicts] projection. *)
Module Conflict.
Record t := mk {
  id : UUID;
  referenceCode : string;
  startDate : CalendarDate;
  endDate : CalendarDate;
  slotNumber : option Z
}.
End Conflict.

Record Availability := mkAvailability {
  available : bool;
  conflicts : list Conflict.t
}.

(** A booking with the billboard the left join finds for it. *)
Record BookingDetails := mkDetails {
  row : Booking.t;
  billboard : option Billboard.t
}.

Definition getBookingById (id : UUID) (db : DB) : option BookingDetails :=
  match find (fun b => String.eqb (Booking.id b) id) (bookings db) with
  | None => None
  | Some b => Some (mkDetails b (findBillboard (Booking.billboardId b) db))
  end.

Definition selectConflict (b : Booking.t) : Conflict.t :=
  Conflict.mk (Booking.id b) (Booking.referenceCode b) (Booking.startDate b)
              (Booking.endDate b) (Booking.slotNumber b).

(** The conditions [checkAvailability] builds for a billboard it found. *)
Definition availabilityConditions (billboard : Billboard.t) (q : AvailabilityQuery.t)
  : list Condition :=
  let conditions := [
    (fun b => String.eqb (Booking.billboardId b) (AvailabilityQuery.billboardId q));
    (fun b => Booking.startDate b <=? AvailabilityQuery.endDate q);
    (fun b => Booking.endDate b >=? AvailabilityQuery.startDate q)
  ] in
  let conditions :=
    match AvailabilityQuery.excludeBookingId q with
    | Some excludeBookingId =>
        if JS.truthy excludeBookingId
        then (conditions ++ [fun b => negb (String.eqb (Booking.id b) excludeBookingId)])%list
        else conditions
    | None => conditions
    end in
  match AvailabilityQuery.slotNumber q with
  | Some slotNumber =>
      if String.eqb (Billboard.type billboard) "digital"
      then (conditions ++ [fun b => sql_eq_int (Booking.slotNumber b) slotNumber])%list
      else conditions
  | None => conditions
  end.

Definition checkAvailability (q : AvailabilityQuery.t) (db : DB) : Outcome Availability :=
  match findBillboard (AvailabilityQuery.billboardId q) db with
  | None => Throw (mkError "Billboard not found")
  | Some billboard =>
      let conflicts :=
        map selectConflict
            (filter (and_ (availabilityConditions billboard q)) (bookings db)) in
      Ok (mkAvailability (Nat.eqb (List.length conflicts) 0) conflicts)
  end.

Definition notAvailableMessage (conflicts : list Conflict.t) : string :=
  "Billboard is not available for the selected dates. Conflicts with: "
    ++ JS.join ", " (map Conflict.referenceCode conflicts).

Definition createBooking (data : CreateBookingDto.t) : Async (option BookingDetails) :=
  availability <- attempt (checkAvailability
    (AvailabilityQuery.mk (CreateBookingDto.billboardId data)
                          (CreateBookingDto.startDate data)
                          (CreateBookingDto.endDate data)
                          (CreateBookingDto.slotNumber data) None)) ;;
  if negb (available availability)
  then throw (notAvailableMessage (conflicts availability))
  else
    notionalValue <-
      match CreateBookingDto.notionalValue data with
      | Some v => ret (Some (Supplied v))
      | None =>
          billboard <- query (findBillboard (CreateBookingDto.billboardId data)) ;;
          match billboard with
          | Some billboard =>
              let startDate := JS.new_Date (CreateBookingDto.startDate data) in
              let endDate := JS.new_Date (CreateBookingDto.endDate data) in
              let days := JS.inclusiveDays startDate endDate in
              let rate := parseFloat (Billboard.ratePerDay billboard) in
              ret (Some (Fixed (JS.toFixed2_value (PrimFloat.mul rate days))))
          | None => ret None
          end
      end ;;
    referenceCode <- SequenceService.getNextSequence SequenceEntityType.booking ;;
    stored <- storeDecimal (match notionalValue with
                            | Some t => t
                            | None => Supplied 0
                            end) ;;
    id <- defaultRandom ;;
    write (fun db => with_bookings db (bookings db ++ [
      Booking.mk id referenceCode
                 (CreateBookingDto.customerId data)
                 (string_or_null (CreateBookingDto.campaignId data))
                 (CreateBookingDto.billboardId data)
                 (number_or_null (CreateBookingDto.slotNumber data))
                 (CreateBookingDto.startDate data)
                 (CreateBookingDto.endDate data)
                 None
                 stored
                 "created"
                 (CreateBookingDto.creativeRef data)
                 (CreateBookingDto.notes data)
                 (CreateBookingDto.createdBy data)
                 (CreateBookingDto.createdBy data)])%list) ;;;
    query (getBookingById id).

Definition nonEditableStatuses : list string :=
  ["completed"; "po_generated"; "invoiced"].

(** [statuses.includes(status)]. *)
Definition includes (statuses : list string) (status : string) : bool :=
  existsb (String.eqb status) statuses.

Definition isDefined {A} (v : option A) : bool :=
  match v with Some _ => true | None => false end.

(** [value !== undefined ? value : old], one line of [updateData]. *)
Definition assign {A} (v : option A) (old : A) : A :=
  match v with Some x => x | None => old end.

Definition applyUpdate (data : UpdateBookingDto.t) (b : Booking.t) : Booking.t :=
  Booking.mk
    (Booking.id b)
    (Booking.referenceCode b)
    (assign (UpdateBookingDto.customerId data) (Booking.customerId b))
    (assign (UpdateBookingDto.campaignId data) (Booking.campaignId b))
    (assign (UpdateBookingDto.billboardId data) (Booking.billboardId b))
    (assign (UpdateBookingDto.slotNumber data) (Booking.slotNumber b))
    (assign (UpdateBookingDto.startDate data) (Booking.startDate b))
    (assign (UpdateBookingDto.endDate data) (Booking.endDate b))
    (Booking.actualEndDate b)
    (assign (UpdateBookingDto.notionalValue data) (Booking.notionalValue b))
    (assign (UpdateBookingDto.status data) (Booking.status b))
    (match UpdateBookingDto.creativeRef data with
     | Some r => Some r | None => Booking.creativeRef b end)
    (match UpdateBookingDto.notes data with
     | Some n => Some n | None => Booking.notes b end)
    (Booking.createdBy b)
    (match UpdateBookingDto.updatedBy data with
     | Some u => Some u | None => Booking.updatedBy b end).

(** What the store refuses of the [UPDATE]: a [notionalValue] that does not
    fit [decimal(14, 2)] and a [status] longer than [varchar(20)]. *)
Definition storeUpdate (data : UpdateBookingDto.t) : Async unit :=
  match UpdateBookingDto.notionalValue data with
  | Some notionalValue => storeDecimal (Supplied notionalValue) ;;; ret tt
  | None => ret tt
  end ;;;
  match UpdateBookingDto.status data with
  | Some status =>
      if (20 <? String.length status)%nat
      then throw "value too long for type character varying(20)"
      else ret tt
  | None => ret tt
  end.

Definition updateBooking (id : UUID) (data : UpdateBookingDto.t)
  : Async (option BookingDetails) :=
  existingBooking <- query (getBookingById id) ;;
  match existingBooking with
  | None => throw "Booking not found"
  | Some existing =>
      let existingBooking := row existing in
      if includes nonEditableStatuses (Booking.status existingBooking)
      then throw ("Cannot edit booking in " ++ dquote ++ Booking.status existingBooking
                    ++ dquote ++ " status. Booking is finalized.")
      else
        (if isDefined (UpdateBookingDto.startDate data)
            || isDefined (UpdateBookingDto.endDate data)
            || isDefined (string_or_null (UpdateBookingDto.billboardId data))
            || isDefined (UpdateBookingDto.slotNumber data)
         then
           availability <- attempt (checkAvailability
             (AvailabilityQuery.mk
                (assign (string_or_null (UpdateBookingDto.billboardId data))
                        (Booking.billboardId existingBooking))
                (assign (UpdateBookingDto.startDate data) (Booking.startDate existingBooking))
                (assign (UpdateBookingDto.endDate data) (Booking.endDate existingBooking))
                (number_or_undefined
                   (assign (UpdateBookingDto.slotNumber data)
                           (Booking.slotNumber existingBooking)))
                (Some id))) ;;
           if negb (available availability)
           then throw (notAvailableMessage (conflicts availability))
           else ret tt
         else ret tt) ;;;
        storeUpdate data ;;;
        write (updateBookings id (applyUpdate data)) ;;;
        query (getBookingById id)
  end.

Definition validStatuses : list string :=
  ["created"; "confirmed"; "active"; "completed"; "po_generated"; "invoiced"].

Definition updateBookingStatus (id : UUID) (status : string) (updatedBy : option UUID)
  : Async (option Booking.t) :=
  if negb (includes validStatuses status)
  then throw ("Invalid status. Must be one of: " ++ JS.join ", " validStatuses)
  else
    write (updateBookings id (fun b =>
      Booking.mk (Booking.id b) (Booking.referenceCode b) (Booking.customerId b)
                 (Booking.campaignId b) (Booking.billboardId b) (Booking.slotNumber b)
                 (Booking.startDate b) (Booking.endDate b) (Booking.actualEndDate b)
                 (Booking.notionalValue b) status (Booking.creativeRef b)
                 (Booking.notes b) (Booking.createdBy b)
                 (match updatedBy with Some u => Some u | None => Booking.updatedBy b end))) ;;;
    query (fun db => find (fun b => String.eqb (Booking.id b) id) (bookings db)).

Definition shortCloseStatuses : list string :=
  ["created"; "confirmed"; "active"].

Definition shortCloseBooking (id : UUID) (actualEndDate : CalendarDate) (reason : string)
                             (updatedBy : option UUID)
  : Async (option BookingDetails) :=
  found <- query (getBookingById id) ;;
  match found with
  | None => throw "Booking not found"
  | Some details =>
      let booking := row details in
      if negb (includes shortCloseStatuses (Booking.status booking))
      then throw ("Cannot short close booking in " ++ dquote ++ Booking.status booking
                    ++ dquote
                    ++ " status. Booking must be in created, confirmed, or active status.")
      else
        let originalEndDate := JS.new_Date (Booking.endDate booking) in
        let newEndDate := JS.new_Date actualEndDate in
        let startDate := JS.new_Date (Booking.startDate booking) in
        if newEndDate >=? originalEndDate
        then throw "Actual end date must be before the original end date for short closing"
        else if newEndDate <? startDate
        then throw "Actual end date cannot be before the start date"
        else
          write (updateBookings id (fun b =>
            Booking.mk (Booking.id b) (Booking.referenceCode b) (Booking.customerId b)
                       (Booking.campaignId b) (Booking.billboardId b) (Booking.slotNumber b)
                       (Booking.startDate b) (Booking.endDate b) (Some actualEndDate)
                       (Booking.notionalValue b) "completed" (Booking.creativeRef b)
                       (Some (match string_or_null (Booking.notes booking) with
                              | Some notes =>
                                  notes ++ newline ++ newline ++ "Short Closed: " ++ reason
                              | None => "Short Closed: " ++ reason
                              end))
                       (Booking.createdBy b)
                       (match updatedBy with Some u => Some u | None => Booking.updatedBy b end))) ;;;
          query (getBookingById id)
  end.

(** [purchase_orders.booking_id] references [bookings.id] with [onDelete:
    'restrict']: the store refuses to delete a booking that a purchase order
    names. *)
Definition restrictedByPurchaseOrder (id : UUID) (db : DB) : bool :=
  existsb (fun p => String.eqb (PurchaseOrder.bookingId p) id) (purchaseOrders db).

Definition deleteBooking (id : UUID) : Async unit :=
  found <- query (getBookingById id) ;;
  match found with
  | None => throw "Booking not found"
  | Some details =>
      if negb (String.eqb (Booking.status (row details)) "created")
      then throw ("Only bookings in " ++ dquote ++ "created" ++ dquote
                    ++ " status can be deleted")
      else
        restricted <- query (restrictedByPurchaseOrder id) ;;
        if restricted
        then throw ("update or delete on table " ++ dquote ++ "bookings" ++ dquote
                      ++ " violates foreign key constraint " ++ dquote
                      ++ "purchase_orders_booking_id_bookings_id_fk" ++ dquote
                      ++ " on table " ++ dquote ++ "purchase_orders" ++ dquote)
        else write (fun db =>
               with_bookings db
                 (filter (fun b => negb (String.eqb (Booking.id b) id)) (bookings db)))
  end.

End BookingService.

(** ** CampaignService *)

Module CampaignService.

(** [slotNumber] is read as in [BookingService.CreateBookingDto]; the
    campaign route admits no [null]. *)
Module BillboardSelection.
Record t := mk {
  billboardId : UUID;
  slotNumber : option (option Z)
}.
End BillboardSelection.

(** [startDate] and [endDate] are [None] when missing or empty, the case
    the method rejects. *)
Module CreateCampaignDto.
Record t := mk {
  name : string;
  customerId : UUID;
  description : option string;
  startDate : option CalendarDate;
  endDate : option CalendarDate;
  billboards : list BillboardSelection.t;
  createdBy : option UUID
}.
End CreateCampaignDto.

Record CampaignDetails := mkCampaignDetails {
  campaign_row : Campaign.t;
  campaign_bookings : list Booking.t;
  bookingCount : nat
}.

(** [orderBy(asc(bookings.startDate))], keeping table order among equals. *)
Fixpoint insertByStartDate (b : Booking.t) (sorted : list Booking.t) : list Booking.t :=
  match sorted with
  | [] => [b]
  | x :: rest =>
      if Booking.startDate b <? Booking.startDate x then b :: x :: rest
      else x :: insertByStartDate b rest
  end.

Definition orderByStartDate (rows : list Booking.t) : list Booking.t :=
  fold_left (fun sorted b => insertByStartDate b sorted) rows [].

Definition option_string_eqb (a : option string) (b : string) : bool :=
  match a with
  | Some s => String.eqb s b
  | None => false
  end.

Definition getCampaignById (id : UUID) (db : DB) : option CampaignDetails :=
  match find (fun c => String.eqb (Campaign.id c) id) (campaigns db) with
  | None => None
  | Some c =>
      let campaignBookings :=
        orderByStartDate
          (filter (fun b => option_string_eqb (Booking.campaignId b) id) (bookings db)) in
      Some (mkCampaignDetails c campaignBookings (List.length campaignBookings))
  end.

(** [billboardDetails.find(b => b.id === selection.billboardId)]. *)
Definition findDetails (billboardDetails : list Billboard.t) (id : UUID)
  : option Billboard.t :=
  find (fun b => String.eqb (Billboard.id b) id) billboardDetails.

Definition campaignConflictMessage (billboard : option Billboard.t)
                                   (conflicts : list BookingService.Conflict.t) : string :=
  "Billboard " ++ dquote
    ++ match billboard with
       | Some b => Billboard.name b
       | None => "undefined"
       end
    ++ dquote ++ " is not available for the selected dates. Conflicts with: "
    ++ JS.join ", " (map BookingService.Conflict.referenceCode conflicts).

(** The first loop of [createCampaign]: one availability check per selection. *)
Fixpoint checkSelections (startDate endDate : CalendarDate)
                         (billboardDetails : list Billboard.t)
                         (selections : list BillboardSelection.t) : Async unit :=
  match selections with
  | [] => ret tt
  | selection :: rest =>
      availability <- attempt (BookingService.checkAvailability
        (BookingService.AvailabilityQuery.mk
           (BillboardSelection.billboardId selection) startDate endDate
           (BillboardSelection.slotNumber selection) None)) ;;
      if negb (BookingService.available availability)
      then
        let billboard :=
          findDetails billboardDetails (BillboardSelection.billboardId selection) in
        throw (campaignConflictMessage billboard (BookingService.conflicts availability))
      else checkSelections startDate endDate billboardDetails rest
  end.

(** The second loop of [createCampaign]: one booking per selection; returns
    the accumulated [totalValue]. *)
Fixpoint createBookings (data : CreateCampaignDto.t) (startDate endDate : CalendarDate)
                        (campaign : Campaign.t) (billboardDetails : list Billboard.t)
                        (selections : list BillboardSelection.t)
                        (totalValue : JS.Number) : Async JS.Number :=
  match selections with
  | [] => ret totalValue
  | selection :: rest =>
      match findDetails billboardDetails (BillboardSelection.billboardId selection) with
      | None =>
          createBookings data startDate endDate campaign billboardDetails rest totalValue
      | Some billboard =>
          let days := JS.inclusiveDays (JS.new_Date startDate) (JS.new_Date endDate) in
          let rate := parseFloat (Billboard.ratePerDay billboard) in
          let notionalValue := JS.toFixed2_value (PrimFloat.mul rate days) in
          let totalValue := PrimFloat.add totalValue (JS.parseFloat_fixed2 notionalValue) in
          bookingRefCode <- SequenceService.getNextSequence SequenceEntityType.booking ;;
          stored <- storeDecimal (Fixed notionalValue) ;;
          id <- defaultRandom ;;
          write (fun db => with_bookings db (bookings db ++ [
            Booking.mk id bookingRefCode
                       (CreateCampaignDto.customerId data)
                       (Some (Campaign.id campaign))
                       (BillboardSelection.billboardId selection)
                       (number_or_null (BillboardSelection.slotNumber selection))
                       startDate endDate None stored "created" None None
                       (CreateCampaignDto.createdBy data)
                       (CreateCampaignDto.createdBy data)])%list) ;;;
          createBookings data startDate endDate campaign billboardDetails rest totalValue
      end
  end.

Definition createCampaign (data : CreateCampaignDto.t) : Async (option CampaignDetails) :=
  match CreateCampaignDto.billboards data with
  | [] => throw "At least one billboard must be selected for the campaign"
  | _ :: _ =>
      match CreateCampaignDto.startDate data, CreateCampaignDto.endDate data with
      | Some startDate, Some endDate =>
          let billboardIds :=
            map BillboardSelection.billboardId (CreateCampaignDto.billboards data) in
          billboardDetails <- query (fun db =>
            filter (fun b => existsb (String.eqb (Billboard.id b)) billboardIds)
                   (billboards db)) ;;
          if negb (Nat.eqb (List.length billboardDetails) (List.length billboardIds))
          then throw "One or more billboards not found"
          else
            checkSelections startDate endDate billboardDetails
                            (CreateCampaignDto.billboards data) ;;;
            referenceCode <- SequenceService.getNextSequence SequenceEntityType.campaign ;;
            id <- defaultRandom ;;
            let campaign :=
              Campaign.mk id referenceCode
                          (CreateCampaignDto.name data)
                          (CreateCampaignDto.customerId data)
                          (CreateCampaignDto.description data)
                          0
                          (Some (JS.new_Date startDate))
                          (Some (JS.new_Date endDate))
                          (CreateCampaignDto.createdBy data)
                          (CreateCampaignDto.createdBy data) in
            write (fun db => with_campaigns db (campaigns db ++ [campaign])%list) ;;;
            totalValue <- createBookings data startDate endDate campaign billboardDetails
                                         (CreateCampaignDto.billboards data) (JS.of_Z 0) ;;
            stored <- storeDecimal (Fixed (JS.toFixed2_value totalValue)) ;;
            write (fun db => with_campaigns db
              (map (fun c =>
                      if String.eqb (Campaign.id c) (Campaign.id campaign)
                      then Campaign.mk (Campaign.id c) (Campaign.referenceCode c)
                                       (Campaign.name c) (Campaign.customerId c)
                                       (Campaign.description c) stored
                                       (Campaign.startDate c) (Campaign.endDate c)
                                       (Campaign.createdBy c) (Campaign.updatedBy c)
                      else c) (campaigns db))) ;;;
            query (getCampaignById (Campaign.id campaign))
      | _, _ => throw "Start date and end date are required"
      end
  end.

Definition deleteCampaign (id : UUID) : Async unit :=
  found <- query (getCampaignById id) ;;
  match found with
  | None => throw "Campaign not found"
  | Some campaign =>
      if (0 <? bookingCount campaign)%nat
      then throw "Cannot delete campaign with existing bookings. Remove bookings from the campaign first."
      else write (fun db =>
             with_campaigns db
               (filter (fun c => negb (String.eqb (Campaign.id c) id)) (campaigns db)))
  end.

(** One entry of the result of [getAvailableBillboards]. *)
Record AvailableBillboard := mkAvailableBillboard {
  listed : Billboard.t;
  isAvailable : bool;
  availableSlots : list Z;
  listedConflicts : list BookingService.Conflict.t
}.

(** [for (let slot = 1; slot <= billboard.slotCount; slot++)], from [slot]
    on with [remaining] rounds to go. *)
Fixpoint probeSlots (billboardId : UUID) (startDate endDate : CalendarDate)
                    (slot : Z) (remaining : nat) : Async (list Z) :=
  match remaining with
  | O => ret []
  | S remaining' =>
      slotAvailability <- attempt (BookingService.checkAvailability
        (BookingService.AvailabilityQuery.mk billboardId startDate endDate
                                             (Some (Some slot)) None)) ;;
      rest <- probeSlots billboardId startDate endDate (slot + 1) remaining' ;;
      ret (if BookingService.available slotAvailability then slot :: rest else rest)
  end.

Definition describeBillboard (startDate endDate : CalendarDate) (billboard : Billboard.t)
  : Async AvailableBillboard :=
  availability <- attempt (BookingService.checkAvailability
    (BookingService.AvailabilityQuery.mk (Billboard.id billboard) startDate endDate
                                         None None)) ;;
  match Billboard.slotCount billboard with
  | Some slotCount =>
      if String.eqb (Billboard.type billboard) "digital" && negb (slotCount =? 0)
      then
        availableSlots <- probeSlots (Billboard.id billboard) startDate endDate 1
                                     (Z.to_nat slotCount) ;;
        ret (mkAvailableBillboard billboard
               (negb (Nat.eqb (List.length availableSlots) 0))
               availableSlots
               (BookingService.conflicts availability))
      else
        ret (mkAvailableBillboard billboard (BookingService.available availability) []
               (BookingService.conflicts availability))
  | None =>
      ret (mkAvailableBillboard billboard (BookingService.available availability) []
             (BookingService.conflicts availability))
  end.

Fixpoint describeAll (startDate endDate : CalendarDate) (allBillboards : list Billboard.t)
  : Async (list AvailableBillboard) :=
  match allBillboards with
  | [] => ret []
  | billboard :: rest =>
      entry <- describeBillboard startDate endDate billboard ;;
      entries <- describeAll startDate endDate rest ;;
      ret (entry :: entries)
  end.

Section AvailableBillboards.

(** [orderBy(asc(billboards.name))]: the order is the collation of the
    store, taken as given. *)
Variable orderByName : list Billboard.t -> list Billboard.t.

Definition getAvailableBillboards (startDate endDate : CalendarDate)
  : Async (list AvailableBillboard) :=
  allBillboards <- query (fun db =>
    orderByName (filter (fun b => String.eqb (Billboard.status b) "active")
                        (billboards db))) ;;
  describeAll startDate endDate allBillboards.

End AvailableBillboards.

End CampaignService.

(** ** PurchaseOrderService *)

Module PurchaseOrderService.

(** [actualValue] is [None] when missing or empty. *)
Module CreatePurchaseOrderDto.
Record t := mk {
  bookingId : UUID;
  actualStartDate : CalendarDate;
  actualEndDate : CalendarDate;
  actualValue : option Decimal;
  adjustmentNotes : option string;
  createdBy : option UUID
}.
End CreatePurchaseOrderDto.


(** The purchase order of that id, when its booking (inner join) exists. *)
Definition getPurchaseOrderById (id : UUID) (db : DB) : option PurchaseOrder.t :=
  match find (fun p => String.eqb (PurchaseOrder.id p) id) (purchaseOrders db) with
  | None => None
  | Some p =>
      if existsb (fun b => String.eqb (Booking.id b) (PurchaseOrder.bookingId p))
                 (bookings db)
      then Some p else None
  end.

Definition getPurchaseOrderByBookingId (bookingId : UUID) (db : DB)
  : option PurchaseOrder.t :=
  find (fun p => String.eqb (PurchaseOrder.bookingId p) bookingId) (purchaseOrders db).

Definition validStatuses : list string := ["completed"; "confirmed"; "active"].

Definition createPurchaseOrder (data : CreatePurchaseOrderDto.t)
  : Async (option PurchaseOrder.t) :=
  found <- query (BookingService.getBookingById (CreatePurchaseOrderDto.bookingId data)) ;;
  match found with
  | None => throw "Booking not found"
  | Some details =>
      let booking := BookingService.row details in
      existingPO <- query (getPurchaseOrderByBookingId
                             (CreatePurchaseOrderDto.bookingId data)) ;;
      match existingPO with
      | Some _ => throw "Purchase order already exists for this booking"
      | None =>
          if negb (BookingService.includes validStatuses (Booking.status booking))
          then throw ("Cannot generate PO for booking in " ++ dquote
                        ++ Booking.status booking ++ dquote
                        ++ " status. Booking must be completed first.")
          else
            let actualValue :=
              match CreatePurchaseOrderDto.actualValue data with
              | Some v => Some (Supplied v)
              | None =>
                  match BookingService.billboard details with
                  | Some billboard =>
                      let actualStartDate :=
                        JS.new_Date (CreatePurchaseOrderDto.actualStartDate data) in
                      let actualEndDate :=
                        JS.new_Date (CreatePurchaseOrderDto.actualEndDate data) in
                      let actualDays := JS.inclusiveDays actualStartDate actualEndDate in
                      let rate := parseFloat (Billboard.ratePerDay billboard) in
                      Some (Fixed (JS.toFixed2_value (PrimFloat.mul rate actualDays)))
                  | None => None
                  end
              end in
            poNumber <- SequenceService.getNextSequence SequenceEntityType.po ;;
            stored <- storeDecimal (match actualValue with
                                    | Some t => t
                                    | None => Supplied 0
                                    end) ;;
            id <- defaultRandom ;;
            write (fun db => with_purchaseOrders db (purchaseOrders db ++ [
              PurchaseOrder.mk id poNumber
                               (CreatePurchaseOrderDto.bookingId data)
                               (CreatePurchaseOrderDto.actualStartDate data)
                               (CreatePurchaseOrderDto.actualEndDate data)
                               stored
                               (CreatePurchaseOrderDto.adjustmentNotes data)
                               (CreatePurchaseOrderDto.createdBy data)
                               (CreatePurchaseOrderDto.createdBy data)])%list) ;;;
            BookingService.updateBookingStatus (CreatePurchaseOrderDto.bookingId data)
                                               "po_generated"
                                               (CreatePurchaseOrderDto.createdBy data) ;;;
            query (getPurchaseOrderById id)
      end
  end.


Module UpdatePurchaseOrderDto.
Record t := mk {
  actualStartDate : option CalendarDate;
  actualEndDate : option CalendarDate;
  actualValue : option Decimal;
  adjustmentNotes : option string;
  updatedBy : option UUID
}.
End UpdatePurchaseOrderDto.

Definition applyPurchaseOrderUpdate (data : UpdatePurchaseOrderDto.t)
                                    (p : PurchaseOrder.t) : PurchaseOrder.t :=
  PurchaseOrder.mk
    (PurchaseOrder.id p)
    (PurchaseOrder.poNumber p)
    (PurchaseOrder.bookingId p)
    (BookingService.assign (UpdatePurchaseOrderDto.actualStartDate data)
                           (PurchaseOrder.actualStartDate p))
    (BookingService.assign (UpdatePurchaseOrderDto.actualEndDate data)
                           (PurchaseOrder.actualEndDate p))
    (BookingService.assign (UpdatePurchaseOrderDto.actualValue data)
                           (PurchaseOrder.actualValue p))
    (match UpdatePurchaseOrderDto.adjustmentNotes data with
     | Some n => Some n | None => PurchaseOrder.adjustmentNotes p end)
    (PurchaseOrder.createdBy p)
    (match UpdatePurchaseOrderDto.updatedBy data with
     | Some u => Some u | None => PurchaseOrder.updatedBy p end).

(** The [UPDATE] is refused by the store when the supplied [actualValue]
    does not fit its column. *)
Definition updatePurchaseOrder (id : UUID) (data : UpdatePurchaseOrderDto.t)
  : Async (option PurchaseOrder.t) :=
  existing <- query (getPurchaseOrderById id) ;;
  match existing with
  | None => throw "Purchase order not found"
  | Some _ =>
      match UpdatePurchaseOrderDto.actualValue data with
      | Some actualValue => storeDecimal (Supplied actualValue) ;;; ret tt
      | None => ret tt
      end ;;;
      write (fun db => with_purchaseOrders db
        (map (fun p => if String.eqb (PurchaseOrder.id p) id
                       then applyPurchaseOrderUpdate data p else p)
             (purchaseOrders db))) ;;;
      query (getPurchaseOrderById id)
  end.

(** [invoices.purchase_order_id] restricts the deletion of a purchase order
    that an invoice names; no code of the repository writes an invoice, so
    the store holds none. *)
Definition deletePurchaseOrder (id : UUID) (updatedBy : option UUID) : Async unit :=
  purchaseOrder <- query (getPurchaseOrderById id) ;;
  match purchaseOrder with
  | None => throw "Purchase order not found"
  | Some purchaseOrder =>
      BookingService.updateBookingStatus (PurchaseOrder.bookingId purchaseOrder)
                                         "completed" updatedBy ;;;
      write (fun db => with_purchaseOrders db
        (filter (fun p => negb (String.eqb (PurchaseOrder.id p) id)) (purchaseOrders db)))
  end.

(** [orderBy(desc(bookings.endDate))], keeping table order among equals. *)
Fixpoint insertByEndDateDesc (b : Booking.t) (sorted : list Booking.t) : list Booking.t :=
  match sorted with
  | [] => [b]
  | x :: rest =>
      if Booking.endDate x <? Booking.endDate b then b :: x :: rest
      else x :: insertByEndDateDesc b rest
  end.

Definition orderByEndDateDesc (rows : list Booking.t) : list Booking.t :=
  fold_left (fun sorted b => insertByEndDateDesc b sorted) rows [].

(** The rows of [getBookingsEligibleForPO], before their projection. *)
Definition getBookingsEligibleForPO (customerId : option UUID) (db : DB)
  : list Booking.t :=
  let conditions : list Condition := [
    (fun b => BookingService.includes ["completed"; "confirmed"; "active"]
                                      (Booking.status b));
    (fun b => negb (existsb (fun p => String.eqb (PurchaseOrder.bookingId p)
                                                 (Booking.id b))
                            (purchaseOrders db)))
  ] in
  let conditions :=
    match string_or_null customerId with
    | Some customerId =>
        (conditions ++ [fun b => String.eqb (Booking.customerId b) customerId])%list
    | None => conditions
    end in
  orderByEndDateDesc (filter (and_ conditions) (bookings db)).

End PurchaseOrderService.

(** * Properties *)

(** ** The words of the specification *)

Import BookingService.

(** The booking is on the billboard the query names. *)
Definition onBillboard (q : AvailabilityQuery.t) (b : Booking.t) : Prop :=
  Booking.billboardId b = AvailabilityQuery.billboardId q.

(** Inclusive overlap of the candidate range [[s, e]] with the booking's
    [[s', e']]: [s <= e'] and [e >= s']. *)
Definition overlaps (q : AvailabilityQuery.t) (b : Booking.t) : Prop :=
  AvailabilityQuery.startDate q <= Booking.endDate b
  /\ AvailabilityQuery.endDate q >= Booking.startDate b.

(** The booking is not the one the query asks to leave out. *)
Definition notExcluded (q : AvailabilityQuery.t) (b : Booking.t) : Prop :=
  match AvailabilityQuery.excludeBookingId q with
  | Some excluded => JS.truthy excluded = true -> Booking.id b <> excluded
  | None => True
  end.

(** The booking passes the slot filter, which exists only for a digital
    billboard queried with a slot: the booking carries the number the query
    carries, so no booking passes when the query carries [null]. *)
Definition slotAdmits (billboard : Billboard.t) (q : AvailabilityQuery.t)
                      (b : Booking.t) : Prop :=
  Billboard.type billboard = "digital" ->
  forall slotNumber, AvailabilityQuery.slotNumber q = Some slotNumber ->
    exists n, slotNumber = Some n /\ Booking.slotNumber b = Some n.

(** The availability query [createCampaign] makes for one selection. *)
Definition selectionQuery (startDate endDate : CalendarDate)
                          (selection : CampaignService.BillboardSelection.t)
  : AvailabilityQuery.t :=
  AvailabilityQuery.mk (CampaignService.BillboardSelection.billboardId selection)
                       startDate endDate
                       (CampaignService.BillboardSelection.slotNumber selection) None.

(** Every requested billboard was found: the batch lookup returns as many
    rows as identifiers were requested. *)
Definition billboardsResolved (data : CampaignService.CreateCampaignDto.t) (db : DB) : Prop :=
  List.length
    (filter (fun b => existsb (String.eqb (Billboard.id b))
                        (map CampaignService.BillboardSelection.billboardId
                             (CampaignService.CreateCampaignDto.billboards data)))
            (billboards db))
  = List.length (map CampaignService.BillboardSelection.billboardId
                     (CampaignService.CreateCampaignDto.billboards data)).

(** The booking row [createCampaign] writes for one selection. *)
Definition bookingOfSelection (startDate endDate : CalendarDate)
                              (selection : CampaignService.BillboardSelection.t)
                              (b : Booking.t) : Prop :=
  Booking.billboardId b = CampaignService.BillboardSelection.billboardId selection
  /\ Booking.slotNumber b
     = number_or_null (CampaignService.BillboardSelection.slotNumber selection)
  /\ Booking.startDate b = startDate
  /\ Booking.endDate b = endDate
  /\ Booking.status b = "created".

(** A booking row with another status. *)
Definition withStatus (status : string) (b : Booking.t) : Booking.t :=
  Booking.mk (Booking.id b) (Booking.referenceCode b) (Booking.customerId b)
             (Booking.campaignId b) (Booking.billboardId b) (Booking.slotNumber b)
             (Booking.startDate b) (Booking.endDate b) (Booking.actualEndDate b)
             (Booking.notionalValue b) status (Booking.creativeRef b)
             (Booking.notes b) (Booking.createdBy b) (Booking.updatedBy b).

(** ** A small store to run the services on *)

Module Example.

Definition staticBillboard : Billboard.t :=
  Billboard.mk "bb-static" "Main Street" "BB-001" "static" "active" 100000 None.

Definition digitalBillboard : Billboard.t :=
  Billboard.mk "bb-digital" "Station Screen" "BB-002" "digital" "active" 100000 (Some 3).

(** Two billboards at 1000.00 a day and no booking yet. *)
Definition empty : DB :=
  mkDB [staticBillboard; digitalBillboard] [] [] [] [] 1 2024.

(** The static billboard from 2024-07-01 to 2024-07-10. *)
Definition staticRequest : CreateBookingDto.t :=
  CreateBookingDto.mk "cust-1" "bb-static" None None
                      (calendarDate 2024 7 1) (calendarDate 2024 7 10)
                      None None None None.

Definition booked : DB :=
  Eval vm_compute in snd (createBooking staticRequest empty).

(** The booking [createBooking] wrote into [booked]. *)
Definition staticBooking : Booking.t :=
  Booking.mk "uuid-1" "BK-2024-0001" "cust-1" None "bb-static" None
             (calendarDate 2024 7 1) (calendarDate 2024 7 10) None 1000000
             "created" None None None None.

(** A range that overlaps the booking, and one that only touches its
    last day. *)
Definition overlapQuery : AvailabilityQuery.t :=
  AvailabilityQuery.mk "bb-static" (calendarDate 2024 7 5) (calendarDate 2024 7 8)
                       None None.

Definition touchingQuery : AvailabilityQuery.t :=
  AvailabilityQuery.mk "bb-static" (calendarDate 2024 7 10) (calendarDate 2024 7 15)
                       None None.

(** The digital billboard: slot 1 booked, then asked for slot 2, for slot
    1 and without a slot over the same days. *)
Definition slotOneRequest : CreateBookingDto.t :=
  CreateBookingDto.mk "cust-1" "bb-digital" None (Some (Some 1))
                      (calendarDate 2024 7 1) (calendarDate 2024 7 10)
                      None None None None.

Definition slotOneBooked : DB :=
  Eval vm_compute in snd (createBooking slotOneRequest empty).

Definition slotQuery (slot : option (option Z)) : AvailabilityQuery.t :=
  AvailabilityQuery.mk "bb-digital" (calendarDate 2024 7 1) (calendarDate 2024 7 10)
                       slot None.

(** The digital billboard booked without a slot. *)
Definition slotlessRequest : CreateBookingDto.t :=
  CreateBookingDto.mk "cust-1" "bb-digital" None None
                      (calendarDate 2024 7 1) (calendarDate 2024 7 10)
                      None None None None.

(** A campaign over both billboards while the static one is booked. *)
Definition digitalSelection : CampaignService.BillboardSelection.t :=
  CampaignService.BillboardSelection.mk "bb-digital" (Some (Some 1)).

Definition staticSelection : CampaignService.BillboardSelection.t :=
  CampaignService.BillboardSelection.mk "bb-static" None.

Definition campaignRequest : CampaignService.CreateCampaignDto.t :=
  CampaignService.CreateCampaignDto.mk
    "Summer" "cust-1" None
    (Some (calendarDate 2024 7 5)) (Some (calendarDate 2024 7 8))
    [digitalSelection; staticSelection] None.

(** The booking moved to another status. *)
Definition confirmed : DB :=
  Eval vm_compute in snd (updateBookingStatus "uuid-1" "confirmed" None booked).

Definition invoiced : DB :=
  Eval vm_compute in snd (updateBookingStatus "uuid-1" "invoiced" None booked).

(** A payload that only sets the status. *)
Definition statusRequest (status : string) : UpdateBookingDto.t :=
  UpdateBookingDto.mk None None None None None None None (Some status) None None None.

Definition cancelled : DB :=
  Eval vm_compute in snd (updateBooking "uuid-1" (statusRequest "cancelled") booked).

Definition purchaseOrderRequest : PurchaseOrderService.CreatePurchaseOrderDto.t :=
  PurchaseOrderService.CreatePurchaseOrderDto.mk
    "uuid-1" (calendarDate 2024 7 1) (calendarDate 2024 7 7) None None None.

End Example.

(** ** Words for the further properties *)

(** The reference code of a counter value, as [getNextSequence] formats it. *)
Definition sequenceCode (entityType : SequenceEntityType.t) (year value : Z) : string :=
  SEQUENCE_PREFIXES entityType ++ "-" ++ JS.string_of_Z year ++ "-"
    ++ JS.padStart (JS.string_of_Z value) 4 "0".

(** The identifier [defaultRandom] hands out next. *)
Definition nextUuid (db : DB) : UUID :=
  "uuid-" ++ JS.string_of_Z (uuidSupply db).

(** The two date ranges share a day. *)
Definition rangesOverlap (b1 b2 : Booking.t) : Prop :=
  Booking.startDate b1 <= Booking.endDate b2
  /\ Booking.startDate b2 <= Booking.endDate b1.

(** Both bookings carry the same slot number. *)
Definition sameSlot (b1 b2 : Booking.t) : Prop :=
  exists n, Booking.slotNumber b1 = Some n /\ Booking.slotNumber b2 = Some n.

(** Two bookings may stand side by side: when they are on one billboard and
    their ranges overlap, the billboard is digital and they do not carry the
    same slot number. *)
Definition compatible (db : DB) (b1 b2 : Booking.t) : Prop :=
  Booking.billboardId b1 = Booking.billboardId b2 ->
  rangesOverlap b1 b2 ->
  exists billboard,
    findBillboard (Booking.billboardId b1) db = Some billboard
    /\ Billboard.type billboard = "digital"
    /\ ~ sameSlot b1 b2.

(** No two rows of the bookings table are double booked. *)
Definition noDoubleBooking (db : DB) : Prop :=
  ForallOrdPairs (compatible db) (bookings db).

(** Primary keys. *)
Definition uniqueBookingIds (db : DB) : Prop :=
  NoDup (map Booking.id (bookings db)).

Definition uniqueBillboardIds (db : DB) : Prop :=
  NoDup (map Billboard.id (billboards db)).

(** The unique constraint on [purchase_orders.booking_id]. *)
Definition onePurchaseOrderPerBooking (db : DB) : Prop :=
  NoDup (map PurchaseOrder.bookingId (purchaseOrders db)).

(** The number a string of decimal digits denotes. *)
Definition parseDigits (s : string) : option Z :=
  option_map Z.of_uint (NilEmpty.uint_of_string s).

(** The availability query [createBooking] makes for its payload. *)
Definition bookingQuery (data : CreateBookingDto.t) : AvailabilityQuery.t :=
  AvailabilityQuery.mk (CreateBookingDto.billboardId data)
                       (CreateBookingDto.startDate data)
                       (CreateBookingDto.endDate data)
                       (CreateBookingDto.slotNumber data) None.

(** The row [createBooking] writes for its payload, given the identifier,
    the reference code and the notional value it obtained. *)
Definition bookingRow (data : CreateBookingDto.t) (id : UUID) (referenceCode : string)
                      (notionalValue : Decimal) : Booking.t :=
  Booking.mk id referenceCode
             (CreateBookingDto.customerId data)
             (string_or_null (CreateBookingDto.campaignId data))
             (CreateBookingDto.billboardId data)
             (number_or_null (CreateBookingDto.slotNumber data))
             (CreateBookingDto.startDate data)
             (CreateBookingDto.endDate data)
             None notionalValue "created"
             (CreateBookingDto.creativeRef data)
             (CreateBookingDto.notes data)
             (CreateBookingDto.createdBy data)
             (CreateBookingDto.createdBy data).

(** The payload of [updateBooking] asks for the availability check: it
    carries a start date, an end date, a non-empty billboard or a slot. *)
Definition touchesPlacement (data : UpdateBookingDto.t) : bool :=
  isDefined (UpdateBookingDto.startDate data)
  || isDefined (UpdateBookingDto.endDate data)
  || isDefined (string_or_null (UpdateBookingDto.billboardId data))
  || isDefined (UpdateBookingDto.slotNumber data).

(** The payload of [updateBooking] fits the columns it writes: a notional
    value below 10^12 in magnitude, a status of at most twenty characters. *)
Definition fitsBookingColumns (data : UpdateBookingDto.t) : Prop :=
  (forall v, UpdateBookingDto.notionalValue data = Some v -> Z.abs v < 10 ^ 14)
  /\ (forall status, UpdateBookingDto.status data = Some status ->
                     (String.length status <= 20)%nat).

(** The availability query [updateBooking] then makes. *)
Definition updateQuery (id : UUID) (data : UpdateBookingDto.t) (existing : Booking.t)
  : AvailabilityQuery.t :=
  AvailabilityQuery.mk
    (assign (string_or_null (UpdateBookingDto.billboardId data))
            (Booking.billboardId existing))
    (assign (UpdateBookingDto.startDate data) (Booking.startDate existing))
    (assign (UpdateBookingDto.endDate data) (Booking.endDate existing))
    (number_or_undefined
       (assign (UpdateBookingDto.slotNumber data) (Booking.slotNumber existing)))
    (Some id).

(** The row [createPurchaseOrder] writes for its payload, given the
    identifier, the number and the actual value it obtained. *)
Definition purchaseOrderRow (data : PurchaseOrderService.CreatePurchaseOrderDto.t)
                            (id : UUID) (poNumber : string) (actualValue : Decimal)
  : PurchaseOrder.t :=
  PurchaseOrder.mk id poNumber
    (PurchaseOrderService.CreatePurchaseOrderDto.bookingId data)
    (PurchaseOrderService.CreatePurchaseOrderDto.actualStartDate data)
    (PurchaseOrderService.CreatePurchaseOrderDto.actualEndDate data)
    actualValue
    (PurchaseOrderService.CreatePurchaseOrderDto.adjustmentNotes data)
    (PurchaseOrderService.CreatePurchaseOrderDto.createdBy data)
    (PurchaseOrderService.CreatePurchaseOrderDto.createdBy data).

(** A booking row with another status and, when one is given, another
    updater; every other column as it was. *)
Definition statusChanged (status : string) (updatedBy : option UUID) (b : Booking.t)
  : Booking.t :=
  Booking.mk (Booking.id b) (Booking.referenceCode b) (Booking.customerId b)
             (Booking.campaignId b) (Booking.billboardId b) (Booking.slotNumber b)
             (Booking.startDate b) (Booking.endDate b) (Booking.actualEndDate b)
             (Booking.notionalValue b) status (Booking.creativeRef b)
             (Booking.notes b) (Booking.createdBy b)
             (match updatedBy with Some u => Some u | None => Booking.updatedBy b end).

(** The booking can be given a purchase order: its status is one of
    [completed], [confirmed], [active] and no purchase order names it. *)
Definition eligibleForPO (db : DB) (b : Booking.t) : Prop :=
  In (Booking.status b) ["completed"; "confirmed"; "active"]
  /\ forall p, In p (purchaseOrders db) -> PurchaseOrder.bookingId p <> Booking.id b.

(** The booking is on the billboard and its range shares a day with
    [[startDate, endDate]]. *)
Definition blocks (billboardId : UUID) (startDate endDate : CalendarDate)
                  (b : Booking.t) : Prop :=
  Booking.billboardId b = billboardId
  /\ startDate <= Booking.endDate b
  /\ Booking.startDate b <= endDate.

(** No booking that blocks the billboard in the range carries the slot. *)
Definition slotFree (db : DB) (billboardId : UUID) (startDate endDate : CalendarDate)
                    (slot : Z) : Prop :=
  forall b, In b (bookings db) -> blocks billboardId startDate endDate b ->
            Booking.slotNumber b <> Some slot.

(** An ordering of billboards returns rows of its input only. *)
Definition rowsOf (order : list Billboard.t -> list Billboard.t) : Prop :=
  forall (rows : list Billboard.t) (billboard : Billboard.t),
    In billboard (order rows) -> In billboard rows.

(** ** Further runs on the small store *)

Module Scenario.

(** The value an outcome carries, [default] when it is an error. *)
Definition valueOf {A} (default : A) (o : Outcome A * DB) : A :=
  match fst o with
  | Ok a => a
  | Throw _ => default
  end.

(** What [createBooking] returned for the first booking. *)
Definition created : option BookingDetails :=
  Eval vm_compute in valueOf None (createBooking Example.staticRequest Example.empty).

(** A second request for the static billboard, inside the booked days. *)
Definition overlapRequest : CreateBookingDto.t :=
  CreateBookingDto.mk "cust-2" "bb-static" None None
                      (calendarDate 2024 7 5) (calendarDate 2024 7 8)
                      None None None None.

(** The store after one and after two booking codes were drawn. *)
Definition counted : DB :=
  Eval vm_compute in
    snd (SequenceService.getNextSequence SequenceEntityType.booking Example.empty).

Definition countedAgain : DB :=
  Eval vm_compute in
    snd (SequenceService.getNextSequence SequenceEntityType.booking counted).

(** The first booking deleted again. *)
Definition deleted : DB :=
  Eval vm_compute in snd (deleteBooking "uuid-1" Example.booked).

(** The first booking moved by two days. *)
Definition moveRequest : UpdateBookingDto.t :=
  UpdateBookingDto.mk None None None None
                      (Some (calendarDate 2024 7 3)) (Some (calendarDate 2024 7 12))
                      None None None None None.

Definition movedResult : option BookingDetails :=
  Eval vm_compute in valueOf None (updateBooking "uuid-1" moveRequest Example.booked).

Definition moved : DB :=
  Eval vm_compute in snd (updateBooking "uuid-1" moveRequest Example.booked).

(** The purchase order of the confirmed booking. *)
Definition orderResult : option PurchaseOrder.t :=
  Eval vm_compute in
    valueOf None (PurchaseOrderService.createPurchaseOrder
                    Example.purchaseOrderRequest Example.confirmed).

Definition ordered : DB :=
  Eval vm_compute in
    snd (PurchaseOrderService.createPurchaseOrder
           Example.purchaseOrderRequest Example.confirmed).

Definition purchaseOrder : PurchaseOrder.t :=
  PurchaseOrder.mk "uuid-2" "PO-2024-0001" "uuid-1"
                   (calendarDate 2024 7 1) (calendarDate 2024 7 7) 700000
                   None None None.

(** The booking set back to [created] while its purchase order stands. *)
Definition reopened : DB :=
  Eval vm_compute in snd (updateBookingStatus "uuid-1" "created" None ordered).

(** An update that ends the purchase order before it starts. *)
Definition valueUpdate : PurchaseOrderService.UpdatePurchaseOrderDto.t :=
  PurchaseOrderService.UpdatePurchaseOrderDto.mk
    None (Some (calendarDate 2024 6 1)) (Some 900000) (Some "extended") None.

(** A campaign that asks for two slots of the digital billboard. *)
Definition twoSlotsRequest : CampaignService.CreateCampaignDto.t :=
  CampaignService.CreateCampaignDto.mk
    "Screens" "cust-1" None
    (Some (calendarDate 2024 7 5)) (Some (calendarDate 2024 7 8))
    [CampaignService.BillboardSelection.mk "bb-digital" (Some (Some 1));
     CampaignService.BillboardSelection.mk "bb-digital" (Some (Some 2))] None.

(** The campaign over both billboards, made while both are free. *)
Definition campaignResult : option CampaignService.CampaignDetails :=
  Eval vm_compute in
    valueOf None (CampaignService.createCampaign Example.campaignRequest Example.empty).

Definition campaigned : DB :=
  Eval vm_compute in
    snd (CampaignService.createCampaign Example.campaignRequest Example.empty).

(** A store with a campaign that has no booking. *)
Definition plannedCampaign : Campaign.t :=
  Campaign.mk "camp-1" "CP-2024-0001" "Autumn" "cust-1" None 0 None None None None.

Definition planned : DB :=
  mkDB [Example.staticBillboard; Example.digitalBillboard] [] [plannedCampaign] [] []
       1 2024.

(** Slots 2 and 3 of the digital billboard, booked while slot 1 is booked
    over the same days. *)
Definition slotTwoRequest : CreateBookingDto.t :=
  CreateBookingDto.mk "cust-2" "bb-digital" None (Some (Some 2))
                      (calendarDate 2024 7 5) (calendarDate 2024 7 8)
                      None None None None.

Definition slotTwoCreated : option BookingDetails :=
  Eval vm_compute in valueOf None (createBooking slotTwoRequest Example.slotOneBooked).

Definition twoSlots : DB :=
  Eval vm_compute in snd (createBooking slotTwoRequest Example.slotOneBooked).

Definition slotThreeRequest : CreateBookingDto.t :=
  CreateBookingDto.mk "cust-3" "bb-digital" None (Some (Some 3))
                      (calendarDate 2024 7 1) (calendarDate 2024 7 10)
                      None None None None.

Definition threeSlots : DB :=
  Eval vm_compute in snd (createBooking slotThreeRequest twoSlots).

(** A second booking of the static billboard, five days after the first,
    then moved up to the day after the first. *)
Definition laterRequest : CreateBookingDto.t :=
  CreateBookingDto.mk "cust-2" "bb-static" None None
                      (calendarDate 2024 7 15) (calendarDate 2024 7 20)
                      None None None None.

Definition twoStatic : DB :=
  Eval vm_compute in snd (createBooking laterRequest Example.booked).

Definition nearRequest : UpdateBookingDto.t :=
  UpdateBookingDto.mk None None None None
                      (Some (calendarDate 2024 7 11)) None
                      None None None None None.

Definition nearResult : option BookingDetails :=
  Eval vm_compute in valueOf None (updateBooking "uuid-2" nearRequest twoStatic).

Definition near : DB :=
  Eval vm_compute in snd (updateBooking "uuid-2" nearRequest twoStatic).

(** A campaign on slot 2 of the digital billboard and on the static one,
    made while slot 1 is booked over the same days. *)
Definition besideRequest : CampaignService.CreateCampaignDto.t :=
  CampaignService.CreateCampaignDto.mk
    "Beside" "cust-2" None
    (Some (calendarDate 2024 7 5)) (Some (calendarDate 2024 7 8))
    [CampaignService.BillboardSelection.mk "bb-digital" (Some (Some 2));
     Example.staticSelection] None.

Definition besideResult : option CampaignService.CampaignDetails :=
  Eval vm_compute in
    valueOf None (CampaignService.createCampaign besideRequest Example.slotOneBooked).

Definition beside : DB :=
  Eval vm_compute in
    snd (CampaignService.createCampaign besideRequest Example.slotOneBooked).

(** A campaign on the booked static billboard and on a billboard that does
    not exist. *)
Definition missingRequest : CampaignService.CreateCampaignDto.t :=
  CampaignService.CreateCampaignDto.mk
    "Missing" "cust-1" None
    (Some (calendarDate 2024 7 5)) (Some (calendarDate 2024 7 8))
    [Example.staticSelection; CampaignService.BillboardSelection.mk "bb-gone" None] None.

(** Billboards in table order. *)
Definition tableOrder (rows : list Billboard.t) : list Billboard.t := rows.

(** The available billboards while slot 1 of the digital one is booked. *)
Definition availability : list CampaignService.AvailableBillboard :=
  Eval vm_compute in
    valueOf [] (CampaignService.getAvailableBillboards
                  tableOrder (calendarDate 2024 7 5) (calendarDate 2024 7 8)
                  Example.slotOneBooked).

Definition digitalEntry : CampaignService.AvailableBillboard :=
  Eval vm_compute in
    nth 1 availability
        (CampaignService.mkAvailableBillboard Example.digitalBillboard false [] []).

(** What [createBooking] returned for slot 1 of the digital billboard, and
    further requests for that billboard inside the booked days: slot 1 once
    more, and a slot that is [null]. *)
Definition slotOneCreated : option BookingDetails :=
  Eval vm_compute in valueOf None (createBooking Example.slotOneRequest Example.empty).

Definition slotOneAgain : CreateBookingDto.t :=
  CreateBookingDto.mk "cust-2" "bb-digital" None (Some (Some 1))
                      (calendarDate 2024 7 5) (calendarDate 2024 7 8)
                      None None None None.

Definition nullSlotRequest : CreateBookingDto.t :=
  CreateBookingDto.mk "cust-2" "bb-digital" None (Some None)
                      (calendarDate 2024 7 5) (calendarDate 2024 7 8)
                      None None None None.

Definition nullSlotCreated : option BookingDetails :=
  Eval vm_compute in valueOf None (createBooking nullSlotRequest Example.slotOneBooked).

Definition nullSlotBooked : DB :=
  Eval vm_compute in snd (createBooking nullSlotRequest Example.slotOneBooked).

(** An update of a purchase order to 1,000,000,000,000.00, the least value
    its column refuses. *)
Definition oversizedUpdate : PurchaseOrderService.UpdatePurchaseOrderDto.t :=
  PurchaseOrderService.UpdatePurchaseOrderDto.mk
    None None (Some 100000000000000) None None.

(** A store whose booking counter of the year holds the largest value of
    its [integer] column. *)
Definition exhausted : DB :=
  with_sequences Example.booked
    [Sequence.mk SequenceEntityType.booking 2024 SequenceService.INT4_MAX].

End Scenario.

(** ** Lists and the monad *)

Lemma and__app (cs ds : list Condition) (b : Booking.t) :
  and_ (cs ++ ds) b = and_ cs b && and_ ds b.
Proof. unfold and_. apply forallb_app. Qed.

Lemma includes_In (l : list string) (s : string) :
  includes l s = true <-> In s l.
Proof.
  unfold includes. rewrite existsb_exists. split.
  - intros [x [Hin Heq]]. apply String.eqb_eq in Heq. now subst.
  - intros Hin. exists s. split; [assumption | apply String.eqb_refl].
Qed.

Lemma length_zero_false {A} (l : list A) :
  Nat.eqb (List.length l) 0 = false <-> exists x, In x l.
Proof.
  destruct l as [| a l]; simpl; split.
  - discriminate.
  - intros [x []].
  - intros _. exists a. now left.
  - reflexivity.
Qed.

Lemma length_zero_true {A} (l : list A) :
  Nat.eqb (List.length l) 0 = true <-> l = [].
Proof. destruct l; simpl; split; congruence. Qed.

(** ** The availability conditions, read as propositions *)

Lemma base_conditions_spec (q : AvailabilityQuery.t) (b : Booking.t) :
  and_ [ (fun b => String.eqb (Booking.billboardId b) (AvailabilityQuery.billboardId q));
         (fun b => Booking.startDate b <=? AvailabilityQuery.endDate q);
         (fun b => Booking.endDate b >=? AvailabilityQuery.startDate q) ] b = true
  <-> onBillboard q b /\ overlaps q b.
Proof.
  unfold and_, onBillboard, overlaps. simpl.
  rewrite !andb_true_iff, String.eqb_eq, Z.leb_le, Z.geb_le. intuition lia.
Qed.

Lemma exclude_conditions_spec (q : AvailabilityQuery.t) (b : Booking.t)
      (base : list Condition) :
  and_ match AvailabilityQuery.excludeBookingId q with
       | Some excludeBookingId =>
           if JS.truthy excludeBookingId
           then (base ++ [fun b => negb (String.eqb (Booking.id b) excludeBookingId)])%list
           else base
       | None => base
       end b = true
  <-> and_ base b = true /\ notExcluded q b.
Proof.
  unfold notExcluded.
  destruct (AvailabilityQuery.excludeBookingId q) as [ex |]; [| tauto].
  destruct (JS.truthy ex) eqn:Ht.
  - rewrite and__app, andb_true_iff. unfold and_ at 2. simpl.
    rewrite andb_true_r, negb_true_iff, String.eqb_neq. tauto.
  - split; [intros H; split; [exact H | discriminate] | tauto].
Qed.

Lemma availabilityConditions_spec (billboard : Billboard.t) (q : AvailabilityQuery.t)
      (b : Booking.t) :
  and_ (availabilityConditions billboard q) b = true
  <-> onBillboard q b /\ overlaps q b /\ notExcluded q b /\ slotAdmits billboard q b.
Proof.
  unfold availabilityConditions, slotAdmits.
  destruct (AvailabilityQuery.slotNumber q) as [n |].
  - destruct (String.eqb (Billboard.type billboard) "digital") eqn:Hd.
    + apply String.eqb_eq in Hd.
      rewrite and__app, andb_true_iff, exclude_conditions_spec, base_conditions_spec.
      unfold and_ at 1. simpl. rewrite andb_true_r. unfold sql_eq_int.
      split.
      * intros [[[Hb Ho] He] Hs]. repeat split; try assumption; try apply Ho.
        intros _ k Hk. injection Hk as <-.
        destruct (Booking.slotNumber b) as [v |]; [| discriminate].
        destruct n as [n |]; [| discriminate].
        apply Z.eqb_eq in Hs. exists n. now subst.
      * intros (Hb & Ho & He & Hs). repeat split; try assumption; try apply Ho.
        destruct (Hs Hd n eq_refl) as (k & -> & ->). apply Z.eqb_refl.
    + apply String.eqb_neq in Hd.
      rewrite exclude_conditions_spec, base_conditions_spec.
      split; [intros [[Hb Ho] He] | intros (Hb & Ho & He & _)]; repeat split;
        try assumption; try apply Ho.
      intros Hdig. contradiction.
  - rewrite exclude_conditions_spec, base_conditions_spec.
    split; [intros [[Hb Ho] He] | intros (Hb & Ho & He & _)]; repeat split;
      try assumption; try apply Ho.
    intros _ k Hk. discriminate.
Qed.

(** What [checkAvailability] returns once the billboard is found. *)
Lemma checkAvailability_found (q : AvailabilityQuery.t) (db : DB) (billboard : Billboard.t) :
  findBillboard (AvailabilityQuery.billboardId q) db = Some billboard ->
  exists r,
    checkAvailability q db = Ok r
    /\ conflicts r = map selectConflict
                         (filter (and_ (availabilityConditions billboard q)) (bookings db))
    /\ available r = Nat.eqb (List.length (conflicts r)) 0.
Proof.
  intros Hf. unfold checkAvailability. rewrite Hf. eexists. split; [reflexivity |].
  simpl. split; reflexivity.
Qed.

Lemma conflicts_iff (billboard : Billboard.t) (q : AvailabilityQuery.t) (db : DB)
      (c : Conflict.t) :
  In c (map selectConflict
            (filter (and_ (availabilityConditions billboard q)) (bookings db)))
  <-> exists b, In b (bookings db)
                /\ (onBillboard q b /\ overlaps q b /\ notExcluded q b
                    /\ slotAdmits billboard q b)
                /\ c = selectConflict b.
Proof.
  rewrite in_map_iff. split.
  - intros [b [Hc Hin]]. apply filter_In in Hin. destruct Hin as [Hin Hp].
    exists b. rewrite availabilityConditions_spec in Hp. auto.
  - intros [b (Hin & Hp & Hc)]. exists b. split; [auto |].
    apply filter_In. split; [assumption |]. now apply availabilityConditions_spec.
Qed.

(** ** Availability *)

(** C1: on an existing billboard of type [static], [checkAvailability]
    returns; it reports [available = false] exactly when some booking on that
    billboard, other than the excluded one, overlaps the candidate range
    inclusively ([s <= e'] and [e >= s']); the conflicts are exactly the
    projections of those bookings, whatever slot number the booking or the
    query carries; and a booking that only touches the range at one end day
    is among them. *)
Theorem checkAvailability_static_overlap :
  forall (db : DB) (q : AvailabilityQuery.t) (billboard : Billboard.t),
    findBillboard (AvailabilityQuery.billboardId q) db = Some billboard ->
    Billboard.type billboard = "static" ->
    exists r,
      checkAvailability q db = Ok r
      /\ (available r = false
          <-> exists b, In b (bookings db)
                        /\ onBillboard q b /\ notExcluded q b /\ overlaps q b)
      /\ (forall c, In c (conflicts r)
                    <-> exists b, In b (bookings db)
                                  /\ onBillboard q b /\ notExcluded q b /\ overlaps q b
                                  /\ c = selectConflict b)
      /\ (forall b, In b (bookings db) -> onBillboard q b -> notExcluded q b ->
                    Booking.startDate b <= Booking.endDate b ->
                    AvailabilityQuery.startDate q <= AvailabilityQuery.endDate q ->
                    Booking.endDate b = AvailabilityQuery.startDate q
                    \/ Booking.startDate b = AvailabilityQuery.endDate q ->
                    available r = false /\ In (selectConflict b) (conflicts r)).
Proof.
  intros db q billboard Hf Hstatic.
  destruct (checkAvailability_found q db billboard Hf) as (r & Hr & Hc & Ha).
  assert (Hnd : forall b, slotAdmits billboard q b).
  { intros b Hd. rewrite Hstatic in Hd. discriminate. }
  assert (Hin : forall c, In c (conflicts r)
                    <-> exists b, In b (bookings db)
                                  /\ onBillboard q b /\ notExcluded q b /\ overlaps q b
                                  /\ c = selectConflict b).
  { intros c. rewrite Hc, conflicts_iff. split.
    - intros [b (Hb & (H1 & H2 & H3 & _) & H5)]. exists b. auto.
    - intros [b (Hb & H1 & H3 & H2 & H5)]. exists b. repeat split; auto; apply H2. }
  assert (Hav : available r = false
          <-> exists b, In b (bookings db)
                        /\ onBillboard q b /\ notExcluded q b /\ overlaps q b).
  { rewrite Ha, length_zero_false. split.
    - intros [c Hcin]. apply Hin in Hcin. destruct Hcin as [b (Hb & H1 & H2 & H3 & _)].
      exists b. auto.
    - intros [b (Hb & H1 & H2 & H3)]. exists (selectConflict b). apply Hin.
      exists b. auto. }
  exists r. split; [exact Hr |]. split; [exact Hav |]. split; [exact Hin |].
  intros b Hb H1 H2 Hbse Hqse Htouch.
  assert (Ho : overlaps q b) by (unfold overlaps; lia).
  split; [apply Hav | apply Hin]; exists b; auto.
Qed.

(** C2: on an existing billboard of type [digital], a check with a slot
    number returns exactly the bookings that overlap the range and carry that
    slot number, so that overlapping bookings on other slots leave the result
    available; a check without a slot number returns every overlapping
    booking on the billboard, whatever its slot. *)
Theorem checkAvailability_digital_slots :
  forall (db : DB) (q : AvailabilityQuery.t) (billboard : Billboard.t),
    findBillboard (AvailabilityQuery.billboardId q) db = Some billboard ->
    Billboard.type billboard = "digital" ->
    exists r,
      checkAvailability q db = Ok r
      /\ (forall n, AvailabilityQuery.slotNumber q = Some (Some n) ->
            (forall c, In c (conflicts r)
                       <-> exists b, In b (bookings db)
                                     /\ onBillboard q b /\ notExcluded q b /\ overlaps q b
                                     /\ Booking.slotNumber b = Some n
                                     /\ c = selectConflict b)
            /\ ((forall b, In b (bookings db) -> onBillboard q b -> notExcluded q b ->
                           overlaps q b -> Booking.slotNumber b <> Some n) ->
                available r = true /\ conflicts r = []))
      /\ (AvailabilityQuery.slotNumber q = None ->
            (forall c, In c (conflicts r)
                       <-> exists b, In b (bookings db)
                                     /\ onBillboard q b /\ notExcluded q b /\ overlaps q b
                                     /\ c = selectConflict b)
            /\ (available r = false
                <-> exists b, In b (bookings db)
                              /\ onBillboard q b /\ notExcluded q b /\ overlaps q b)).
Proof.
  intros db q billboard Hf Hdig.
  destruct (checkAvailability_found q db billboard Hf) as (r & Hr & Hc & Ha).
  exists r. split; [exact Hr |]. split.
  - intros n Hn.
    assert (Hin : forall c, In c (conflicts r)
                       <-> exists b, In b (bookings db)
                                     /\ onBillboard q b /\ notExcluded q b /\ overlaps q b
                                     /\ Booking.slotNumber b = Some n
                                     /\ c = selectConflict b).
    { intros c. rewrite Hc, conflicts_iff. split.
      - intros [b (Hb & (H1 & H2 & H3 & H4) & H5)]. exists b.
        destruct (H4 Hdig _ Hn) as (k & Hk & Hslot). injection Hk as <-.
        repeat split; auto; try apply H2.
      - intros [b (Hb & H1 & H3 & H2 & H4 & H5)]. exists b.
        repeat split; auto; try apply H2.
        intros _ k Hk. rewrite Hn in Hk. injection Hk as <-. exists n. auto. }
    split; [exact Hin |].
    intros Hother.
    assert (Hnil : conflicts r = []).
    { destruct (conflicts r) as [| c cs] eqn:Hcs; [reflexivity |].
      destruct (proj1 (Hin c) (or_introl eq_refl)) as [b (Hb & H1 & H2 & H3 & H4 & _)].
      exfalso. exact (Hother b Hb H1 H2 H3 H4). }
    split; [| exact Hnil]. rewrite Ha. apply length_zero_true. exact Hnil.
  - intros Hnone.
    assert (Hin : forall c, In c (conflicts r)
                       <-> exists b, In b (bookings db)
                                     /\ onBillboard q b /\ notExcluded q b /\ overlaps q b
                                     /\ c = selectConflict b).
    { intros c. rewrite Hc, conflicts_iff. split.
      - intros [b (Hb & (H1 & H2 & H3 & _) & H5)]. exists b. auto.
      - intros [b (Hb & H1 & H3 & H2 & H5)]. exists b.
        repeat split; auto; try apply H2.
        intros _ k Hk. rewrite Hnone in Hk. discriminate. }
    split; [exact Hin |].
    rewrite Ha, length_zero_false. split.
    + intros [c Hcin]. apply Hin in Hcin. destruct Hcin as [b (Hb & H1 & H2 & H3 & _)].
      exists b. auto.
    + intros [b (Hb & H1 & H2 & H3)]. exists (selectConflict b). apply Hin.
      exists b. auto.
Qed.

(** C9: the conditions of [checkAvailability] do not look at the status of a
    booking; hence a booking on the billboard that overlaps the range, is not
    the excluded one and passes the slot filter where one applies is reported
    as a conflict and makes the result unavailable in each of the six
    statuses, [completed] and [invoiced] included. *)
Theorem checkAvailability_ignores_status :
  forall (db : DB) (q : AvailabilityQuery.t) (billboard : Billboard.t) (b : Booking.t),
    findBillboard (AvailabilityQuery.billboardId q) db = Some billboard ->
    In b (bookings db) ->
    In (Booking.status b) validStatuses ->
    onBillboard q b -> overlaps q b -> notExcluded q b -> slotAdmits billboard q b ->
    (forall status,
        and_ (availabilityConditions billboard q) (withStatus status b)
        = and_ (availabilityConditions billboard q) b)
    /\ exists r,
        checkAvailability q db = Ok r
        /\ In (selectConflict b) (conflicts r)
        /\ available r = false.
Proof.
  intros db q billboard b Hf Hin _ H1 H2 H3 H4. split.
  - intros status.
    assert (Hiff : and_ (availabilityConditions billboard q) (withStatus status b) = true
                   <-> and_ (availabilityConditions billboard q) b = true).
    { rewrite !availabilityConditions_spec. unfold onBillboard, overlaps, notExcluded,
        slotAdmits, withStatus. simpl. tauto. }
    destruct (and_ (availabilityConditions billboard q) (withStatus status b));
      destruct (and_ (availabilityConditions billboard q) b); try reflexivity.
    + symmetry. now apply Hiff.
    + now apply Hiff.
  - destruct (checkAvailability_found q db billboard Hf) as (r & Hr & Hc & Ha).
    exists r. split; [exact Hr |].
    assert (Hcin : In (selectConflict b) (conflicts r)).
    { rewrite Hc. apply conflicts_iff. exists b. auto 10. }
    split; [exact Hcin |]. rewrite Ha. apply length_zero_false. eauto.
Qed.

(** ** Campaign creation *)

Import CampaignService.

Lemma findDetails_filter (ids : list UUID) (id : UUID) (db : DB) :
  In id ids ->
  findDetails (filter (fun b => existsb (String.eqb (Billboard.id b)) ids) (billboards db)) id
  = findBillboard id db.
Proof.
  intros Hin. unfold findDetails, findBillboard.
  induction (billboards db) as [| a l IH]; [reflexivity |]. simpl.
  destruct (String.eqb (Billboard.id a) id) eqn:Ha.
  - assert (Hp : existsb (String.eqb (Billboard.id a)) ids = true).
    { apply existsb_exists. exists id. split; assumption. }
    rewrite Hp. simpl. now rewrite Ha.
  - destruct (existsb (String.eqb (Billboard.id a)) ids); [simpl; rewrite Ha |]; exact IH.
Qed.

Lemma checkSelections_throws (startDate endDate : CalendarDate)
      (details : list Billboard.t) (db : DB) (selection : BillboardSelection.t)
      (r : Availability) (selections : list BillboardSelection.t) :
  In selection selections ->
  checkAvailability (selectionQuery startDate endDate selection) db = Ok r ->
  available r = false ->
  exists e, checkSelections startDate endDate details selections db = (Throw e, db).
Proof.
  intros Hin Hr Ha. induction selections as [| s rest IH]; [destruct Hin |].
  simpl. unfold bind at 1. unfold attempt.
  fold (selectionQuery startDate endDate s).
  destruct (checkAvailability (selectionQuery startDate endDate s) db) as [r' | e] eqn:Hs.
  - destruct (available r') eqn:Ha'; simpl.
    + destruct Hin as [-> | Hin]; [congruence | auto].
    + eexists. reflexivity.
  - eexists. reflexivity.
Qed.

Lemma checkSelections_first (startDate endDate : CalendarDate)
      (details : list Billboard.t) (db : DB) (selection : BillboardSelection.t)
      (r : Availability) (pre post : list BillboardSelection.t) :
  (forall s, In s pre ->
     exists r', checkAvailability (selectionQuery startDate endDate s) db = Ok r'
                /\ available r' = true) ->
  checkAvailability (selectionQuery startDate endDate selection) db = Ok r ->
  available r = false ->
  checkSelections startDate endDate details (pre ++ selection :: post) db
  = (Throw (mkError (campaignConflictMessage
                       (findDetails details (BillboardSelection.billboardId selection))
                       (conflicts r))), db).
Proof.
  intros Hpre Hr Ha. induction pre as [| s pre IH]; simpl.
  - unfold bind, attempt. fold (selectionQuery startDate endDate selection).
    rewrite Hr, Ha. reflexivity.
  - unfold bind at 1. unfold attempt. fold (selectionQuery startDate endDate s).
    destruct (Hpre s (or_introl eq_refl)) as (r' & Hs & Ha').
    rewrite Hs, Ha'. simpl. apply IH. intros s' Hs'. apply Hpre. now right.
Qed.

Lemma checkSelections_ok (startDate endDate : CalendarDate) (details : list Billboard.t)
      (selections : list BillboardSelection.t) (db db1 : DB) (u : unit) :
  checkSelections startDate endDate details selections db = (Ok u, db1) ->
  db1 = db
  /\ forall s, In s selections ->
       exists r, checkAvailability (selectionQuery startDate endDate s) db = Ok r
                 /\ available r = true.
Proof.
  induction selections as [| s rest IH]; simpl; intros Hrun.
  - injection Hrun as _ <-. split; [reflexivity | intros s []].
  - unfold bind at 1, attempt in Hrun. fold (selectionQuery startDate endDate s) in Hrun.
    destruct (checkAvailability (selectionQuery startDate endDate s) db) as [r | e] eqn:Hs;
      [| discriminate].
    destruct (available r) eqn:Ha; simpl in Hrun; [| discriminate].
    destruct (IH Hrun) as [Hdb Hall]. split; [exact Hdb |].
    intros s' [<- | Hin]; [eauto | auto].
Qed.

Lemma checkSelections_reads (startDate endDate : CalendarDate)
      (details : list Billboard.t) (selections : list BillboardSelection.t) (db : DB) :
  snd (checkSelections startDate endDate details selections db) = db.
Proof.
  induction selections as [| s rest IH]; [reflexivity |].
  simpl. unfold bind at 1, attempt.
  destruct (checkAvailability _ db) as [r | e]; [| reflexivity].
  destruct (available r); simpl; [exact IH | reflexivity].
Qed.

(** C3: for a request that carries both dates, [createCampaign] writes
    only after every selection was found available over the campaign range;
    when one of the selections is unavailable it throws and leaves the store
    exactly as it found it, so no campaign row and no booking row has been
    written; and when every requested billboard was found and the
    selections before it are available, the error names that billboard and
    lists the reference codes of its conflicting bookings. *)
Theorem createCampaign_conflict_writes_nothing :
  forall (data : CreateCampaignDto.t) (db : DB) (startDate endDate : CalendarDate),
    CreateCampaignDto.startDate data = Some startDate ->
    CreateCampaignDto.endDate data = Some endDate ->
    (forall out db',
        createCampaign data db = (out, db') ->
        db' <> db ->
        forall s, In s (CreateCampaignDto.billboards data) ->
          exists r', checkAvailability (selectionQuery startDate endDate s) db = Ok r'
                     /\ available r' = true)
    /\ (forall (pre post : list BillboardSelection.t) (selection : BillboardSelection.t)
               (r : Availability),
          CreateCampaignDto.billboards data = (pre ++ selection :: post)%list ->
          checkAvailability (selectionQuery startDate endDate selection) db = Ok r ->
          available r = false ->
          (exists e, createCampaign data db = (Throw e, db))
          /\ (billboardsResolved data db ->
              (forall s, In s pre ->
                 exists r', checkAvailability (selectionQuery startDate endDate s) db = Ok r'
                            /\ available r' = true) ->
              exists billboard,
                findBillboard (BillboardSelection.billboardId selection) db = Some billboard
                /\ createCampaign data db
                   = (Throw (mkError
                        ("Billboard " ++ dquote ++ Billboard.name billboard ++ dquote
                           ++ " is not available for the selected dates. Conflicts with: "
                           ++ JS.join ", " (map Conflict.referenceCode (conflicts r)))),
                      db))).
Proof.
  intros data db startDate endDate Hs He. split.
  - intros out db' Hrun Hchanged.
    unfold createCampaign in Hrun. rewrite Hs, He in Hrun.
    destruct (CreateCampaignDto.billboards data) as [| x xs] eqn:Hx.
    { injection Hrun as _ Hdb. congruence. }
    cbv iota in Hrun. rewrite <- Hx in Hrun |- *.
    unfold bind at 1, query at 1 in Hrun.
    match type of Hrun with
    | context [negb ?c] => destruct c; cbv [negb] in Hrun
    end.
    2: { injection Hrun as _ Hdb. congruence. }
    unfold bind at 1 in Hrun.
    match type of Hrun with
    | context [checkSelections ?s ?e ?d ?l db] =>
        pose proof (checkSelections_reads s e d l db) as Hread;
        destruct (checkSelections s e d l db) as [[u | err] db1] eqn:Hcheck
    end.
    + exact (proj2 (checkSelections_ok _ _ _ _ _ _ _ Hcheck)).
    + simpl in Hread. subst db1. injection Hrun as _ Hdb. congruence.
  - intros pre post selection r Hb Hr Ha.
    assert (Hin : In selection (CreateCampaignDto.billboards data)).
    { rewrite Hb. apply in_or_app. right. now left. }
    assert (Hcons : exists x xs, CreateCampaignDto.billboards data = x :: xs).
    { rewrite Hb. destruct pre; simpl; eauto. }
    destruct Hcons as (x & xs & Hx).
    split.
    + unfold createCampaign. rewrite Hx, Hs, He. rewrite <- Hx.
      unfold bind at 1. unfold query at 1.
      match goal with |- context [negb ?c] => destruct c end; simpl.
      * destruct (checkSelections_throws startDate endDate
                    (filter (fun b => existsb (String.eqb (Billboard.id b))
                               (map BillboardSelection.billboardId
                                    (CreateCampaignDto.billboards data)))
                            (billboards db))
                    db selection r _ Hin Hr Ha) as [e Hthrow].
        unfold bind at 1. rewrite Hthrow. eauto.
      * eexists. reflexivity.
    + intros Hres Hpre.
      assert (Hfound : exists billboard,
                 findBillboard (BillboardSelection.billboardId selection) db
                 = Some billboard).
      { unfold checkAvailability in Hr. simpl in Hr.
        destruct (findBillboard (BillboardSelection.billboardId selection) db);
          [eauto | discriminate]. }
      destruct Hfound as [billboard Hfound]. exists billboard. split; [exact Hfound |].
      unfold createCampaign. rewrite Hx, Hs, He. rewrite <- Hx.
      unfold bind at 1. unfold query at 1.
      unfold billboardsResolved in Hres. rewrite Hres, Nat.eqb_refl. simpl.
      pose proof (checkSelections_first startDate endDate
                    (filter (fun b => existsb (String.eqb (Billboard.id b))
                               (map BillboardSelection.billboardId
                                    (CreateCampaignDto.billboards data)))
                            (billboards db))
                    db selection r pre post Hpre Hr Ha) as Hthrow.
      rewrite <- Hb in Hthrow.
      unfold bind at 1. rewrite Hthrow.
      rewrite findDetails_filter.
      * rewrite Hfound. reflexivity.
      * apply in_map. exact Hin.
Qed.

(** ** Booking lifecycle *)

(** C5: [updateBooking] on a booking whose status is [completed],
    [po_generated] or [invoiced] throws the "finalized" error for every
    payload and leaves the store, and so the booking row, unchanged. *)
Theorem updateBooking_finalized_fails :
  forall (db : DB) (id : UUID) (data : UpdateBookingDto.t) (details : BookingDetails),
    getBookingById id db = Some details ->
    In (Booking.status (row details)) ["completed"; "po_generated"; "invoiced"] ->
    updateBooking id data db
    = (Throw (mkError ("Cannot edit booking in " ++ dquote
                         ++ Booking.status (row details) ++ dquote
                         ++ " status. Booking is finalized.")), db)
    /\ getBookingById id (snd (updateBooking id data db)) = Some details.
Proof.
  intros db id data details Hfound Hstatus.
  assert (Heq : updateBooking id data db
    = (Throw (mkError ("Cannot edit booking in " ++ dquote
                         ++ Booking.status (row details) ++ dquote
                         ++ " status. Booking is finalized.")), db)).
  { unfold updateBooking, bind, query. rewrite Hfound.
    apply (includes_In nonEditableStatuses) in Hstatus. rewrite Hstatus. reflexivity. }
  split; [exact Heq |]. rewrite Heq. exact Hfound.
Qed.

(** C6: [shortCloseBooking] throws, leaving the store unchanged, whenever
    the booking's status is not one of [created], [confirmed], [active],
    whenever the actual end date is on or after the original end date (so
    also when the two are equal), and whenever it is before the start
    date. *)
Theorem shortCloseBooking_rejections :
  forall (db : DB) (id : UUID) (actualEndDate : CalendarDate) (reason : string)
         (updatedBy : option UUID) (details : BookingDetails),
    getBookingById id db = Some details ->
    ~ In (Booking.status (row details)) ["created"; "confirmed"; "active"]
    \/ actualEndDate >= Booking.endDate (row details)
    \/ actualEndDate < Booking.startDate (row details) ->
    exists e,
      shortCloseBooking id actualEndDate reason updatedBy db = (Throw e, db)
      /\ getBookingById id (snd (shortCloseBooking id actualEndDate reason updatedBy db))
         = Some details.
Proof.
  intros db id actualEndDate reason updatedBy details Hfound Hcase.
  assert (Hthrow : exists e,
             shortCloseBooking id actualEndDate reason updatedBy db = (Throw e, db)).
  { unfold shortCloseBooking, bind, query. rewrite Hfound.
    destruct (includes shortCloseStatuses (Booking.status (row details))) eqn:Hst; simpl.
    - destruct (JS.new_Date actualEndDate >=? JS.new_Date (Booking.endDate (row details)))
        eqn:Hge; [eexists; reflexivity |].
      destruct (JS.new_Date actualEndDate <? JS.new_Date (Booking.startDate (row details)))
        eqn:Hlt; [eexists; reflexivity |].
      exfalso. unfold JS.new_Date in Hge, Hlt.
      rewrite Z.geb_leb in Hge. apply Z.leb_gt in Hge. apply Z.ltb_ge in Hlt.
      destruct Hcase as [Hn | [Hn | Hn]].
      + apply Hn. now apply (includes_In shortCloseStatuses).
      + lia.
      + lia.
    - eexists. reflexivity. }
  destruct Hthrow as [e He]. exists e. split; [exact He |]. rewrite He. exact Hfound.
Qed.

(** ** Purchase orders *)

Lemma find_updated (id : UUID) (set : Booking.t -> Booking.t) (l : list Booking.t) :
  (forall b, Booking.id (set b) = Booking.id b) ->
  find (fun b => String.eqb (Booking.id b) id)
       (map (fun b => if String.eqb (Booking.id b) id then set b else b) l)
  = option_map set (find (fun b => String.eqb (Booking.id b) id) l).
Proof.
  intros Hid. induction l as [| a l IH]; [reflexivity |]. simpl.
  destruct (String.eqb (Booking.id a) id) eqn:Ha.
  - rewrite Hid, Ha. reflexivity.
  - rewrite Ha. exact IH.
Qed.

Lemma getNextSequence_run (e : SequenceEntityType.t) (db : DB) :
  (exists code rows,
      SequenceService.getNextSequence e db = (Ok code, with_sequences db rows))
  \/ (exists err, SequenceService.getNextSequence e db = (Throw err, db)).
Proof.
  unfold SequenceService.getNextSequence.
  destruct (SequenceService.upsert e (currentYear db) (sequences db)) as [[rows v] |];
    [left | right]; eauto.
Qed.

Lemma storeDecimal_run (t : DecimalText) (db : DB) :
  (exists d, storeDecimal t db = (Ok d, db))
  \/ (exists e, storeDecimal t db = (Throw e, db)).
Proof.
  destruct t as [d | v]; unfold storeDecimal.
  - destruct (Z.abs d <? 10 ^ 14); [left | right]; eexists; reflexivity.
  - destruct (decimal14_of_fixed2 v); [left | right]; eexists; reflexivity.
Qed.

Lemma storeDecimal_throws (t : DecimalText) (db db' : DB) (e : Error) :
  storeDecimal t db = (Throw e, db') -> message e = "numeric field overflow".
Proof.
  destruct t as [d | v]; unfold storeDecimal.
  - destruct (Z.abs d <? 10 ^ 14); [discriminate |].
    unfold throw. intros H. injection H as <- _. reflexivity.
  - destruct (decimal14_of_fixed2 v); [discriminate |].
    unfold throw. intros H. injection H as <- _. reflexivity.
Qed.

Lemma getNextSequence_throws (entityType : SequenceEntityType.t) (db db' : DB)
      (e : Error) :
  SequenceService.getNextSequence entityType db = (Throw e, db') ->
  message e = "integer out of range".
Proof.
  unfold SequenceService.getNextSequence.
  destruct (SequenceService.upsert entityType (currentYear db) (sequences db))
    as [[rows v] |]; [discriminate |].
  intros H. injection H as <- _. reflexivity.
Qed.

(** C7: [createPurchaseOrder] throws "Booking not found" when the booking
    does not exist, throws the "already exists" conflict when a purchase
    order of that booking exists, throws whenever the booking's status is
    not one of [completed], [confirmed], [active], writing nothing in each of
    these cases; and whenever it returns, the booking's status is
    [po_generated]. *)
Theorem createPurchaseOrder_guards :
  forall (data : PurchaseOrderService.CreatePurchaseOrderDto.t) (db : DB),
    let bookingId := PurchaseOrderService.CreatePurchaseOrderDto.bookingId data in
    (getBookingById bookingId db = None ->
     PurchaseOrderService.createPurchaseOrder data db
     = (Throw (mkError "Booking not found"), db))
    /\ (forall details existingPO,
          getBookingById bookingId db = Some details ->
          PurchaseOrderService.getPurchaseOrderByBookingId bookingId db = Some existingPO ->
          PurchaseOrderService.createPurchaseOrder data db
          = (Throw (mkError "Purchase order already exists for this booking"), db))
    /\ (forall details,
          getBookingById bookingId db = Some details ->
          ~ In (Booking.status (row details)) ["completed"; "confirmed"; "active"] ->
          exists e, PurchaseOrderService.createPurchaseOrder data db = (Throw e, db))
    /\ (forall purchaseOrder db',
          PurchaseOrderService.createPurchaseOrder data db = (Ok purchaseOrder, db') ->
          exists details details',
            getBookingById bookingId db = Some details
            /\ In (Booking.status (row details)) ["completed"; "confirmed"; "active"]
            /\ PurchaseOrderService.getPurchaseOrderByBookingId bookingId db = None
            /\ getBookingById bookingId db' = Some details'
            /\ Booking.status (row details') = "po_generated").
Proof.
  intros data db bookingId. repeat split.
  - intros Hnone. unfold PurchaseOrderService.createPurchaseOrder, bind, query.
    fold bookingId. rewrite Hnone. reflexivity.
  - intros details existingPO Hfound Hpo.
    unfold PurchaseOrderService.createPurchaseOrder, bind, query.
    fold bookingId. rewrite Hfound, Hpo. reflexivity.
  - intros details Hfound Hstatus.
    unfold PurchaseOrderService.createPurchaseOrder, bind at 1, query at 1.
    fold bookingId. rewrite Hfound. unfold bind at 1, query at 1.
    destruct (PurchaseOrderService.getPurchaseOrderByBookingId bookingId db);
      [eexists; reflexivity |].
    destruct (includes PurchaseOrderService.validStatuses (Booking.status (row details)))
      eqn:Hin; simpl.
    + exfalso. apply Hstatus. now apply (includes_In PurchaseOrderService.validStatuses).
    + eexists. reflexivity.
  - intros purchaseOrder db' Hrun.
    unfold PurchaseOrderService.createPurchaseOrder, bind at 1, query at 1 in Hrun.
    fold bookingId in Hrun.
    destruct (getBookingById bookingId db) as [details |] eqn:Hfound; [| discriminate].
    unfold bind at 1, query at 1 in Hrun.
    destruct (PurchaseOrderService.getPurchaseOrderByBookingId bookingId db) eqn:Hpo;
      [discriminate |].
    destruct (includes PurchaseOrderService.validStatuses (Booking.status (row details)))
      eqn:Hin; simpl in Hrun; [| discriminate].
    unfold bind at 1 in Hrun.
    destruct (getNextSequence_run SequenceEntityType.po db) as [(code & rows & Hseq) | (err & Hseq)];
      [| rewrite Hseq in Hrun; discriminate].
    rewrite Hseq in Hrun. unfold bind at 1 in Hrun.
    match type of Hrun with
    | context [storeDecimal ?t ?d] =>
        destruct (storeDecimal_run t d) as [[v Hv] | [e He]];
          [rewrite Hv in Hrun | rewrite He in Hrun; discriminate]
    end.
    unfold bind, defaultRandom, write, updateBookingStatus, query in Hrun.
    change (includes validStatuses "po_generated") with true in Hrun.
    cbv [bind write negb] in Hrun. injection Hrun as _ Hdb.
    assert (Hrow : find (fun b => String.eqb (Booking.id b) bookingId) (bookings db)
                   = Some (row details)).
    { unfold getBookingById in Hfound.
      destruct (find (fun b => String.eqb (Booking.id b) bookingId) (bookings db));
        [| discriminate].
      injection Hfound as <-. reflexivity. }
    exists details. eexists. split; [reflexivity |].
    split; [now apply (includes_In PurchaseOrderService.validStatuses) |].
    split; [reflexivity |].
    subst db'. unfold getBookingById, updateBookings. simpl bookings.
    rewrite find_updated by reflexivity. rewrite Hrow. simpl. split; reflexivity.
Qed.


(** ** Bookings stored without a slot *)

Lemma slot_condition_rejects_null (billboard : Billboard.t) (q : AvailabilityQuery.t)
      (n : option Z) (b : Booking.t) :
  Billboard.type billboard = "digital" ->
  AvailabilityQuery.slotNumber q = Some n ->
  Booking.slotNumber b = None ->
  and_ (availabilityConditions billboard q) b = false.
Proof.
  intros Hd Hn Hb.
  destruct (and_ (availabilityConditions billboard q) b) eqn:Hc; [| reflexivity].
  apply availabilityConditions_spec in Hc. destruct Hc as (_ & _ & _ & Hs).
  destruct (Hs Hd n Hn) as (k & _ & Hk). rewrite Hk in Hb. discriminate.
Qed.

Lemma checkAvailability_slot_ignores_null
      (db db' : DB) (q : AvailabilityQuery.t) (billboard : Billboard.t) (n : option Z)
      (extra : list Booking.t) :
  findBillboard (AvailabilityQuery.billboardId q) db = Some billboard ->
  Billboard.type billboard = "digital" ->
  AvailabilityQuery.slotNumber q = Some n ->
  billboards db' = billboards db ->
  bookings db' = (bookings db ++ extra)%list ->
  (forall b, In b extra -> Booking.slotNumber b = None) ->
  checkAvailability q db' = checkAvailability q db.
Proof.
  intros Hf Hd Hn Hbb Hbk Hnull.
  assert (Hf' : findBillboard (AvailabilityQuery.billboardId q) db' = Some billboard).
  { unfold findBillboard in *. now rewrite Hbb. }
  unfold checkAvailability. rewrite Hf, Hf', Hbk, filter_app.
  assert (Hnil : filter (and_ (availabilityConditions billboard q)) extra = []).
  { clear Hbk. induction extra as [| b extra IH]; [reflexivity |]. simpl.
    rewrite (slot_condition_rejects_null billboard q n b Hd Hn (Hnull b (or_introl eq_refl))).
    apply IH. intros b' Hb'. apply Hnull. now right. }
  rewrite Hnil, app_nil_r. reflexivity.
Qed.

(** What a successful [createBooking] has written. *)
Lemma createBooking_inserted (data : CreateBookingDto.t) (db db' : DB)
      (res : option BookingDetails) :
  createBooking data db = (Ok res, db') ->
  exists b,
    bookings db' = (bookings db ++ [b])%list
    /\ billboards db' = billboards db
    /\ Booking.billboardId b = CreateBookingDto.billboardId data
    /\ Booking.startDate b = CreateBookingDto.startDate data
    /\ Booking.endDate b = CreateBookingDto.endDate data
    /\ Booking.slotNumber b = number_or_null (CreateBookingDto.slotNumber data)
    /\ Booking.status b = "created".
Proof.
  intros Hrun. unfold createBooking, bind at 1, attempt in Hrun.
  match type of Hrun with
  | context [checkAvailability ?q db] =>
      destruct (checkAvailability q db) as [availability | e]; [| discriminate]
  end.
  destruct (available availability); simpl in Hrun; [| discriminate].
  unfold bind at 1 in Hrun.
  match type of Hrun with
  | (let (o, db1) := ?c db in _) = _ =>
      assert (Hnv : exists t, c db = (Ok t, db))
  end.
  { destruct (CreateBookingDto.notionalValue data); [eexists; reflexivity |].
    unfold bind, query.
    destruct (findBillboard (CreateBookingDto.billboardId data) db);
      eexists; reflexivity. }
  destruct Hnv as [t Hnv]. rewrite Hnv in Hrun. clear Hnv.
  unfold bind at 1 in Hrun.
  destruct (getNextSequence_run SequenceEntityType.booking db) as [(code & rows & Hseq) | (err & Hseq)];
    [| rewrite Hseq in Hrun; discriminate].
  rewrite Hseq in Hrun. unfold bind at 1 in Hrun.
  match type of Hrun with
  | context [storeDecimal ?t ?d] =>
      destruct (storeDecimal_run t d) as [[v Hv] | [e He]];
        [rewrite Hv in Hrun | rewrite He in Hrun; discriminate]
  end.
  cbv [bind defaultRandom write query] in Hrun. injection Hrun as _ Hdb. subst db'.
  eexists. simpl. repeat split; reflexivity.
Qed.

Lemma createBookings_inserted (data : CreateCampaignDto.t) (startDate endDate : CalendarDate)
      (c : Campaign.t) (details : list Billboard.t)
      (selections : list BillboardSelection.t) :
  (forall s, In s selections ->
     findDetails details (BillboardSelection.billboardId s) <> None) ->
  forall (total total' : JS.Number) (db db' : DB),
    createBookings data startDate endDate c details selections total db = (Ok total', db') ->
    exists new,
      bookings db' = (bookings db ++ new)%list
      /\ billboards db' = billboards db
      /\ Forall2 (bookingOfSelection startDate endDate) selections new.
Proof.
  induction selections as [| s rest IH]; intros Hfound total total' db db' Hrun.
  - simpl in Hrun. injection Hrun as _ <-. exists [].
    rewrite app_nil_r. repeat split. constructor.
  - cbn [createBookings] in Hrun.
    destruct (findDetails details (BillboardSelection.billboardId s)) as [billboard |] eqn:Hb;
      [| exfalso; exact (Hfound s (or_introl eq_refl) Hb)].
    unfold bind at 1 in Hrun.
    destruct (getNextSequence_run SequenceEntityType.booking db) as [(code & rows & Hseq) | (err & Hseq)];
      [| rewrite Hseq in Hrun; discriminate].
    rewrite Hseq in Hrun. unfold bind at 1 in Hrun.
    match type of Hrun with
    | context [storeDecimal ?t ?d] =>
        destruct (storeDecimal_run t d) as [[v Hv] | [e He]];
          [rewrite Hv in Hrun | rewrite He in Hrun; discriminate]
    end.
    unfold bind at 1, defaultRandom at 1 in Hrun.
    unfold bind at 1, write at 1 in Hrun.
    apply IH in Hrun; [| intros s' Hs'; apply Hfound; now right].
    destruct Hrun as (new & Hbk & Hbb & Hall).
    simpl in Hbk, Hbb. rewrite <- app_assoc in Hbk. simpl in Hbk.
    eexists. split; [exact Hbk |]. split; [exact Hbb |].
    constructor; [| exact Hall].
    unfold bookingOfSelection. simpl. repeat split; reflexivity.
Qed.

(** What a successful [createCampaign] has written: one booking per
    selection, in order. *)
Lemma createCampaign_inserted (data : CreateCampaignDto.t) (db db' : DB)
      (res : option CampaignDetails) :
  createCampaign data db = (Ok res, db') ->
  exists startDate endDate new,
    CreateCampaignDto.startDate data = Some startDate
    /\ CreateCampaignDto.endDate data = Some endDate
    /\ bookings db' = (bookings db ++ new)%list
    /\ billboards db' = billboards db
    /\ Forall2 (bookingOfSelection startDate endDate) (CreateCampaignDto.billboards data) new.
Proof.
  intros Hrun. unfold createCampaign in Hrun.
  destruct (CreateCampaignDto.billboards data) as [| x xs] eqn:Hx; [discriminate |].
  destruct (CreateCampaignDto.startDate data) as [startDate |]; [| discriminate].
  destruct (CreateCampaignDto.endDate data) as [endDate |]; [| discriminate].
  cbv iota in Hrun. rewrite <- Hx in Hrun.
  unfold bind at 1, query at 1 in Hrun.
  match type of Hrun with
  | context [negb ?c] => destruct c; cbv [negb] in Hrun;
                         [| unfold throw in Hrun; discriminate]
  end.
  unfold bind at 1 in Hrun.
  match type of Hrun with
  | context [checkSelections ?s ?e ?d ?l db] =>
      destruct (checkSelections s e d l db) as [[u | err] db1] eqn:Hcheck; [| discriminate];
      destruct (checkSelections_ok s e d l db db1 u Hcheck) as [-> Havail];
      set (details := d) in *
  end.
  unfold bind at 1 in Hrun.
  destruct (getNextSequence_run SequenceEntityType.campaign db) as [(code & rows & Hseq) | (err & Hseq)];
    [| rewrite Hseq in Hrun; discriminate].
  rewrite Hseq in Hrun.
  unfold bind at 1, defaultRandom at 1 in Hrun.
  unfold bind at 1, write at 1 in Hrun.
  unfold bind at 1 in Hrun.
  match type of Hrun with
  | context [createBookings ?a ?s ?e ?c ?d ?l ?t ?st] =>
      destruct (createBookings a s e c d l t st) as [[total | err] db2] eqn:Hloop;
        [| discriminate];
      apply createBookings_inserted in Hloop
  end.
  - destruct Hloop as (new & Hbk & Hbb & Hall).
    unfold bind at 1 in Hrun.
    match type of Hrun with
    | context [storeDecimal ?t ?d] =>
        destruct (storeDecimal_run t d) as [[v Hv] | [e He]];
          [rewrite Hv in Hrun | rewrite He in Hrun; discriminate]
    end.
    cbv [bind write query] in Hrun. injection Hrun as _ Hdb. subst db'.
    exists startDate, endDate, new.
    split; [reflexivity |]. split; [reflexivity |].
    split; [exact Hbk |]. split; [exact Hbb |]. rewrite Hx in Hall. exact Hall.
  - intros s Hs. destruct (Havail s Hs) as (r & Hr & _).
    unfold details. rewrite findDetails_filter.
    + unfold checkAvailability in Hr. simpl in Hr.
      destruct (findBillboard (BillboardSelection.billboardId s) db); [discriminate |].
      discriminate.
    + apply in_map. exact Hs.
Qed.

Lemma Forall2_slotless (startDate endDate : CalendarDate)
      (selections : list BillboardSelection.t) (new : list Booking.t) :
  Forall2 (bookingOfSelection startDate endDate) selections new ->
  (forall s, In s selections -> BillboardSelection.slotNumber s = None) ->
  forall b, In b new -> Booking.slotNumber b = None.
Proof.
  induction 1 as [| s b selections new Hsb Hrest IH]; intros Hnone b' Hin.
  - destruct Hin.
  - destruct Hin as [<- | Hin].
    + destruct Hsb as (_ & Hslot & _). rewrite Hslot.
      rewrite (Hnone s (or_introl eq_refl)). reflexivity.
    + apply IH; [| exact Hin]. intros s' Hs'. apply Hnone. now right.
Qed.

(** C10: in a check of a digital billboard with a slot number every
    reported conflict carries that slot number, so a booking stored with a
    null slot is never among them; [createBooking] called without a slot
    stores null, and [createCampaign] stores for each selection its slot or
    null when it has none; hence the result of the slot check is the same
    after such a booking is made as before, whatever the dates. *)
Theorem slotless_booking_blocks_no_slot :
  forall (db : DB) (q : AvailabilityQuery.t) (billboard : Billboard.t) (n : Z),
    findBillboard (AvailabilityQuery.billboardId q) db = Some billboard ->
    Billboard.type billboard = "digital" ->
    AvailabilityQuery.slotNumber q = Some (Some n) ->
    (exists r,
        checkAvailability q db = Ok r
        /\ forall c, In c (conflicts r) ->
                     Conflict.slotNumber c = Some n /\ Conflict.slotNumber c <> None)
    /\ (forall data res db',
          CreateBookingDto.slotNumber data = None ->
          createBooking data db = (Ok res, db') ->
          (exists b,
              bookings db' = (bookings db ++ [b])%list
              /\ Booking.slotNumber b = None
              /\ Booking.billboardId b = CreateBookingDto.billboardId data
              /\ Booking.startDate b = CreateBookingDto.startDate data
              /\ Booking.endDate b = CreateBookingDto.endDate data)
          /\ checkAvailability q db' = checkAvailability q db)
    /\ (forall data res db',
          createCampaign data db = (Ok res, db') ->
          exists startDate endDate new,
            CreateCampaignDto.startDate data = Some startDate
            /\ CreateCampaignDto.endDate data = Some endDate
            /\ bookings db' = (bookings db ++ new)%list
            /\ Forall2 (bookingOfSelection startDate endDate)
                       (CreateCampaignDto.billboards data) new
            /\ ((forall s, In s (CreateCampaignDto.billboards data) ->
                           BillboardSelection.slotNumber s = None) ->
                checkAvailability q db' = checkAvailability q db)).
Proof.
  intros db q billboard n Hf Hd Hn. split; [| split].
  - destruct (checkAvailability_found q db billboard Hf) as (r & Hr & Hc & _).
    exists r. split; [exact Hr |]. intros c Hin.
    rewrite Hc in Hin. apply conflicts_iff in Hin.
    destruct Hin as [b (_ & (_ & _ & _ & Hs) & ->)].
    simpl. destruct (Hs Hd _ Hn) as (k & Hk & Hslot). injection Hk as <-.
    rewrite Hslot. split; [reflexivity | discriminate].
  - intros data res db' Hslot Hrun.
    destruct (createBooking_inserted data db db' res Hrun)
      as (b & Hbk & Hbb & Hid & Hsd & Hed & Hsl & _).
    rewrite Hslot in Hsl. simpl in Hsl. split.
    + exists b. auto.
    + apply (checkAvailability_slot_ignores_null db db' q billboard (Some n) [b]); auto.
      intros b' [<- | []]. exact Hsl.
  - intros data res db' Hrun.
    destruct (createCampaign_inserted data db db' res Hrun)
      as (startDate & endDate & new & Hs & He & Hbk & Hbb & Hall).
    exists startDate, endDate, new. repeat split; try assumption.
    intros Hnone.
    apply (checkAvailability_slot_ignores_null db db' q billboard (Some n) new); auto.
    exact (Forall2_slotless startDate endDate _ new Hall Hnone).
Qed.

(** ** The services at work on the example store *)

(** C4: a booking made by [createBooking] and then set to status
    [cancelled] through [updateBooking] is still returned by
    [checkAvailability] as a conflict and still makes an overlapping range
    unavailable. *)
Theorem cancelled_booking_still_conflicts :
  (exists res,
      createBooking Example.staticRequest Example.empty = (Ok res, Example.booked))
  /\ (exists res,
        updateBooking "uuid-1" (Example.statusRequest "cancelled") Example.booked
        = (Ok res, Example.cancelled))
  /\ bookings Example.cancelled = [withStatus "cancelled" Example.staticBooking]
  /\ checkAvailability Example.overlapQuery Example.cancelled
     = Ok (mkAvailability false [selectConflict Example.staticBooking]).
Proof.
  split; [| split; [| split]].
  - eexists. vm_compute. reflexivity.
  - eexists. vm_compute. reflexivity.
  - vm_compute. reflexivity.
  - vm_compute. reflexivity.
Qed.

Lemma checkAvailability_static_overlap_witness :
  exists r,
    checkAvailability Example.touchingQuery Example.booked = Ok r
    /\ available r = false
    /\ In (selectConflict Example.staticBooking) (conflicts r).
Proof.
  destruct (checkAvailability_static_overlap
              Example.booked Example.touchingQuery Example.staticBillboard
              eq_refl eq_refl) as (r & Hr & _ & _ & Htouch).
  exists r. split; [exact Hr |].
  apply (Htouch Example.staticBooking).
  - left. reflexivity.
  - reflexivity.
  - exact I.
  - vm_compute. discriminate.
  - vm_compute. discriminate.
  - left. reflexivity.
Defined.

Lemma checkAvailability_digital_slots_witness :
  exists r,
    checkAvailability (Example.slotQuery (Some (Some 2))) Example.slotOneBooked = Ok r
    /\ available r = true /\ conflicts r = [].
Proof.
  destruct (checkAvailability_digital_slots
              Example.slotOneBooked (Example.slotQuery (Some (Some 2))) Example.digitalBillboard
              eq_refl eq_refl) as (r & Hr & Hslot & _).
  exists r. split; [exact Hr |].
  apply (Hslot 2 eq_refl).
  intros b [<- | []] _ _ _. vm_compute. discriminate.
Defined.

Lemma createCampaign_conflict_writes_nothing_witness :
  createCampaign Example.campaignRequest Example.booked
  = (Throw (mkError
       ("Billboard " ++ dquote ++ "Main Street" ++ dquote
          ++ " is not available for the selected dates. Conflicts with: BK-2024-0001")),
     Example.booked).
Proof.
  destruct (createCampaign_conflict_writes_nothing
              Example.campaignRequest Example.booked
              (calendarDate 2024 7 5) (calendarDate 2024 7 8)
              eq_refl eq_refl) as [_ Hconflict].
  destruct (Hconflict [Example.digitalSelection] [] Example.staticSelection
              (mkAvailability false [selectConflict Example.staticBooking])
              eq_refl eq_refl eq_refl) as [_ Hnamed].
  destruct Hnamed as (billboard & Hfound & Hrun).
  - reflexivity.
  - intros s [<- | []]. eexists. split; reflexivity.
  - injection Hfound as <-. exact Hrun.
Defined.

(** C3 does not hold of every request: a selection can be unavailable
    while the error names neither a billboard nor a booking, because the
    lookup of the billboards is compared with the number of selections
    before any availability check.  So it is for a request that names a
    billboard twice and for one that names a billboard that does not
    exist. *)
Lemma createCampaign_unavailable_pair_not_named :
  (checkAvailability
     (selectionQuery (calendarDate 2024 7 5) (calendarDate 2024 7 8)
                     (BillboardSelection.mk "bb-digital" (Some (Some 1))))
     Example.slotOneBooked
   = Ok (mkAvailability false
           [Conflict.mk "uuid-1" "BK-2024-0001" (calendarDate 2024 7 1)
                        (calendarDate 2024 7 10) (Some 1)])
   /\ createCampaign Scenario.twoSlotsRequest Example.slotOneBooked
      = (Throw (mkError "One or more billboards not found"), Example.slotOneBooked))
  /\ (checkAvailability
        (selectionQuery (calendarDate 2024 7 5) (calendarDate 2024 7 8)
                        Example.staticSelection)
        Example.booked
      = Ok (mkAvailability false [selectConflict Example.staticBooking])
      /\ createCampaign Scenario.missingRequest Example.booked
         = (Throw (mkError "One or more billboards not found"), Example.booked)).
Proof.
  split; split; vm_compute; reflexivity.
Qed.

Lemma updateBooking_finalized_fails_witness :
  updateBooking "uuid-1" (Example.statusRequest "created") Example.invoiced
  = (Throw (mkError ("Cannot edit booking in " ++ dquote ++ "invoiced" ++ dquote
                       ++ " status. Booking is finalized.")),
     Example.invoiced).
Proof.
  apply (updateBooking_finalized_fails
           Example.invoiced "uuid-1" (Example.statusRequest "created")
           (mkDetails (withStatus "invoiced" Example.staticBooking)
                      (Some Example.staticBillboard))).
  - reflexivity.
  - simpl. auto.
Defined.

Lemma shortCloseBooking_rejections_witness :
  exists e,
    shortCloseBooking "uuid-1" (calendarDate 2024 7 10) "early" None Example.booked
    = (Throw e, Example.booked)
    /\ getBookingById "uuid-1"
         (snd (shortCloseBooking "uuid-1" (calendarDate 2024 7 10) "early" None
                                 Example.booked))
       = Some (mkDetails Example.staticBooking (Some Example.staticBillboard)).
Proof.
  apply (shortCloseBooking_rejections
           Example.booked "uuid-1" (calendarDate 2024 7 10) "early" None
           (mkDetails Example.staticBooking (Some Example.staticBillboard))).
  - reflexivity.
  - right. left. vm_compute. discriminate.
Defined.

Lemma createPurchaseOrder_guards_witness :
  exists details',
    getBookingById "uuid-1"
      (snd (PurchaseOrderService.createPurchaseOrder
              Example.purchaseOrderRequest Example.confirmed))
    = Some details'
    /\ Booking.status (row details') = "po_generated".
Proof.
  destruct (createPurchaseOrder_guards
              Example.purchaseOrderRequest Example.confirmed)
    as (_ & _ & _ & Hsuccess).
  destruct (PurchaseOrderService.createPurchaseOrder
              Example.purchaseOrderRequest Example.confirmed)
    as [[purchaseOrder | e] db'] eqn:Hrun; [| vm_compute in Hrun; discriminate].
  destruct (Hsuccess purchaseOrder db' eq_refl) as (_ & details' & _ & _ & _ & Hd & Hst).
  exists details'. split; assumption.
Defined.


Lemma checkAvailability_ignores_status_witness :
  exists r,
    checkAvailability Example.overlapQuery Example.invoiced = Ok r
    /\ In (selectConflict (withStatus "invoiced" Example.staticBooking)) (conflicts r)
    /\ available r = false.
Proof.
  apply (checkAvailability_ignores_status
           Example.invoiced Example.overlapQuery Example.staticBillboard
           (withStatus "invoiced" Example.staticBooking)).
  - reflexivity.
  - left. reflexivity.
  - simpl. auto 10.
  - reflexivity.
  - split; vm_compute; discriminate.
  - exact I.
  - intros Hdigital. discriminate.
Defined.

Lemma slotless_booking_blocks_no_slot_witness :
  checkAvailability (Example.slotQuery (Some (Some 1)))
                    (snd (createBooking Example.slotlessRequest Example.empty))
  = Ok (mkAvailability true []).
Proof.
  destruct (slotless_booking_blocks_no_slot
              Example.empty (Example.slotQuery (Some (Some 1))) Example.digitalBillboard 1
              eq_refl eq_refl eq_refl) as (_ & Hbooking & _).
  destruct (createBooking Example.slotlessRequest Example.empty)
    as [[res | e] db'] eqn:Hrun; [| vm_compute in Hrun; discriminate].
  destruct (Hbooking Example.slotlessRequest res db' eq_refl Hrun) as [_ Hsame].
  simpl. rewrite Hsame. vm_compute. reflexivity.
Defined.

(** * Further properties of the services *)

(** ** Reference codes *)
Lemma SequenceEntityType_eqb_eq (a b : SequenceEntityType.t) :
  SequenceEntityType.eqb a b = true <-> a = b.
Proof. destruct a, b; simpl; split; congruence. Qed.

(** What the upsert returns and writes, read off the row it finds. *)
Lemma upsert_spec (e : SequenceEntityType.t) (y : Z) (rows : list Sequence.t) :
  match SequenceService.upsert e y rows with
  | Some (rows', v) =>
      v = match find (fun r => SequenceEntityType.eqb (Sequence.entityType r) e
                               && (Sequence.year r =? y)) rows with
          | Some existing => Sequence.currentValue existing + 1
          | None => 1
          end
      /\ v <= Z.max 1 SequenceService.INT4_MAX
      /\ forall e',
           find (fun r => SequenceEntityType.eqb (Sequence.entityType r) e'
                          && (Sequence.year r =? y)) rows'
           = if SequenceEntityType.eqb e e'
             then Some (Sequence.mk e y v)
             else find (fun r => SequenceEntityType.eqb (Sequence.entityType r) e'
                                 && (Sequence.year r =? y)) rows
  | None =>
      exists existing,
        find (fun r => SequenceEntityType.eqb (Sequence.entityType r) e
                       && (Sequence.year r =? y)) rows = Some existing
        /\ SequenceService.INT4_MAX < Sequence.currentValue existing + 1
  end.
Proof.
  induction rows as [| r rest IH]; simpl.
  - split; [reflexivity |]. split; [lia |]. intros e'. simpl.
    rewrite Z.eqb_refl, andb_true_r. destruct (SequenceEntityType.eqb e e'); reflexivity.
  - destruct (SequenceEntityType.eqb (Sequence.entityType r) e && (Sequence.year r =? y))
      eqn:Hr.
    + destruct (Sequence.currentValue r + 1 <=? SequenceService.INT4_MAX) eqn:Hfit.
      * apply Z.leb_le in Hfit. split; [reflexivity |]. split; [lia |].
        intros e'. simpl. rewrite Z.eqb_refl, andb_true_r.
        apply andb_true_iff in Hr. destruct Hr as [He Hy].
        apply SequenceEntityType_eqb_eq in He. apply Z.eqb_eq in Hy.
        destruct (SequenceEntityType.eqb e e') eqn:Hee; [reflexivity |].
        rewrite He, Hee. reflexivity.
      * apply Z.leb_gt in Hfit. exists r. split; [reflexivity | exact Hfit].
    + destruct (SequenceService.upsert e y rest) as [[rest' v] |].
      * destruct IH as (Hv & Hmax & Hfind). split; [exact Hv |]. split; [exact Hmax |].
        intros e'. simpl.
        destruct (SequenceEntityType.eqb (Sequence.entityType r) e'
                  && (Sequence.year r =? y)) eqn:Hr'.
        -- destruct (SequenceEntityType.eqb e e') eqn:Hee; [| reflexivity].
           apply SequenceEntityType_eqb_eq in Hee. subst e'. congruence.
        -- apply Hfind.
      * exact IH.
Qed.

Lemma parseDigits_zeros (k : nat) (s : string) :
  parseDigits (JS.repeat_string "0" k ++ s) = parseDigits s.
Proof.
  unfold parseDigits. induction k as [| k IH]; [reflexivity |].
  rewrite <- IH. simpl.
  destruct (NilEmpty.uint_of_string (JS.repeat_string "0" k ++ s)) as [d |];
    reflexivity.
Qed.

Lemma parseDigits_string_of_Z (v : Z) :
  0 <= v -> parseDigits (JS.string_of_Z v) = Some v.
Proof.
  intros Hv. unfold parseDigits, JS.string_of_Z.
  destruct v as [| p | p]; [reflexivity | | lia].
  simpl. unfold NilZero.string_of_uint.
  destruct (Pos.to_uint p) eqn:Hp;
    try (rewrite <- Hp, NilEmpty.usu; simpl; unfold Z.of_uint;
         rewrite DecimalPos.Unsigned.of_to; reflexivity).
  exfalso. apply (f_equal Pos.of_uint) in Hp.
  rewrite DecimalPos.Unsigned.of_to in Hp. discriminate.
Qed.

(** The digits of a padded counter value read back as that value. *)
Lemma parseDigits_padStart (v : Z) (n : nat) :
  0 <= v -> parseDigits (JS.padStart (JS.string_of_Z v) n "0") = Some v.
Proof.
  intros Hv. unfold JS.padStart. rewrite parseDigits_zeros.
  now apply parseDigits_string_of_Z.
Qed.

Lemma append_cancel_l (p s1 s2 : string) : p ++ s1 = p ++ s2 -> s1 = s2.
Proof.
  induction p as [| a p IH]; simpl; intros H; [exact H |].
  injection H as H. auto.
Qed.

(** One call of [getNextSequence]: the counter and the code while the
    counter fits its column, the refusal of the store when it does not. *)
Lemma getNextSequence_step (e : SequenceEntityType.t) (db : DB) :
  (SequenceService.getCurrentSequence e db + 1 <= SequenceService.INT4_MAX ->
   exists code rows,
     SequenceService.getNextSequence e db = (Ok code, with_sequences db rows)
     /\ SequenceService.getCurrentSequence e (with_sequences db rows)
        = SequenceService.getCurrentSequence e db + 1
     /\ (SequenceService.getCurrentSequence e db + 1 <> 0 ->
         code = sequenceCode e (currentYear db)
                             (SequenceService.getCurrentSequence e db + 1))
     /\ forall e', e' <> e ->
          SequenceService.getCurrentSequence e' (with_sequences db rows)
          = SequenceService.getCurrentSequence e' db)
  /\ (SequenceService.INT4_MAX < SequenceService.getCurrentSequence e db + 1 ->
      SequenceService.getNextSequence e db
      = (Throw (mkError "integer out of range"), db)).
Proof.
  unfold SequenceService.getNextSequence.
  pose proof (upsert_spec e (currentYear db) (sequences db)) as Hspec.
  assert (Hcur : match find (fun r => SequenceEntityType.eqb (Sequence.entityType r) e
                                      && (Sequence.year r =? currentYear db))
                            (sequences db) with
                 | Some existing => Sequence.currentValue existing + 1
                 | None => 1
                 end = SequenceService.getCurrentSequence e db + 1).
  { unfold SequenceService.getCurrentSequence.
    destruct (find _ (sequences db)); reflexivity. }
  destruct (SequenceService.upsert e (currentYear db) (sequences db)) as [[rows v] |].
  - destruct Hspec as (Hv & Hmax & Hfind). rewrite Hcur in Hv. split.
    + intros _. eexists. exists rows. split; [reflexivity |]. split; [| split].
      * unfold SequenceService.getCurrentSequence at 1. simpl. rewrite Hfind.
        destruct (SequenceEntityType.eqb e e) eqn:He; [simpl; exact Hv |].
        destruct e; discriminate.
      * intros Hnz. rewrite <- Hv in *. unfold sequenceCode.
        destruct (v =? 0) eqn:Hz; [apply Z.eqb_eq in Hz; contradiction | reflexivity].
      * intros e' Hne. unfold SequenceService.getCurrentSequence. simpl. rewrite Hfind.
        destruct (SequenceEntityType.eqb e e') eqn:He; [| reflexivity].
        apply SequenceEntityType_eqb_eq in He. congruence.
    + intros Hover. exfalso. unfold SequenceService.INT4_MAX in *. lia.
  - destruct Hspec as (existing & Hfound & Hover). split.
    + intros Hfit. exfalso. rewrite Hfound in Hcur. lia.
    + intros _. reflexivity.
Qed.

(** X1: while the counter of its entity type and year is below the largest
    value of its [integer] column, [getNextSequence] returns: it raises
    that counter by one (starting a missing counter at one), formats the new
    value as prefix, year and at least four digits, and leaves the counters
    of the other entity types and every other table as they were.  At the
    largest value the store refuses the increment: the call throws "integer
    out of range" and writes nothing. *)
Theorem getNextSequence_counts :
  forall (e : SequenceEntityType.t) (db : DB),
    (SequenceService.getCurrentSequence e db < SequenceService.INT4_MAX ->
     exists code db',
       SequenceService.getNextSequence e db = (Ok code, db')
       /\ SequenceService.getCurrentSequence e db'
          = SequenceService.getCurrentSequence e db + 1
       /\ (SequenceService.getCurrentSequence e db + 1 <> 0 ->
           code = sequenceCode e (currentYear db)
                               (SequenceService.getCurrentSequence e db + 1))
       /\ (forall e', e' <> e ->
             SequenceService.getCurrentSequence e' db'
             = SequenceService.getCurrentSequence e' db)
       /\ bookings db' = bookings db /\ billboards db' = billboards db
       /\ campaigns db' = campaigns db /\ purchaseOrders db' = purchaseOrders db
       /\ currentYear db' = currentYear db /\ uuidSupply db' = uuidSupply db)
    /\ (SequenceService.INT4_MAX <= SequenceService.getCurrentSequence e db ->
        SequenceService.getNextSequence e db
        = (Throw (mkError "integer out of range"), db)).
Proof.
  intros e db. destruct (getNextSequence_step e db) as [Hfits Hover]. split.
  - intros Hbelow.
    destruct Hfits as (code & rows & Hrun & Hcount & Hcode & Hother); [lia |].
    exists code, (with_sequences db rows).
    split; [exact Hrun |]. split; [exact Hcount |]. split; [exact Hcode |].
    split; [exact Hother | repeat split; reflexivity].
  - intros Hfull. apply Hover. lia.
Qed.

(** X2: a reference code determines its entity type and, within one year,
    its counter value; so the codes of two calls of [getNextSequence] in a
    row differ, and no booking code equals a campaign or purchase-order
    code. *)
Theorem sequence_codes_unique :
  (forall e1 e2 year v1 v2,
      0 <= v1 -> 0 <= v2 ->
      sequenceCode e1 year v1 = sequenceCode e2 year v2 -> e1 = e2 /\ v1 = v2)
  /\ (forall e db code1 db1 code2 db2,
        0 <= SequenceService.getCurrentSequence e db ->
        SequenceService.getNextSequence e db = (Ok code1, db1) ->
        SequenceService.getNextSequence e db1 = (Ok code2, db2) ->
        code1 <> code2).
Proof.
  assert (Hinj : forall e1 e2 year v1 v2,
      0 <= v1 -> 0 <= v2 ->
      sequenceCode e1 year v1 = sequenceCode e2 year v2 -> e1 = e2 /\ v1 = v2).
  { intros e1 e2 year v1 v2 H1 H2 Heq.
    assert (He : e1 = e2).
    { unfold sequenceCode in Heq. destruct e1, e2; simpl in Heq;
        try reflexivity; discriminate. }
    subst e2. split; [reflexivity |].
    unfold sequenceCode in Heq.
    apply append_cancel_l in Heq. apply append_cancel_l in Heq.
    apply append_cancel_l in Heq. apply append_cancel_l in Heq.
    apply (f_equal parseDigits) in Heq.
    rewrite !parseDigits_padStart in Heq by assumption. congruence. }
  split; [exact Hinj |].
  intros e db code1 db1 code2 db2 Hpos H1 H2.
  destruct (getNextSequence_step e db) as [Hfits1 Hover1].
  destruct (Z.le_gt_cases (SequenceService.getCurrentSequence e db + 1)
                          SequenceService.INT4_MAX) as [Hle1 | Hgt1];
    [| rewrite (Hover1 Hgt1) in H1; discriminate].
  destruct (Hfits1 Hle1) as (c1 & rows1 & Hr1 & Hc1 & Hcode1 & _).
  rewrite H1 in Hr1. injection Hr1 as <- ->.
  destruct (getNextSequence_step e (with_sequences db rows1)) as [Hfits2 Hover2].
  destruct (Z.le_gt_cases
              (SequenceService.getCurrentSequence e (with_sequences db rows1) + 1)
              SequenceService.INT4_MAX) as [Hle2 | Hgt2];
    [| rewrite (Hover2 Hgt2) in H2; discriminate].
  destruct (Hfits2 Hle2) as (c2 & rows2 & Hr2 & Hc2 & Hcode2 & _).
  rewrite H2 in Hr2. injection Hr2 as <- _.
  rewrite Hcode1 by lia. rewrite Hcode2 by lia. rewrite Hc1. simpl currentYear.
  intros Heq. apply Hinj in Heq; lia.
Qed.

(** ** Creating bookings *)

(** What a successful [createBooking] found and wrote, in full. *)
Lemma createBooking_success (data : CreateBookingDto.t) (db db' : DB)
      (res : option BookingDetails) :
  createBooking data db = (Ok res, db') ->
  exists billboard r code seqs stored,
    findBillboard (CreateBookingDto.billboardId data) db = Some billboard
    /\ checkAvailability (bookingQuery data) db = Ok r
    /\ available r = true
    /\ SequenceService.getNextSequence SequenceEntityType.booking db
       = (Ok code, with_sequences db seqs)
    /\ db' = with_bookings
               (with_uuidSupply (with_sequences db seqs) (uuidSupply db + 1))
               (bookings db ++ [bookingRow data (nextUuid db) code stored])%list
    /\ res = getBookingById (nextUuid db) db'.
Proof.
  intros Hrun. unfold createBooking, bind at 1, attempt in Hrun.
  fold (bookingQuery data) in Hrun.
  destruct (checkAvailability (bookingQuery data) db) as [availability | e] eqn:Hcheck;
    [| discriminate].
  destruct (available availability) eqn:Hav; simpl in Hrun; [| discriminate].
  assert (Hbb : exists billboard,
             findBillboard (CreateBookingDto.billboardId data) db = Some billboard).
  { unfold checkAvailability in Hcheck. simpl in Hcheck.
    destruct (findBillboard (CreateBookingDto.billboardId data) db);
      [eauto | discriminate]. }
  destruct Hbb as [billboard Hbb].
  unfold bind at 1 in Hrun.
  match type of Hrun with
  | (let (o, db1) := ?c db in _) = _ =>
      assert (Hnv : exists t, c db = (Ok t, db))
  end.
  { destruct (CreateBookingDto.notionalValue data); [eexists; reflexivity |].
    unfold bind, query. rewrite Hbb. eexists. reflexivity. }
  destruct Hnv as [t Hnv]. rewrite Hnv in Hrun. clear Hnv.
  unfold bind at 1 in Hrun.
  destruct (getNextSequence_run SequenceEntityType.booking db) as [(code & rows & Hseq) | (err & Hseq)];
    [| rewrite Hseq in Hrun; discriminate].
  rewrite Hseq in Hrun. unfold bind at 1 in Hrun.
  match type of Hrun with
  | context [storeDecimal ?t ?d] =>
      destruct (storeDecimal_run t d) as [[v Hv] | [e He]];
        [rewrite Hv in Hrun | rewrite He in Hrun; discriminate]
  end.
  cbv [bind defaultRandom write query] in Hrun.
  injection Hrun as Hres Hdb.
  exists billboard, availability, code, rows, v.
  repeat split; try assumption.
  - symmetry. exact Hdb.
  - subst db'. symmetry. exact Hres.
Qed.

(** An available check leaves no booking that meets the conditions. *)
Lemma available_excludes (q : AvailabilityQuery.t) (db : DB) (billboard : Billboard.t)
      (r : Availability) :
  findBillboard (AvailabilityQuery.billboardId q) db = Some billboard ->
  checkAvailability q db = Ok r ->
  available r = true ->
  forall b, In b (bookings db) ->
    ~ (onBillboard q b /\ overlaps q b /\ notExcluded q b /\ slotAdmits billboard q b).
Proof.
  intros Hf Hr Ha b Hin Hconds.
  destruct (checkAvailability_found q db billboard Hf) as (r' & Hr' & Hc & Hav).
  rewrite Hr in Hr'. injection Hr' as <-.
  rewrite Hav in Ha. apply length_zero_true in Ha.
  assert (Hcin : In (selectConflict b) (conflicts r)).
  { rewrite Hc. apply conflicts_iff. exists b. auto. }
  rewrite Ha in Hcin. destruct Hcin.
Qed.

(** A booking that does not pass the slot filter is on a digital billboard
    queried with a slot, and does not carry the number of the query. *)
Lemma slotAdmits_refuted (billboard : Billboard.t) (q : AvailabilityQuery.t)
      (b : Booking.t) :
  ~ slotAdmits billboard q b ->
  Billboard.type billboard = "digital"
  /\ exists slotNumber,
       AvailabilityQuery.slotNumber q = Some slotNumber
       /\ forall n, slotNumber = Some n -> Booking.slotNumber b <> Some n.
Proof.
  intros Hn. unfold slotAdmits in Hn.
  destruct (String.eqb (Billboard.type billboard) "digital") eqn:Hd.
  - apply String.eqb_eq in Hd. split; [exact Hd |].
    destruct (AvailabilityQuery.slotNumber q) as [v |].
    + exists v. split; [reflexivity |]. intros n -> Hs. apply Hn.
      intros _ k Hk. injection Hk as <-. exists n. auto.
    + exfalso. apply Hn. intros _ k Hk. discriminate.
  - apply String.eqb_neq in Hd. exfalso. apply Hn. intros Hd'. contradiction.
Qed.

Lemma findBillboard_ext (id : UUID) (db db' : DB) :
  billboards db' = billboards db -> findBillboard id db' = findBillboard id db.
Proof. intros H. unfold findBillboard. now rewrite H. Qed.

Lemma compatible_ext (db db' : DB) (b1 b2 : Booking.t) :
  billboards db' = billboards db -> compatible db b1 b2 -> compatible db' b1 b2.
Proof.
  intros Hbb Hc Hsame Hov. destruct (Hc Hsame Hov) as (billboard & Hf & Hrest).
  exists billboard. rewrite (findBillboard_ext _ db db' Hbb). auto.
Qed.

Lemma compatible_sym (db : DB) (b1 b2 : Booking.t) :
  compatible db b1 b2 -> compatible db b2 b1.
Proof.
  intros Hc Hsame Hov.
  destruct (Hc (eq_sym Hsame)) as (billboard & Hf & Hd & Hs).
  { unfold rangesOverlap in *. tauto. }
  exists billboard. rewrite Hsame. repeat split; try assumption.
  intros (n & H1 & H2). apply Hs. exists n. auto.
Qed.

Lemma ForallOrdPairs_snoc {A} (R : A -> A -> Prop) (l : list A) (b : A) :
  ForallOrdPairs R l -> Forall (fun x => R x b) l -> ForallOrdPairs R (l ++ [b]).
Proof.
  induction 1 as [| a l Ha Hl IH]; intros Hb; simpl.
  - constructor; constructor.
  - inversion Hb as [| ? ? Hab Hlb]; subst. constructor.
    + apply Forall_app. split; [exact Ha | constructor; [exact Hab | constructor]].
    + apply IH. exact Hlb.
Qed.

(** A row that an available check admitted is compatible with every row of
    the table, as long as it is on the queried billboard over the queried
    range and stores the slot the way the services do. *)
Lemma admitted_row_compatible (q : AvailabilityQuery.t) (db : DB) (r : Availability)
      (new : Booking.t) :
  checkAvailability q db = Ok r ->
  available r = true ->
  Booking.billboardId new = AvailabilityQuery.billboardId q ->
  Booking.startDate new = AvailabilityQuery.startDate q ->
  Booking.endDate new = AvailabilityQuery.endDate q ->
  (forall n, Booking.slotNumber new = Some n ->
             AvailabilityQuery.slotNumber q = Some (Some n)) ->
  forall x, In x (bookings db) -> notExcluded q x -> compatible db x new.
Proof.
  intros Hr Ha Hid Hs He Hslot x Hin Hex Hsame Hov.
  assert (Hbb : exists billboard,
             findBillboard (AvailabilityQuery.billboardId q) db = Some billboard).
  { unfold checkAvailability in Hr.
    destruct (findBillboard (AvailabilityQuery.billboardId q) db);
      [eauto | discriminate]. }
  destruct Hbb as [billboard Hbb].
  assert (Hnot := available_excludes q db billboard r Hbb Hr Ha x Hin).
  assert (Hon : onBillboard q x) by (unfold onBillboard; congruence).
  assert (Hovq : overlaps q x).
  { unfold overlaps, rangesOverlap in *. rewrite <- Hs, <- He. lia. }
  assert (Hna : ~ slotAdmits billboard q x) by tauto.
  destruct (slotAdmits_refuted billboard q x Hna) as (Hd & v & Hqv & Hxn).
  exists billboard. split; [rewrite Hsame, Hid; exact Hbb |].
  split; [exact Hd |].
  intros (k & Hxk & Hnk). apply Hslot in Hnk. rewrite Hqv in Hnk.
  injection Hnk as ->. exact (Hxn k eq_refl Hxk).
Qed.

Lemma ForallOrdPairs_impl {A} (R S : A -> A -> Prop) (l : list A) :
  (forall a b, R a b -> S a b) -> ForallOrdPairs R l -> ForallOrdPairs S l.
Proof.
  intros HRS. induction 1 as [| a l Ha Hl IH]; constructor; [| exact IH].
  eapply Forall_impl; [| exact Ha]. intros b. apply HRS.
Qed.

Lemma number_or_null_some (v : option (option Z)) (n : Z) :
  number_or_null v = Some n -> v = Some (Some n).
Proof.
  destruct v as [[m |] |]; simpl; try discriminate.
  destruct (m =? 0); [discriminate | congruence].
Qed.

(** A check of a digital billboard whose slot is [null] finds no conflict,
    whatever is booked. *)
Lemma checkAvailability_null_slot (q : AvailabilityQuery.t) (db : DB)
      (billboard : Billboard.t) :
  findBillboard (AvailabilityQuery.billboardId q) db = Some billboard ->
  Billboard.type billboard = "digital" ->
  AvailabilityQuery.slotNumber q = Some None ->
  checkAvailability q db = Ok (mkAvailability true []).
Proof.
  intros Hf Hd Hnull. unfold checkAvailability. rewrite Hf.
  assert (Hnone : forall rows, filter (and_ (availabilityConditions billboard q)) rows = []).
  { induction rows as [| b rows IH]; [reflexivity |]. simpl.
    destruct (and_ (availabilityConditions billboard q) b) eqn:Hc; [| exact IH].
    apply availabilityConditions_spec in Hc. destruct Hc as (_ & _ & _ & Hslot).
    destruct (Hslot Hd None Hnull) as (n & Hn & _). discriminate Hn. }
  rewrite Hnone. reflexivity.
Qed.

(** Past the availability guard, [createBooking] is only stopped by the
    store. *)
Lemma createBooking_admitted_throws (data : CreateBookingDto.t) (db db' : DB)
      (r : Availability) (e : Error) :
  checkAvailability (bookingQuery data) db = Ok r ->
  available r = true ->
  createBooking data db = (Throw e, db') ->
  message e = "integer out of range" \/ message e = "numeric field overflow".
Proof.
  intros Hcheck Hav Hrun. unfold createBooking, bind at 1, attempt in Hrun.
  fold (bookingQuery data) in Hrun. rewrite Hcheck in Hrun.
  destruct (available r); [| discriminate Hav]. simpl in Hrun.
  assert (Hbb : exists billboard,
             findBillboard (CreateBookingDto.billboardId data) db = Some billboard).
  { unfold checkAvailability in Hcheck. simpl in Hcheck.
    destruct (findBillboard (CreateBookingDto.billboardId data) db);
      [eauto | discriminate]. }
  destruct Hbb as [billboard Hbb].
  unfold bind at 1 in Hrun.
  match type of Hrun with
  | (let (o, db1) := ?c db in _) = _ =>
      assert (Hnv : exists t, c db = (Ok t, db))
  end.
  { destruct (CreateBookingDto.notionalValue data); [eexists; reflexivity |].
    unfold bind, query. rewrite Hbb. eexists. reflexivity. }
  destruct Hnv as [t Hnv]. rewrite Hnv in Hrun. clear Hnv.
  unfold bind at 1 in Hrun.
  destruct (SequenceService.getNextSequence SequenceEntityType.booking db)
    as [[code | err] db1] eqn:Hseq.
  - unfold bind at 1 in Hrun.
    match type of Hrun with
    | context [storeDecimal ?t ?d] =>
        destruct (storeDecimal t d) as [[v | err] db2] eqn:Hstore
    end.
    + cbv [bind defaultRandom write query] in Hrun. discriminate.
    + injection Hrun as <- _. right. exact (storeDecimal_throws _ _ _ _ Hstore).
  - injection Hrun as <- _. left. exact (getNextSequence_throws _ _ _ _ Hseq).
Qed.

(** X3: after a booking was created, a second [createBooking] on the same
    billboard over an overlapping range throws the conflict error, with the
    first booking among the conflicts it lists, and writes nothing, whenever
    the billboard is not digital, or the second request leaves the slot out,
    or both carry the same non-zero slot number.  A second request for a
    digital billboard whose slot is [null] is not refused: its check finds no
    conflict, the conflict error is not thrown, and the row it writes has no
    slot. *)
Theorem createBooking_rejects_double_booking :
  forall (first second : CreateBookingDto.t) (db db1 : DB)
         (res : option BookingDetails) (billboard : Billboard.t),
    createBooking first db = (Ok res, db1) ->
    findBillboard (CreateBookingDto.billboardId first) db = Some billboard ->
    CreateBookingDto.billboardId second = CreateBookingDto.billboardId first ->
    CreateBookingDto.startDate second <= CreateBookingDto.endDate first ->
    CreateBookingDto.endDate second >= CreateBookingDto.startDate first ->
    (Billboard.type billboard <> "digital"
     \/ CreateBookingDto.slotNumber second = None
     \/ (exists n, n <> 0 /\ CreateBookingDto.slotNumber first = Some (Some n)
                   /\ CreateBookingDto.slotNumber second = Some (Some n)) ->
     exists r b,
       In b (bookings db1)
       /\ Booking.id b = nextUuid db
       /\ checkAvailability (bookingQuery second) db1 = Ok r
       /\ In (selectConflict b) (conflicts r)
       /\ createBooking second db1
          = (Throw (mkError (notAvailableMessage (conflicts r))), db1))
    /\ (Billboard.type billboard = "digital" ->
        CreateBookingDto.slotNumber second = Some None ->
        checkAvailability (bookingQuery second) db1 = Ok (mkAvailability true [])
        /\ (forall e db2 listed,
               createBooking second db1 = (Throw e, db2) ->
               message e <> notAvailableMessage listed)
        /\ (forall res2 db2,
               createBooking second db1 = (Ok res2, db2) ->
               exists b2,
                 bookings db2 = (bookings db1 ++ [b2])%list
                 /\ Booking.billboardId b2 = CreateBookingDto.billboardId first
                 /\ Booking.startDate b2 = CreateBookingDto.startDate second
                 /\ Booking.endDate b2 = CreateBookingDto.endDate second
                 /\ Booking.slotNumber b2 = None)).
Proof.
  intros first second db db1 res billboard Hrun Hbb Hsame Hs He.
  destruct (createBooking_success first db db1 res Hrun)
    as (billboard' & r1 & code & seqs & stored & _ & _ & _ & _ & Hdb & _).
  set (b := bookingRow first (nextUuid db) code stored) in *.
  assert (Hbk : bookings db1 = (bookings db ++ [b])%list) by (subst db1; reflexivity).
  assert (Hbb1 : findBillboard (AvailabilityQuery.billboardId (bookingQuery second)) db1
                 = Some billboard).
  { simpl. rewrite Hsame. rewrite (findBillboard_ext _ db db1); [exact Hbb |].
    subst db1. reflexivity. }
  split.
  - intros Hblock.
    destruct (checkAvailability_found (bookingQuery second) db1 billboard Hbb1)
      as (r & Hr & Hc & Hav).
    assert (Hin : In b (bookings db1)).
    { rewrite Hbk. apply in_or_app. right. now left. }
    assert (Hcin : In (selectConflict b) (conflicts r)).
    { rewrite Hc. apply conflicts_iff. exists b. split; [exact Hin |].
      split; [| reflexivity]. repeat split.
      - symmetry. exact Hsame.
      - simpl. exact Hs.
      - simpl. exact He.
      - intros Hd v Hv. simpl in Hv.
        destruct Hblock as [Hstatic | [Hnone | (k & Hk & Hfirst & Hsecond)]].
        + contradiction.
        + congruence.
        + rewrite Hsecond in Hv. injection Hv as <-. exists k.
          split; [reflexivity |]. simpl. rewrite Hfirst. simpl.
          destruct (k =? 0) eqn:Hz; [apply Z.eqb_eq in Hz; contradiction | reflexivity]. }
    exists r, b. repeat split; try assumption.
    unfold createBooking, bind at 1, attempt. fold (bookingQuery second).
    rewrite Hr.
    assert (Hfalse : available r = false).
    { rewrite Hav. apply length_zero_false. eauto. }
    rewrite Hfalse. reflexivity.
  - intros Hd Hnull.
    assert (Hcheck : checkAvailability (bookingQuery second) db1
                     = Ok (mkAvailability true [])).
    { apply (checkAvailability_null_slot _ _ billboard Hbb1 Hd). exact Hnull. }
    split; [exact Hcheck |]. split.
    + intros e db2 listed Hthrow Hmsg.
      destruct (createBooking_admitted_throws second db1 db2 _ e Hcheck eq_refl Hthrow)
        as [Hm | Hm]; rewrite Hm in Hmsg; discriminate Hmsg.
    + intros res2 db2 Hrun2.
      destruct (createBooking_inserted second db1 db2 res2 Hrun2)
        as (b2 & Hbk2 & _ & Hid2 & Hs2 & He2 & Hslot2 & _).
      exists b2. rewrite Hnull in Hslot2. rewrite Hid2, Hsame. auto.
Qed.

(** X4: [createBooking] keeps the bookings table free of double bookings:
    if no two rows were on one billboard with overlapping ranges, other than
    on a digital billboard without sharing a slot number, the same holds
    after the new row is written. *)
Theorem createBooking_keeps_noDoubleBooking :
  forall (data : CreateBookingDto.t) (db db' : DB) (res : option BookingDetails),
    noDoubleBooking db ->
    createBooking data db = (Ok res, db') ->
    noDoubleBooking db'.
Proof.
  intros data db db' res Hinv Hrun.
  destruct (createBooking_success data db db' res Hrun)
    as (billboard & r & code & seqs & stored & Hbb & Hr & Ha & _ & Hdb & _).
  assert (Hbill : billboards db' = billboards db) by (subst db'; reflexivity).
  unfold noDoubleBooking. subst db'. simpl bookings.
  apply ForallOrdPairs_snoc.
  - eapply ForallOrdPairs_impl; [| exact Hinv].
    intros a b. apply compatible_ext. reflexivity.
  - apply Forall_forall. intros x Hin.
    apply (compatible_ext db); [reflexivity |].
    apply (admitted_row_compatible (bookingQuery data) db r);
      [exact Hr | exact Ha | reflexivity | reflexivity | reflexivity
       | | exact Hin | exact I].
    intros n Hn. simpl in Hn. apply number_or_null_some in Hn. exact Hn.
Qed.

(** ** Status changes, short close and deletion *)

Lemma bool_eq_iff (a b : bool) : (a = true <-> b = true) -> a = b.
Proof.
  destruct a, b; intros [H1 H2]; try reflexivity.
  - symmetry. now apply H1.
  - now apply H2.
Qed.

(** An update that keeps the identifier, the billboard, the dates, the slot
    and the reference code of every row does not change any availability
    result. *)
Lemma checkAvailability_updateBookings (q : AvailabilityQuery.t) (db : DB) (id : UUID)
      (set : Booking.t -> Booking.t) :
  (forall b, Booking.id (set b) = Booking.id b
             /\ Booking.referenceCode (set b) = Booking.referenceCode b
             /\ Booking.billboardId (set b) = Booking.billboardId b
             /\ Booking.slotNumber (set b) = Booking.slotNumber b
             /\ Booking.startDate (set b) = Booking.startDate b
             /\ Booking.endDate (set b) = Booking.endDate b) ->
  checkAvailability q (updateBookings id set db) = checkAvailability q db.
Proof.
  intros Hset. unfold checkAvailability.
  rewrite (findBillboard_ext _ db (updateBookings id set db)) by reflexivity.
  destruct (findBillboard (AvailabilityQuery.billboardId q) db) as [billboard |];
    [| reflexivity].
  assert (Heq : map selectConflict
                    (filter (and_ (availabilityConditions billboard q))
                            (bookings (updateBookings id set db)))
                = map selectConflict
                      (filter (and_ (availabilityConditions billboard q)) (bookings db))).
  { unfold updateBookings. simpl bookings.
    induction (bookings db) as [| b l IH]; [reflexivity |]. simpl.
    assert (Hb : and_ (availabilityConditions billboard q)
                      (if String.eqb (Booking.id b) id then set b else b)
                 = and_ (availabilityConditions billboard q) b).
    { destruct (String.eqb (Booking.id b) id); [| reflexivity].
      destruct (Hset b) as (_ & _ & H3 & H4 & H5 & H6).
      apply bool_eq_iff. rewrite !availabilityConditions_spec.
      unfold onBillboard, overlaps, notExcluded, slotAdmits.
      destruct (Hset b) as (H1 & _). rewrite H1, H3, H4, H5, H6. tauto. }
    rewrite Hb. destruct (and_ (availabilityConditions billboard q) b); [| exact IH].
    simpl. rewrite IH. f_equal.
    destruct (String.eqb (Booking.id b) id); [| reflexivity].
    destruct (Hset b) as (H1 & H2 & _ & H4 & H5 & H6).
    unfold selectConflict. now rewrite H1, H2, H4, H5, H6. }
  rewrite Heq. reflexivity.
Qed.

(** X5: neither [updateBookingStatus] nor [shortCloseBooking] changes the
    result of any availability check, whatever they return: a booking that
    was short-closed or completed keeps blocking its whole original range. *)
Theorem status_changes_keep_availability :
  forall (q : AvailabilityQuery.t) (db : DB) (id : UUID),
    (forall status updatedBy,
        checkAvailability q (snd (updateBookingStatus id status updatedBy db))
        = checkAvailability q db)
    /\ (forall actualEndDate reason updatedBy,
          checkAvailability q (snd (shortCloseBooking id actualEndDate reason updatedBy db))
          = checkAvailability q db).
Proof.
  intros q db id. split.
  - intros status updatedBy. unfold updateBookingStatus.
    destruct (negb (includes validStatuses status)); [reflexivity |].
    cbv [bind write query]. simpl snd.
    apply checkAvailability_updateBookings. intros b. simpl. auto 10.
  - intros actualEndDate reason updatedBy. unfold shortCloseBooking, bind at 1, query at 1.
    destruct (getBookingById id db) as [details |]; [| reflexivity].
    destruct (negb (includes shortCloseStatuses (Booking.status (row details))));
      [reflexivity |].
    destruct (JS.new_Date actualEndDate >=? JS.new_Date (Booking.endDate (row details)));
      [reflexivity |].
    destruct (JS.new_Date actualEndDate <? JS.new_Date (Booking.startDate (row details)));
      [reflexivity |].
    cbv [bind write query]. simpl snd.
    apply checkAvailability_updateBookings. intros b. simpl. auto 10.
Qed.

Lemma getBookingById_row (id : UUID) (db : DB) (details : BookingDetails) :
  getBookingById id db = Some details ->
  find (fun b => String.eqb (Booking.id b) id) (bookings db) = Some (row details)
  /\ billboard details = findBillboard (Booking.billboardId (row details)) db
  /\ Booking.id (row details) = id
  /\ In (row details) (bookings db).
Proof.
  unfold getBookingById. intros H.
  destruct (find (fun b => String.eqb (Booking.id b) id) (bookings db)) as [b |] eqn:Hf;
    [| discriminate].
  injection H as <-. simpl. apply find_some in Hf. destruct Hf as [Hin Heq].
  apply String.eqb_eq in Heq. auto.
Qed.

(** Looking a booking up after an update of the rows of its identifier. *)
Lemma getBookingById_updated (id : UUID) (set : Booking.t -> Booking.t) (db : DB) :
  (forall b, Booking.id (set b) = Booking.id b) ->
  getBookingById id (updateBookings id set db)
  = match find (fun b => String.eqb (Booking.id b) id) (bookings db) with
    | Some b => Some (mkDetails (set b) (findBillboard (Booking.billboardId (set b)) db))
    | None => None
    end.
Proof.
  intros Hid. unfold getBookingById, updateBookings. simpl bookings.
  rewrite find_updated by exact Hid.
  destruct (find (fun b => String.eqb (Booking.id b) id) (bookings db)); reflexivity.
Qed.

(** X6: a short close of a booking in [created], [confirmed] or [active]
    with an actual end date from the start date up to the day before the
    end date succeeds: the booking becomes [completed], records the actual
    end date and keeps its original start and end dates; from then on it can
    be neither edited nor short-closed again nor deleted. *)
Theorem shortCloseBooking_completes :
  forall (db : DB) (id : UUID) (actualEndDate : CalendarDate) (reason : string)
         (updatedBy : option UUID) (details : BookingDetails),
    getBookingById id db = Some details ->
    In (Booking.status (row details)) ["created"; "confirmed"; "active"] ->
    Booking.startDate (row details) <= actualEndDate < Booking.endDate (row details) ->
    exists db' details',
      shortCloseBooking id actualEndDate reason updatedBy db = (Ok (Some details'), db')
      /\ getBookingById id db' = Some details'
      /\ Booking.status (row details') = "completed"
      /\ Booking.actualEndDate (row details') = Some actualEndDate
      /\ Booking.startDate (row details') = Booking.startDate (row details)
      /\ Booking.endDate (row details') = Booking.endDate (row details)
      /\ (forall data, exists e, updateBooking id data db' = (Throw e, db'))
      /\ (forall a r u, exists e, shortCloseBooking id a r u db' = (Throw e, db'))
      /\ (exists e, deleteBooking id db' = (Throw e, db')).
Proof.
  intros db id actualEndDate reason updatedBy details Hfound Hstatus Hrange.
  destruct (getBookingById_row id db details Hfound) as (Hrow & _ & _ & _).
  apply (includes_In shortCloseStatuses) in Hstatus.
  unfold shortCloseBooking at 1, bind at 1, query at 1. rewrite Hfound, Hstatus.
  simpl negb. cbv iota.
  assert (Hge : (JS.new_Date actualEndDate >=? JS.new_Date (Booking.endDate (row details)))
                = false).
  { unfold JS.new_Date. rewrite Z.geb_leb. apply Z.leb_gt. lia. }
  assert (Hlt : (JS.new_Date actualEndDate <? JS.new_Date (Booking.startDate (row details)))
                = false).
  { unfold JS.new_Date. apply Z.ltb_ge. lia. }
  rewrite Hge, Hlt. cbv [bind write query negb].
  match goal with
  | |- context [updateBookings id ?set db] =>
      pose proof (getBookingById_updated id set db (fun b => eq_refl)) as Hget;
      set (db' := updateBookings id set db) in *
  end.
  rewrite Hrow in Hget. simpl in Hget.
  eexists. eexists. split; [rewrite Hget; reflexivity |].
  split; [exact Hget |]. simpl.
  repeat split.
  - intros data. unfold updateBooking, bind, query. rewrite Hget. simpl.
    eexists. reflexivity.
  - intros a r u. unfold shortCloseBooking, bind, query. rewrite Hget. simpl.
    eexists. reflexivity.
  - unfold deleteBooking, bind, query. rewrite Hget. simpl. eexists. reflexivity.
Qed.

Lemma find_filter_other (id id' : UUID) (l : list Booking.t) :
  id' <> id ->
  find (fun b => String.eqb (Booking.id b) id')
       (filter (fun b => negb (String.eqb (Booking.id b) id)) l)
  = find (fun b => String.eqb (Booking.id b) id') l.
Proof.
  intros Hne. induction l as [| a l IH]; [reflexivity |]. simpl.
  destruct (String.eqb (Booking.id a) id) eqn:Ha; simpl.
  - apply String.eqb_eq in Ha.
    destruct (String.eqb (Booking.id a) id') eqn:Ha'; [| exact IH].
    apply String.eqb_eq in Ha'. congruence.
  - destruct (String.eqb (Booking.id a) id'); [reflexivity | exact IH].
Qed.

Lemma find_filter_same (id : UUID) (l : list Booking.t) :
  find (fun b => String.eqb (Booking.id b) id)
       (filter (fun b => negb (String.eqb (Booking.id b) id)) l) = None.
Proof.
  induction l as [| a l IH]; [reflexivity |]. simpl.
  destruct (String.eqb (Booking.id a) id) eqn:Ha; simpl; [exact IH |].
  rewrite Ha. exact IH.
Qed.

Lemma restrictedByPurchaseOrder_spec (id : UUID) (db : DB) :
  restrictedByPurchaseOrder id db = true
  <-> exists p, In p (purchaseOrders db) /\ PurchaseOrder.bookingId p = id.
Proof.
  unfold restrictedByPurchaseOrder. rewrite existsb_exists.
  split; intros (p & Hp & Hid); exists p; (split; [exact Hp |]).
  - apply String.eqb_eq. exact Hid.
  - apply String.eqb_eq. exact Hid.
Qed.

Lemma restrictedByPurchaseOrder_free (id : UUID) (db : DB) :
  (forall p, In p (purchaseOrders db) -> PurchaseOrder.bookingId p <> id) ->
  restrictedByPurchaseOrder id db = false.
Proof.
  intros Hfree. destruct (restrictedByPurchaseOrder id db) eqn:Hr; [| reflexivity].
  apply restrictedByPurchaseOrder_spec in Hr. destruct Hr as (p & Hp & Hid).
  exfalso. exact (Hfree p Hp Hid).
Qed.

(** X7: [deleteBooking] throws, writing nothing, when the booking does not
    exist, when its status is not [created] and when a purchase order names
    it; otherwise it removes the rows of that identifier and nothing else:
    the booking can no longer be found and every other booking is found as
    before. *)
Theorem deleteBooking_only_created :
  forall (db : DB) (id : UUID),
    (getBookingById id db = None ->
     deleteBooking id db = (Throw (mkError "Booking not found"), db))
    /\ (forall details,
          getBookingById id db = Some details ->
          Booking.status (row details) <> "created" ->
          deleteBooking id db
          = (Throw (mkError ("Only bookings in " ++ dquote ++ "created" ++ dquote
                               ++ " status can be deleted")), db))
    /\ (forall details p,
          getBookingById id db = Some details ->
          Booking.status (row details) = "created" ->
          In p (purchaseOrders db) -> PurchaseOrder.bookingId p = id ->
          exists e, deleteBooking id db = (Throw e, db))
    /\ (forall details,
          getBookingById id db = Some details ->
          Booking.status (row details) = "created" ->
          (forall p, In p (purchaseOrders db) -> PurchaseOrder.bookingId p <> id) ->
          exists db',
            deleteBooking id db = (Ok tt, db')
            /\ getBookingById id db' = None
            /\ (forall id', id' <> id -> getBookingById id' db' = getBookingById id' db)
            /\ (forall b, In b (bookings db')
                          <-> In b (bookings db) /\ Booking.id b <> id)
            /\ billboards db' = billboards db
            /\ campaigns db' = campaigns db
            /\ purchaseOrders db' = purchaseOrders db).
Proof.
  intros db id. split; [| split; [| split]].
  - intros Hnone. unfold deleteBooking, bind, query. rewrite Hnone. reflexivity.
  - intros details Hfound Hstatus. unfold deleteBooking, bind, query. rewrite Hfound.
    apply String.eqb_neq in Hstatus. rewrite Hstatus. reflexivity.
  - intros details p Hfound Hstatus Hp Hid. unfold deleteBooking, bind, query.
    rewrite Hfound, Hstatus, String.eqb_refl.
    change (negb true) with false. cbv beta iota.
    rewrite (proj2 (restrictedByPurchaseOrder_spec id db)) by eauto.
    eexists. reflexivity.
  - intros details Hfound Hstatus Hfree. unfold deleteBooking, bind, query.
    rewrite Hfound, Hstatus, String.eqb_refl.
    change (negb true) with false. cbv beta iota.
    rewrite (restrictedByPurchaseOrder_free id db Hfree).
    cbv [write]. eexists. split; [reflexivity |].
    unfold getBookingById. simpl bookings.
    split; [rewrite find_filter_same; reflexivity |].
    split; [intros id' Hne; rewrite find_filter_other by exact Hne; reflexivity |].
    split; [| repeat split; reflexivity].
    intros b. rewrite filter_In, negb_true_iff, String.eqb_neq. reflexivity.
Qed.

Lemma excluded_conditions (billboard : Billboard.t) (id : UUID)
      (bid : UUID) (s e : CalendarDate) (slot : option (option Z)) (b : Booking.t) :
  JS.truthy id = true ->
  and_ (availabilityConditions billboard (AvailabilityQuery.mk bid s e slot (Some id))) b
  = negb (String.eqb (Booking.id b) id)
    && and_ (availabilityConditions billboard (AvailabilityQuery.mk bid s e slot None)) b.
Proof.
  intros Ht. apply bool_eq_iff.
  rewrite andb_true_iff, negb_true_iff, String.eqb_neq, !availabilityConditions_spec.
  unfold onBillboard, overlaps, notExcluded, slotAdmits. simpl. tauto.
Qed.

(** X8: once [deleteBooking] has removed a booking, every availability
    check gives what the same check gave before with that booking excluded:
    deleting a booking frees exactly what [excludeBookingId] leaves out. *)
Theorem deleteBooking_frees_like_exclusion :
  forall (db db' : DB) (id : UUID) (u : unit),
    deleteBooking id db = (Ok u, db') ->
    JS.truthy id = true ->
    forall bid s e slot,
      checkAvailability (AvailabilityQuery.mk bid s e slot None) db'
      = checkAvailability (AvailabilityQuery.mk bid s e slot (Some id)) db.
Proof.
  intros db db' id u Hrun Ht bid s e slot.
  unfold deleteBooking, bind, query in Hrun.
  destruct (getBookingById id db) as [details |]; [| discriminate].
  destruct (negb (String.eqb (Booking.status (row details)) "created"));
    [discriminate |].
  destruct (restrictedByPurchaseOrder id db); [discriminate |].
  cbv [write] in Hrun. injection Hrun as _ <-.
  unfold checkAvailability. simpl AvailabilityQuery.billboardId.
  rewrite (findBillboard_ext bid db
             (with_bookings db
                (filter (fun b => negb (String.eqb (Booking.id b) id)) (bookings db))))
    by reflexivity.
  destruct (findBillboard bid db) as [billboard |]; [| reflexivity].
  simpl bookings.
  assert (Hfilter :
    filter (and_ (availabilityConditions billboard (AvailabilityQuery.mk bid s e slot None)))
           (filter (fun b => negb (String.eqb (Booking.id b) id)) (bookings db))
    = filter (and_ (availabilityConditions billboard
                      (AvailabilityQuery.mk bid s e slot (Some id))))
             (bookings db)).
  { induction (bookings db) as [| b l IH]; [reflexivity |]. simpl.
    rewrite (excluded_conditions billboard id bid s e slot b Ht).
    destruct (negb (String.eqb (Booking.id b) id)); simpl; [| exact IH].
    destruct (and_ _ b); [rewrite IH |]; auto. }
  rewrite Hfilter. reflexivity.
Qed.

Lemma find_app_absent {A} (f : A -> bool) (l l' : list A) :
  (forall x, In x l -> f x = false) -> find f (l ++ l') = find f l'.
Proof.
  induction l as [| a l IH]; intros H; [reflexivity |]. simpl.
  rewrite (H a (or_introl eq_refl)). apply IH. intros x Hx. apply H. now right.
Qed.

Lemma filter_all {A} (f : A -> bool) (l : list A) :
  (forall x, In x l -> f x = true) -> filter f l = l.
Proof.
  induction l as [| a l IH]; intros H; [reflexivity |]. simpl.
  rewrite (H a (or_introl eq_refl)), IH; [reflexivity |].
  intros x Hx. apply H. now right.
Qed.

(** X9: when the identifier handed to a new booking is named by no
    booking and no purchase order yet, [createBooking] returns the row it
    wrote, and a [deleteBooking] of that identifier succeeds and restores
    the bookings table, and with it every availability result, to what it
    was before the creation. *)
Theorem createBooking_deleteBooking_roundtrip :
  forall (data : CreateBookingDto.t) (db db1 : DB) (res : option BookingDetails),
    (forall b, In b (bookings db) -> Booking.id b <> nextUuid db) ->
    (forall p, In p (purchaseOrders db) -> PurchaseOrder.bookingId p <> nextUuid db) ->
    createBooking data db = (Ok res, db1) ->
    exists details db2,
      res = Some details
      /\ Booking.id (row details) = nextUuid db
      /\ Booking.status (row details) = "created"
      /\ In (row details) (bookings db1)
      /\ deleteBooking (nextUuid db) db1 = (Ok tt, db2)
      /\ bookings db2 = bookings db
      /\ forall q, checkAvailability q db2 = checkAvailability q db.
Proof.
  intros data db db1 res Hfresh Hfree Hrun.
  destruct (createBooking_success data db db1 res Hrun)
    as (billboard & r & code & seqs & stored & Hbb & _ & _ & _ & Hdb & Hres).
  set (b := bookingRow data (nextUuid db) code stored) in *.
  assert (Hfind : find (fun x => String.eqb (Booking.id x) (nextUuid db)) (bookings db1)
                  = Some b).
  { subst db1. simpl bookings. rewrite find_app_absent.
    - simpl. rewrite String.eqb_refl. reflexivity.
    - intros x Hx. apply String.eqb_neq. now apply Hfresh. }
  assert (Hget : getBookingById (nextUuid db) db1
                 = Some (mkDetails b (findBillboard (Booking.billboardId b) db1))).
  { unfold getBookingById. rewrite Hfind. reflexivity. }
  assert (Hfilter : filter (fun x => negb (String.eqb (Booking.id x) (nextUuid db)))
                           (bookings db1) = bookings db).
  { subst db1. simpl bookings. rewrite filter_app. simpl.
    rewrite String.eqb_refl. simpl. rewrite app_nil_r. apply filter_all.
    intros x Hx. apply negb_true_iff, String.eqb_neq. now apply Hfresh. }
  eexists. eexists. split; [rewrite Hres; exact Hget |]. simpl.
  split; [reflexivity |]. split; [reflexivity |].
  split; [apply find_some in Hfind; apply Hfind |].
  assert (Hunrestricted : restrictedByPurchaseOrder (nextUuid db) db1 = false).
  { apply restrictedByPurchaseOrder_free. subst db1. exact Hfree. }
  split; [unfold deleteBooking, bind, query; rewrite Hget; simpl;
          rewrite Hunrestricted; reflexivity |].
  split; [simpl; exact Hfilter |].
  intros q. unfold checkAvailability. simpl bookings. rewrite Hfilter.
  rewrite (findBillboard_ext _ db); [reflexivity |]. subst db1. reflexivity.
Qed.

(** ** Updating bookings *)

(** Looking another booking up after an update that keeps identifiers. *)
Lemma getBookingById_updated_other (id id' : UUID) (set : Booking.t -> Booking.t)
      (db : DB) :
  id' <> id ->
  (forall b, Booking.id (set b) = Booking.id b) ->
  getBookingById id' (updateBookings id set db) = getBookingById id' db.
Proof.
  intros Hne Hid. unfold getBookingById, updateBookings. simpl bookings.
  assert (Hfind : find (fun b => String.eqb (Booking.id b) id')
                       (map (fun b => if String.eqb (Booking.id b) id then set b else b)
                            (bookings db))
                  = find (fun b => String.eqb (Booking.id b) id') (bookings db)).
  { induction (bookings db) as [| a l IH]; [reflexivity |]. simpl.
    destruct (String.eqb (Booking.id a) id) eqn:Ha.
    - rewrite Hid. apply String.eqb_eq in Ha.
      assert (Hn : String.eqb (Booking.id a) id' = false)
        by (apply String.eqb_neq; congruence).
      rewrite Hn. exact IH.
    - destruct (String.eqb (Booking.id a) id'); [reflexivity | exact IH]. }
  rewrite Hfind.
  destruct (find (fun b => String.eqb (Booking.id b) id') (bookings db)); reflexivity.
Qed.

(** The store takes the update when the payload fits its columns and
    refuses it otherwise; it reads and writes nothing either way. *)
Lemma storeUpdate_run (data : UpdateBookingDto.t) (db : DB) :
  (fitsBookingColumns data -> storeUpdate data db = (Ok tt, db))
  /\ (~ fitsBookingColumns data -> exists e, storeUpdate data db = (Throw e, db)).
Proof.
  unfold fitsBookingColumns, storeUpdate, storeDecimal.
  destruct (UpdateBookingDto.notionalValue data) as [v |];
    destruct (UpdateBookingDto.status data) as [status |].
  - destruct (Z.abs v <? 10 ^ 14) eqn:Hv.
    + destruct (20 <? String.length status)%nat eqn:Hs.
      * apply Nat.ltb_lt in Hs. split.
        -- intros [_ Hfit]. specialize (Hfit status eq_refl). lia.
        -- intros _. cbv [bind ret throw]. eexists. reflexivity.
      * apply Nat.ltb_ge in Hs. apply Z.ltb_lt in Hv. split.
        -- intros _. reflexivity.
        -- intros Hn. exfalso. apply Hn. split.
           ++ intros v' Hv'. injection Hv' as <-. exact Hv.
           ++ intros s' Hs'. injection Hs' as <-. exact Hs.
    + apply Z.ltb_ge in Hv. split.
      * intros [Hfit _]. specialize (Hfit v eq_refl). lia.
      * intros _. cbv [bind ret throw]. eexists. reflexivity.
  - destruct (Z.abs v <? 10 ^ 14) eqn:Hv.
    + apply Z.ltb_lt in Hv. split.
      * intros _. reflexivity.
      * intros Hn. exfalso. apply Hn. split.
        -- intros v' Hv'. injection Hv' as <-. exact Hv.
        -- discriminate.
    + apply Z.ltb_ge in Hv. split.
      * intros [Hfit _]. specialize (Hfit v eq_refl). lia.
      * intros _. cbv [bind ret throw]. eexists. reflexivity.
  - destruct (20 <? String.length status)%nat eqn:Hs.
    + apply Nat.ltb_lt in Hs. split.
      * intros [_ Hfit]. specialize (Hfit status eq_refl). lia.
      * intros _. cbv [bind ret throw]. eexists. reflexivity.
    + apply Nat.ltb_ge in Hs. split.
      * intros _. reflexivity.
      * intros Hn. exfalso. apply Hn. split.
        -- discriminate.
        -- intros s' Hs'. injection Hs' as <-. exact Hs.
  - split.
    + intros _. reflexivity.
    + intros Hn. exfalso. apply Hn. split; discriminate.
Qed.

Lemma storeUpdate_ok (data : UpdateBookingDto.t) (db db' : DB) (u : unit) :
  storeUpdate data db = (Ok u, db') -> db' = db /\ fitsBookingColumns data.
Proof.
  intros Hrun. destruct (storeUpdate_run data db) as [Hfit Hbad].
  assert (Hdec : fitsBookingColumns data \/ ~ fitsBookingColumns data).
  { unfold fitsBookingColumns.
    destruct (UpdateBookingDto.notionalValue data) as [v |];
      destruct (UpdateBookingDto.status data) as [status |].
    - destruct (Z.lt_ge_cases (Z.abs v) (10 ^ 14)) as [Hv | Hv];
        [| right; intros [H _]; specialize (H v eq_refl); lia].
      destruct (Nat.le_gt_cases (String.length status) 20) as [Hs | Hs];
        [| right; intros [_ H]; specialize (H status eq_refl); lia].
      left. split; intros x Hx; injection Hx as <-; assumption.
    - destruct (Z.lt_ge_cases (Z.abs v) (10 ^ 14)) as [Hv | Hv];
        [| right; intros [H _]; specialize (H v eq_refl); lia].
      left. split; [intros x Hx; injection Hx as <-; assumption | discriminate].
    - destruct (Nat.le_gt_cases (String.length status) 20) as [Hs | Hs];
        [| right; intros [_ H]; specialize (H status eq_refl); lia].
      left. split; [discriminate | intros x Hx; injection Hx as <-; assumption].
    - left. split; discriminate. }
  destruct Hdec as [Hyes | Hno].
  - rewrite (Hfit Hyes) in Hrun. split; [congruence | exact Hyes].
  - destruct (Hbad Hno) as [e He]. rewrite He in Hrun. discriminate.
Qed.


Lemma map_update_absent (id : UUID) (set : Booking.t -> Booking.t) (l : list Booking.t) :
  find (fun b => String.eqb (Booking.id b) id) l = None ->
  map (fun b => if String.eqb (Booking.id b) id then set b else b) l = l.
Proof.
  intros Hnone. induction l as [| a l IH]; [reflexivity |]. simpl in *.
  destruct (String.eqb (Booking.id a) id); [discriminate |].
  rewrite IH by exact Hnone. reflexivity.
Qed.

(** X11: [updateBookingStatus] refuses every status outside the six and
    writes nothing; given one of the six it succeeds from any current
    status, without looking at it: the booking of that identifier becomes
    the row it was with the new status and, when one is given, the new
    updater, every other column unchanged, and that row is returned; the
    other bookings are untouched; and for an identifier of no booking it
    returns nothing and changes no row. *)
Theorem updateBookingStatus_any_transition :
  forall (db : DB) (id : UUID) (status : string) (updatedBy : option UUID),
    (~ In status validStatuses ->
     updateBookingStatus id status updatedBy db
     = (Throw (mkError ("Invalid status. Must be one of: created, confirmed, active, "
                          ++ "completed, po_generated, invoiced")), db))
    /\ (In status validStatuses ->
        exists res db',
          updateBookingStatus id status updatedBy db = (Ok res, db')
          /\ (forall details,
                getBookingById id db = Some details ->
                res = Some (statusChanged status updatedBy (row details))
                /\ getBookingById id db'
                   = Some (mkDetails (statusChanged status updatedBy (row details))
                                     (billboard details)))
          /\ (getBookingById id db = None -> res = None /\ bookings db' = bookings db)
          /\ (forall id', id' <> id -> getBookingById id' db' = getBookingById id' db)
          /\ billboards db' = billboards db
          /\ campaigns db' = campaigns db
          /\ purchaseOrders db' = purchaseOrders db
          /\ sequences db' = sequences db).
Proof.
  intros db id status updatedBy. split.
  - intros Hbad. unfold updateBookingStatus.
    destruct (includes validStatuses status) eqn:Hin.
    + exfalso. apply Hbad. now apply (includes_In validStatuses).
    + reflexivity.
  - intros Hok. apply (includes_In validStatuses) in Hok.
    unfold updateBookingStatus. rewrite Hok. cbv [negb bind write query].
    fold (statusChanged status updatedBy).
    pose proof (getBookingById_updated id (statusChanged status updatedBy) db
                  (fun b => eq_refl)) as Hget.
    pose proof (fun id' Hne =>
                  getBookingById_updated_other id id' (statusChanged status updatedBy) db
                                               Hne (fun b => eq_refl)) as Hother.
    pose proof (find_updated id (statusChanged status updatedBy) (bookings db)
                  (fun b => eq_refl)) as Hfind.
    pose proof (map_update_absent id (statusChanged status updatedBy) (bookings db))
      as Habsent.
    set (db' := updateBookings id (statusChanged status updatedBy) db) in *.
    eexists. eexists. split; [reflexivity |].
    split; [| split; [| split; [exact Hother | repeat split; reflexivity]]].
    + intros details Hfound.
      destruct (getBookingById_row id db details Hfound) as (Hrow & Hbb & _).
      rewrite Hrow in Hget, Hfind. split; [exact Hfind |].
      rewrite Hget, Hbb. reflexivity.
    + intros Hnone. unfold getBookingById in Hnone.
      destruct (find (fun b => String.eqb (Booking.id b) id) (bookings db)) eqn:Hf;
        [discriminate |].
      split; [exact Hfind | exact (Habsent eq_refl)].
Qed.

(** ** The bookings table stays free of double bookings *)

Lemma compatible_fields (db : DB) (x b b' : Booking.t) :
  Booking.billboardId b' = Booking.billboardId b ->
  Booking.startDate b' = Booking.startDate b ->
  Booking.endDate b' = Booking.endDate b ->
  Booking.slotNumber b' = Booking.slotNumber b ->
  compatible db x b -> compatible db x b'.
Proof.
  intros H1 H2 H3 H4 Hc Hsame Hov.
  destruct Hc as (billboard & Hf & Hd & Hs).
  - congruence.
  - unfold rangesOverlap in *. rewrite <- H2, <- H3. exact Hov.
  - exists billboard. repeat split; try assumption.
    intros (n & Hx & Hb). apply Hs. exists n. split; congruence.
Qed.

Lemma NoDup_map_eq {A B} (f : A -> B) (l : list A) (x y : A) :
  NoDup (map f l) -> In x l -> In y l -> f x = f y -> x = y.
Proof.
  induction l as [| a l IH]; intros Hnd Hx Hy Hxy; [destruct Hx |].
  simpl in Hnd. inversion Hnd as [| ? ? Hnotin Hnd']; subst.
  destruct Hx as [<- | Hx], Hy as [<- | Hy]; auto.
  - exfalso. apply Hnotin. rewrite Hxy. now apply in_map.
  - exfalso. apply Hnotin. rewrite <- Hxy. now apply in_map.
Qed.

(** Replacing the one row of an identifier by a row that is compatible with
    all the others keeps the table free of double bookings. *)
Lemma ForallOrdPairs_update (db : DB) (id : UUID) (set : Booking.t -> Booking.t)
      (l : list Booking.t) :
  ForallOrdPairs (compatible db) l ->
  NoDup (map Booking.id l) ->
  (forall x y, In x l -> In y l -> Booking.id x = id -> Booking.id y <> id ->
               compatible db y (set x)) ->
  ForallOrdPairs (compatible db)
    (map (fun b => if String.eqb (Booking.id b) id then set b else b) l).
Proof.
  induction 1 as [| a l Ha Hl IH]; intros Hnd Hset; [constructor |].
  simpl in Hnd. inversion Hnd as [| ? ? Hnotin Hnd']; subst.
  simpl. constructor.
  - apply Forall_forall. intros y' Hy'. apply in_map_iff in Hy'.
    destruct Hy' as (y & <- & Hy).
    rewrite Forall_forall in Ha.
    destruct (String.eqb (Booking.id a) id) eqn:Haid.
    + apply String.eqb_eq in Haid.
      assert (Hyid : Booking.id y <> id).
      { intros Hyid. apply Hnotin. rewrite Haid, <- Hyid. now apply in_map. }
      apply String.eqb_neq in Hyid. rewrite Hyid. apply String.eqb_neq in Hyid.
      apply compatible_sym. apply (Hset a y); simpl; auto.
    + apply String.eqb_neq in Haid.
      destruct (String.eqb (Booking.id y) id) eqn:Hyid.
      * apply String.eqb_eq in Hyid. apply (Hset y a); simpl; auto.
      * apply Ha. exact Hy.
  - apply IH; [exact Hnd' |].
    intros x y Hx Hy. apply Hset; simpl; auto.
Qed.

(** What a successful [updateBooking] found and wrote. *)
Lemma updateBooking_success (id : UUID) (data : UpdateBookingDto.t) (db db' : DB)
      (res : option BookingDetails) :
  updateBooking id data db = (Ok res, db') ->
  exists details,
    getBookingById id db = Some details
    /\ ~ In (Booking.status (row details)) nonEditableStatuses
    /\ (touchesPlacement data = true ->
        exists r, checkAvailability (updateQuery id data (row details)) db = Ok r
                  /\ available r = true)
    /\ db' = updateBookings id (applyUpdate data) db
    /\ res = getBookingById id db'.
Proof.
  intros Hrun. unfold updateBooking, bind at 1, query at 1 in Hrun.
  destruct (getBookingById id db) as [details |] eqn:Hfound; [| discriminate].
  destruct (includes nonEditableStatuses (Booking.status (row details))) eqn:Hedit;
    [discriminate |].
  exists details. split; [reflexivity |].
  split; [intros Hin; apply (includes_In nonEditableStatuses) in Hin; congruence |].
  fold (touchesPlacement data) in Hrun.
  fold (updateQuery id data (row details)) in Hrun.
  destruct (touchesPlacement data).
  - unfold bind at 1 in Hrun. unfold bind at 1, attempt in Hrun.
    destruct (checkAvailability (updateQuery id data (row details)) db) as [r | e]
      eqn:Hcheck; [| discriminate].
    destruct (available r) eqn:Hav; simpl in Hrun; [| discriminate].
    cbv [bind ret] in Hrun.
    destruct (storeUpdate data db) as [[u | err] db1] eqn:Hstore; [| discriminate].
    apply storeUpdate_ok in Hstore. destruct Hstore as [-> _].
    cbv [bind ret write query] in Hrun. injection Hrun as Hres Hdb.
    split; [intros _; exists r; auto |]. subst db'. auto.
  - cbv [bind ret] in Hrun.
    destruct (storeUpdate data db) as [[u | err] db1] eqn:Hstore; [| discriminate].
    apply storeUpdate_ok in Hstore. destruct Hstore as [-> _].
    cbv [bind ret write query] in Hrun. injection Hrun as Hres Hdb.
    split; [discriminate |]. subst db'. auto.
Qed.

(** X12: [updateBooking] keeps the bookings table free of double bookings,
    given that booking identifiers are unique and the payload does not carry
    an empty billboard identifier: the re-check that leaves the booking
    itself out admits the new placement only where it is compatible with
    every other row. *)
Theorem updateBooking_keeps_noDoubleBooking :
  forall (id : UUID) (data : UpdateBookingDto.t) (db db' : DB)
         (res : option BookingDetails),
    noDoubleBooking db ->
    uniqueBookingIds db ->
    UpdateBookingDto.billboardId data <> Some "" ->
    updateBooking id data db = (Ok res, db') ->
    noDoubleBooking db' /\ uniqueBookingIds db'.
Proof.
  intros id data db db' res Hinv Huniq Hbid Hrun.
  destruct (updateBooking_success id data db db' res Hrun)
    as (details & Hfound & _ & Hcheck & Hdb & _).
  destruct (getBookingById_row id db details Hfound) as (_ & _ & Hid & Hin0).
  set (b0 := row details) in *.
  assert (Hbill : string_or_null (UpdateBookingDto.billboardId data)
                  = UpdateBookingDto.billboardId data).
  { destruct (UpdateBookingDto.billboardId data) as [s |]; [| reflexivity].
    simpl. destruct (JS.truthy s) eqn:Ht; [reflexivity |].
    exfalso. apply Hbid. unfold JS.truthy in Ht. apply negb_false_iff in Ht.
    apply String.eqb_eq in Ht. now subst. }
  split.
  - unfold noDoubleBooking. subst db'. unfold updateBookings. simpl bookings.
    eapply ForallOrdPairs_impl; [intros a b; apply compatible_ext; reflexivity |].
    apply ForallOrdPairs_update; [exact Hinv | exact Huniq |].
    intros x y Hx Hy Hxid Hyid.
    assert (Hxb : x = b0).
    { apply (NoDup_map_eq Booking.id (bookings db)); auto. congruence. }
    subst x.
    destruct (touchesPlacement data) eqn:Htouch.
    + destruct (Hcheck eq_refl) as (r & Hr & Ha).
      apply (admitted_row_compatible (updateQuery id data b0) db r);
        [exact Hr | exact Ha | | | | | exact Hy | ].
      * simpl. rewrite Hbill. reflexivity.
      * reflexivity.
      * reflexivity.
      * intros n Hn. simpl in *. rewrite Hn. reflexivity.
      * simpl. intros _. exact Hyid.
    + unfold touchesPlacement in Htouch.
      apply orb_false_iff in Htouch. destruct Htouch as [Htouch Hslot].
      apply orb_false_iff in Htouch. destruct Htouch as [Htouch Hb].
      apply orb_false_iff in Htouch. destruct Htouch as [Hs He].
      rewrite Hbill in Hb.
      destruct (UpdateBookingDto.startDate data) eqn:Es; [discriminate |].
      destruct (UpdateBookingDto.endDate data) eqn:Ee; [discriminate |].
      destruct (UpdateBookingDto.billboardId data) eqn:Eb; [discriminate |].
      destruct (UpdateBookingDto.slotNumber data) eqn:El; [discriminate |].
      apply (compatible_fields db y b0);
        try (simpl; rewrite ?Es, ?Ee, ?Eb, ?El; reflexivity).
      destruct (ForallOrdPairs_In Hinv y b0 Hy Hin0) as [Heq | [Hc | Hc]].
      * exfalso. apply Hyid. rewrite Heq. exact Hid.
      * exact Hc.
      * apply compatible_sym. exact Hc.
  - unfold uniqueBookingIds. subst db'. unfold updateBookings. simpl bookings.
    rewrite map_map.
    assert (Hmap : map (fun x => Booking.id (if String.eqb (Booking.id x) id
                                             then applyUpdate data x else x))
                       (bookings db)
                   = map Booking.id (bookings db)).
    { apply map_ext. intros a. destruct (String.eqb (Booking.id a) id); reflexivity. }
    rewrite Hmap. exact Huniq.
Qed.

Lemma ForallOrdPairs_filter {A} (R : A -> A -> Prop) (f : A -> bool) (l : list A) :
  ForallOrdPairs R l -> ForallOrdPairs R (filter f l).
Proof.
  induction 1 as [| a l Ha Hl IH]; simpl; [constructor |].
  destruct (f a); [| exact IH]. constructor; [| exact IH].
  rewrite Forall_forall in *. intros x Hx. apply Ha. apply filter_In in Hx. apply Hx.
Qed.

Lemma ForallOrdPairs_map {A} (R : A -> A -> Prop) (f : A -> A) (l : list A) :
  (forall a b, R a b -> R (f a) (f b)) ->
  ForallOrdPairs R l -> ForallOrdPairs R (map f l).
Proof.
  intros Hf. induction 1 as [| a l Ha Hl IH]; simpl; constructor; [| exact IH].
  rewrite Forall_forall in *. intros y Hy. apply in_map_iff in Hy.
  destruct Hy as (x & <- & Hx). apply Hf, Ha, Hx.
Qed.

Lemma noDoubleBooking_updateBookings (db : DB) (id : UUID) (set : Booking.t -> Booking.t) :
  (forall b, Booking.billboardId (set b) = Booking.billboardId b
             /\ Booking.slotNumber (set b) = Booking.slotNumber b
             /\ Booking.startDate (set b) = Booking.startDate b
             /\ Booking.endDate (set b) = Booking.endDate b) ->
  noDoubleBooking db -> noDoubleBooking (updateBookings id set db).
Proof.
  intros Hset Hinv. unfold noDoubleBooking, updateBookings. simpl bookings.
  eapply ForallOrdPairs_impl; [intros a b; apply compatible_ext; reflexivity |].
  apply ForallOrdPairs_map; [| exact Hinv].
  intros a b Hab.
  assert (Hkeep : forall x y, compatible db x y ->
                    compatible db x (if String.eqb (Booking.id y) id then set y else y)).
  { intros x y Hxy. destruct (String.eqb (Booking.id y) id); [| exact Hxy].
    destruct (Hset y) as (H1 & H2 & H3 & H4).
    apply (compatible_fields db x y); assumption. }
  apply Hkeep. apply compatible_sym. apply Hkeep. apply compatible_sym. exact Hab.
Qed.

(** X13: [updateBookingStatus], [shortCloseBooking] and [deleteBooking]
    keep the bookings table free of double bookings, whatever they return. *)
Theorem lifecycle_keeps_noDoubleBooking :
  forall (db : DB) (id : UUID),
    noDoubleBooking db ->
    (forall status updatedBy,
        noDoubleBooking (snd (updateBookingStatus id status updatedBy db)))
    /\ (forall actualEndDate reason updatedBy,
          noDoubleBooking (snd (shortCloseBooking id actualEndDate reason updatedBy db)))
    /\ noDoubleBooking (snd (deleteBooking id db)).
Proof.
  intros db id Hinv. split; [| split].
  - intros status updatedBy. unfold updateBookingStatus.
    destruct (negb (includes validStatuses status)); [exact Hinv |].
    cbv [bind write query]. simpl snd.
    apply noDoubleBooking_updateBookings; [| exact Hinv]. intros b. simpl. auto.
  - intros actualEndDate reason updatedBy. unfold shortCloseBooking, bind at 1, query at 1.
    destruct (getBookingById id db) as [details |]; [| exact Hinv].
    destruct (negb (includes shortCloseStatuses (Booking.status (row details))));
      [exact Hinv |].
    destruct (JS.new_Date actualEndDate >=? JS.new_Date (Booking.endDate (row details)));
      [exact Hinv |].
    destruct (JS.new_Date actualEndDate <? JS.new_Date (Booking.startDate (row details)));
      [exact Hinv |].
    cbv [bind write query]. simpl snd.
    apply noDoubleBooking_updateBookings; [| exact Hinv]. intros b. simpl. auto.
  - unfold deleteBooking, bind, query.
    destruct (getBookingById id db) as [details |]; [| exact Hinv].
    destruct (negb (String.eqb (Booking.status (row details)) "created"));
      [exact Hinv |].
    destruct (restrictedByPurchaseOrder id db); [exact Hinv |].
    cbv [write]. simpl snd. unfold noDoubleBooking. simpl bookings.
    eapply ForallOrdPairs_impl; [intros a b; apply compatible_ext; reflexivity |].
    apply ForallOrdPairs_filter. exact Hinv.
Qed.

(** ** Purchase orders *)

Import PurchaseOrderService.

(** What a successful [createPurchaseOrder] found and wrote. *)
Lemma createPurchaseOrder_success (data : CreatePurchaseOrderDto.t) (db db' : DB)
      (res : option PurchaseOrder.t) :
  createPurchaseOrder data db = (Ok res, db') ->
  exists details code seqs stored,
    getBookingById (CreatePurchaseOrderDto.bookingId data) db = Some details
    /\ In (Booking.status (row details)) ["completed"; "confirmed"; "active"]
    /\ getPurchaseOrderByBookingId (CreatePurchaseOrderDto.bookingId data) db = None
    /\ db' = snd (updateBookingStatus
                    (CreatePurchaseOrderDto.bookingId data) "po_generated"
                    (CreatePurchaseOrderDto.createdBy data)
                    (with_purchaseOrders
                       (with_uuidSupply (with_sequences db seqs) (uuidSupply db + 1))
                       (purchaseOrders db
                          ++ [purchaseOrderRow data (nextUuid db) code stored])%list))
    /\ res = getPurchaseOrderById (nextUuid db) db'.
Proof.
  intros Hrun.
  unfold createPurchaseOrder, bind at 1, query at 1 in Hrun.
  destruct (getBookingById (CreatePurchaseOrderDto.bookingId data) db)
    as [details |] eqn:Hfound; [| discriminate].
  unfold bind at 1, query at 1 in Hrun.
  destruct (getPurchaseOrderByBookingId (CreatePurchaseOrderDto.bookingId data) db)
    eqn:Hpo; [discriminate |].
  destruct (includes validStatuses (Booking.status (row details)))
    eqn:Hin; simpl in Hrun; [| discriminate].
  unfold bind at 1 in Hrun.
  destruct (getNextSequence_run SequenceEntityType.po db) as [(code & rows & Hseq) | (err & Hseq)];
    [| rewrite Hseq in Hrun; discriminate].
  rewrite Hseq in Hrun. unfold bind at 1 in Hrun.
  match type of Hrun with
  | context [storeDecimal ?t ?d] =>
      destruct (storeDecimal_run t d) as [[v Hv] | [e He]];
        [rewrite Hv in Hrun | rewrite He in Hrun; discriminate]
  end.
  unfold bind at 1, defaultRandom at 1 in Hrun.
  unfold bind at 1, write at 1 in Hrun.
  unfold bind at 1 in Hrun.
  exists details, code, rows, v.
  split; [reflexivity |].
  split; [now apply (includes_In validStatuses) |].
  split; [reflexivity |].
  match type of Hrun with
  | context [BookingService.updateBookingStatus ?i ?s ?u ?d] =>
      destruct (BookingService.updateBookingStatus i s u d) as [[b | e] d'] eqn:Hupd;
        [| discriminate]
  end.
  unfold query in Hrun. injection Hrun as Hres Hdb. subst d'.
  split; [| symmetry; exact Hres].
  symmetry. exact (f_equal snd Hupd).
Qed.

(** A valid status update, as a row-wise rewrite that touches the status
    and the editor only. *)
Lemma updateBookingStatus_run (id : UUID) (status : string) (updatedBy : option UUID)
      (db : DB) :
  In status BookingService.validStatuses ->
  exists set,
    (forall b, Booking.id (set b) = Booking.id b
               /\ Booking.status (set b) = status
               /\ Booking.billboardId (set b) = Booking.billboardId b
               /\ Booking.customerId (set b) = Booking.customerId b)
    /\ updateBookingStatus id status updatedBy db
       = (Ok (find (fun b => String.eqb (Booking.id b) id)
                   (bookings (updateBookings id set db))),
          updateBookings id set db).
Proof.
  intros Hok. apply (includes_In BookingService.validStatuses) in Hok.
  unfold updateBookingStatus. rewrite Hok. cbv [negb bind write query].
  eexists. split; [| reflexivity]. intros b. simpl. auto.
Qed.

Lemma NoDup_snoc {A} (l : list A) (a : A) :
  NoDup l -> ~ In a l -> NoDup (l ++ [a]).
Proof.
  induction 1 as [| x l Hx Hl IH]; intros Ha; simpl.
  - constructor; [intros [] | constructor].
  - constructor.
    + intros Hin. apply in_app_or in Hin. destruct Hin as [Hin | [<- | []]].
      * contradiction.
      * apply Ha. now left.
    + apply IH. intros Hin. apply Ha. now right.
Qed.

Lemma getPurchaseOrderByBookingId_none (bookingId : UUID) (db : DB) :
  getPurchaseOrderByBookingId bookingId db = None ->
  forall p, In p (purchaseOrders db) -> PurchaseOrder.bookingId p <> bookingId.
Proof.
  unfold getPurchaseOrderByBookingId. intros Hnone p Hin.
  apply String.eqb_neq. exact (find_none _ _ Hnone p Hin).
Qed.

(** X14: a successful [createPurchaseOrder] appends exactly one purchase
    order, for its booking; it keeps the rule of one purchase order per
    booking; and from then on every further [createPurchaseOrder] for that
    booking throws the "already exists" error and writes nothing. *)
Theorem createPurchaseOrder_one_per_booking :
  forall (data : CreatePurchaseOrderDto.t) (db db' : DB) (res : option PurchaseOrder.t),
    onePurchaseOrderPerBooking db ->
    createPurchaseOrder data db = (Ok res, db') ->
    onePurchaseOrderPerBooking db'
    /\ (exists p,
          purchaseOrders db' = (purchaseOrders db ++ [p])%list
          /\ PurchaseOrder.bookingId p = CreatePurchaseOrderDto.bookingId data
          /\ PurchaseOrder.id p = nextUuid db
          /\ getPurchaseOrderByBookingId (CreatePurchaseOrderDto.bookingId data) db'
             = Some p)
    /\ (forall again,
          CreatePurchaseOrderDto.bookingId again = CreatePurchaseOrderDto.bookingId data ->
          createPurchaseOrder again db'
          = (Throw (mkError "Purchase order already exists for this booking"), db')).
Proof.
  intros data db db' res Hone Hrun.
  destruct (createPurchaseOrder_success data db db' res Hrun)
    as (details & code & seqs & stored & Hfound & Hstatus & Hnone & Hdb & _).
  set (id := CreatePurchaseOrderDto.bookingId data) in *.
  set (p := purchaseOrderRow data (nextUuid db) code stored) in *.
  match type of Hdb with
  | _ = snd (updateBookingStatus _ _ ?u ?d) =>
      destruct (updateBookingStatus_run id "po_generated" u d) as (set & Hset & Hupd);
        [simpl; auto 10 |]
  end.
  rewrite Hupd in Hdb. simpl snd in Hdb.
  assert (Hpos : purchaseOrders db' = (purchaseOrders db ++ [p])%list)
    by (subst db'; reflexivity).
  assert (Habsent := getPurchaseOrderByBookingId_none id db Hnone).
  assert (Hget : getPurchaseOrderByBookingId id db' = Some p).
  { unfold getPurchaseOrderByBookingId. rewrite Hpos. rewrite find_app_absent.
    - simpl. unfold id. rewrite String.eqb_refl. reflexivity.
    - intros x Hx. apply String.eqb_neq. now apply Habsent. }
  split; [| split].
  - unfold onePurchaseOrderPerBooking. rewrite Hpos, map_app. simpl.
    apply NoDup_snoc; [exact Hone |].
    intros Hin. apply in_map_iff in Hin. destruct Hin as (x & Hx & Hxin).
    exact (Habsent x Hxin Hx).
  - exists p. auto.
  - intros again Hsame.
    destruct (getBookingById_row id db details Hfound) as (Hrow & _).
    assert (Hbooking : exists details', getBookingById id db' = Some details').
    { subst db'. rewrite getBookingById_updated by (intros b; apply Hset).
      simpl bookings. rewrite Hrow. eauto. }
    destruct Hbooking as [details' Hbooking].
    unfold createPurchaseOrder, bind, query. rewrite Hsame. fold id.
    rewrite Hbooking, Hget. reflexivity.
Qed.

(** X15: [deletePurchaseOrder] throws, writing nothing, when the purchase
    order is not found; otherwise it removes it and sets its booking to
    [completed], whatever the status of the booking was before the purchase
    order was made; with one purchase order per booking the booking is then
    without purchase order again. *)
Theorem deletePurchaseOrder_reverts_booking :
  forall (db : DB) (id : UUID) (updatedBy : option UUID),
    (getPurchaseOrderById id db = None ->
     deletePurchaseOrder id updatedBy db
     = (Throw (mkError "Purchase order not found"), db))
    /\ (forall p,
          getPurchaseOrderById id db = Some p ->
          exists db' details',
            deletePurchaseOrder id updatedBy db = (Ok tt, db')
            /\ getPurchaseOrderById id db' = None
            /\ (forall p', In p' (purchaseOrders db')
                           <-> In p' (purchaseOrders db) /\ PurchaseOrder.id p' <> id)
            /\ getBookingById (PurchaseOrder.bookingId p) db' = Some details'
            /\ Booking.status (row details') = "completed"
            /\ (onePurchaseOrderPerBooking db ->
                getPurchaseOrderByBookingId (PurchaseOrder.bookingId p) db' = None)).
Proof.
  intros db id updatedBy. split.
  - intros Hnone. unfold deletePurchaseOrder, bind, query. rewrite Hnone. reflexivity.
  - intros p Hfound.
    assert (Hp : In p (purchaseOrders db) /\ PurchaseOrder.id p = id
                 /\ exists b, find (fun b => String.eqb (Booking.id b)
                                                        (PurchaseOrder.bookingId p))
                                   (bookings db) = Some b).
    { unfold getPurchaseOrderById in Hfound.
      destruct (find (fun x => String.eqb (PurchaseOrder.id x) id) (purchaseOrders db))
        as [x |] eqn:Hf; [| discriminate].
      destruct (existsb (fun b => String.eqb (Booking.id b) (PurchaseOrder.bookingId x))
                        (bookings db)) eqn:Hex; [| discriminate].
      injection Hfound as <-. apply find_some in Hf. destruct Hf as [Hin Hid].
      apply String.eqb_eq in Hid. split; [exact Hin |]. split; [exact Hid |].
      destruct (find (fun b => String.eqb (Booking.id b) (PurchaseOrder.bookingId x))
                     (bookings db)) as [b |] eqn:Hb; [eauto |].
      apply existsb_exists in Hex. destruct Hex as (b & Hbin & Hbeq).
      rewrite (find_none _ _ Hb b Hbin) in Hbeq. discriminate. }
    destruct Hp as (Hpin & Hpid & b & Hb).
    destruct (updateBookingStatus_run (PurchaseOrder.bookingId p) "completed" updatedBy db)
      as (set & Hset & Hupd); [simpl; auto 10 |].
    unfold deletePurchaseOrder, bind at 1, query at 1. rewrite Hfound.
    unfold bind at 1. rewrite Hupd. cbv [write].
    set (db1 := updateBookings (PurchaseOrder.bookingId p) set db) in *.
    assert (Hbook : getBookingById (PurchaseOrder.bookingId p) db1
                    = Some (mkDetails (set b)
                              (findBillboard (Booking.billboardId (set b)) db))).
    { unfold db1. rewrite getBookingById_updated by (intros x; apply Hset).
      rewrite Hb. reflexivity. }
    eexists. eexists. split; [reflexivity |].
    split; [| split; [| split; [| split]]].
    + unfold getPurchaseOrderById. simpl purchaseOrders.
      assert (Hnone : find (fun x => String.eqb (PurchaseOrder.id x) id)
                           (filter (fun x => negb (String.eqb (PurchaseOrder.id x) id))
                                   (purchaseOrders db)) = None).
      { clear. induction (purchaseOrders db) as [| a l IH]; [reflexivity |]. simpl.
        destruct (String.eqb (PurchaseOrder.id a) id) eqn:Ha; simpl;
          [| rewrite Ha]; exact IH. }
      rewrite Hnone. reflexivity.
    + intros p'. simpl purchaseOrders.
      rewrite filter_In, negb_true_iff, String.eqb_neq. reflexivity.
    + exact Hbook.
    + simpl. apply Hset.
    + intros Hone. unfold getPurchaseOrderByBookingId. simpl purchaseOrders.
      destruct (find (fun x => String.eqb (PurchaseOrder.bookingId x)
                                          (PurchaseOrder.bookingId p))
                     (filter (fun x => negb (String.eqb (PurchaseOrder.id x) id))
                             (purchaseOrders db))) as [x |] eqn:Hx; [| reflexivity].
      exfalso. apply find_some in Hx. destruct Hx as [Hxin Hxb].
      apply filter_In in Hxin. destruct Hxin as [Hxin Hxid].
      apply String.eqb_eq in Hxb. apply negb_true_iff, String.eqb_neq in Hxid.
      apply Hxid. rewrite <- Hpid. f_equal.
      exact (NoDup_map_eq PurchaseOrder.bookingId (purchaseOrders db) x p
                          Hone Hxin Hpin Hxb).
Qed.

Lemma In_insertByEndDateDesc (x b : Booking.t) (l : list Booking.t) :
  In x (insertByEndDateDesc b l) <-> x = b \/ In x l.
Proof.
  induction l as [| a l IH]; simpl.
  - intuition.
  - destruct (Booking.endDate a <? Booking.endDate b); simpl; [intuition |].
    rewrite IH. intuition.
Qed.

Lemma In_orderByEndDateDesc (x : Booking.t) (l : list Booking.t) :
  In x (orderByEndDateDesc l) <-> In x l.
Proof.
  unfold orderByEndDateDesc.
  assert (H : forall acc, In x (fold_left (fun s b => insertByEndDateDesc b s) l acc)
                          <-> In x l \/ In x acc).
  { induction l as [| a l IH]; intros acc; simpl; [intuition |].
    rewrite IH, In_insertByEndDateDesc. intuition. }
  rewrite H. simpl. intuition.
Qed.

(** X16: [getBookingsEligibleForPO] lists exactly the bookings whose status
    is [completed], [confirmed] or [active] and which no purchase order
    names (of the given customer, when one is given).  It agrees with the
    guards of [createPurchaseOrder]: a purchase order is only ever created
    for a listed booking, and with unique booking identifiers a request for
    a listed booking is refused by none of the three guards: when it fails,
    the error is not one of theirs. *)
Theorem eligible_bookings_match_createPurchaseOrder :
  forall (db : DB),
    (forall customerId b,
        In b (getBookingsEligibleForPO customerId db)
        <-> In b (bookings db) /\ eligibleForPO db b
            /\ match string_or_null customerId with
               | Some c => Booking.customerId b = c
               | None => True
               end)
    /\ (forall data res db',
          createPurchaseOrder data db = (Ok res, db') ->
          exists b, In b (getBookingsEligibleForPO None db)
                    /\ Booking.id b = CreatePurchaseOrderDto.bookingId data)
    /\ (forall b data e db1,
          uniqueBookingIds db ->
          In b (getBookingsEligibleForPO None db) ->
          CreatePurchaseOrderDto.bookingId data = Booking.id b ->
          createPurchaseOrder data db = (Throw e, db1) ->
          message e <> "Booking not found"
          /\ message e <> "Purchase order already exists for this booking"
          /\ message e <> "Cannot generate PO for booking in " ++ dquote
                            ++ Booking.status b ++ dquote
                            ++ " status. Booking must be completed first.").
Proof.
  intros db.
  assert (Hlist : forall customerId b,
        In b (getBookingsEligibleForPO customerId db)
        <-> In b (bookings db) /\ eligibleForPO db b
            /\ match string_or_null customerId with
               | Some c => Booking.customerId b = c
               | None => True
               end).
  { intros customerId b. unfold getBookingsEligibleForPO, eligibleForPO.
    rewrite In_orderByEndDateDesc, filter_In.
    assert (Hpo : negb (existsb (fun p => String.eqb (PurchaseOrder.bookingId p)
                                                     (Booking.id b))
                                (purchaseOrders db)) = true
                  <-> forall p, In p (purchaseOrders db) ->
                                PurchaseOrder.bookingId p <> Booking.id b).
    { rewrite negb_true_iff. split.
      - intros Hex p Hin Heq.
        assert (Ht : existsb (fun p => String.eqb (PurchaseOrder.bookingId p)
                                                  (Booking.id b))
                             (purchaseOrders db) = true).
        { apply existsb_exists. exists p. split; [exact Hin |].
          now apply String.eqb_eq. }
        congruence.
      - intros Hall.
        destruct (existsb _ (purchaseOrders db)) eqn:Hex; [| reflexivity].
        apply existsb_exists in Hex. destruct Hex as (p & Hin & Heq).
        apply String.eqb_eq in Heq. exfalso. exact (Hall p Hin Heq). }
    destruct (string_or_null customerId) as [c |].
    - rewrite and__app, andb_true_iff. unfold and_. cbn [forallb].
      rewrite !andb_true_r, andb_true_iff, Hpo, String.eqb_eq.
      rewrite (includes_In ["completed"; "confirmed"; "active"]). tauto.
    - unfold and_. cbn [forallb].
      rewrite !andb_true_r, andb_true_iff, Hpo.
      rewrite (includes_In ["completed"; "confirmed"; "active"]). tauto. }
  split; [exact Hlist |]. split.
  - intros data res db' Hrun.
    destruct (createPurchaseOrder_success data db db' res Hrun)
      as (details & code & seqs & stored & Hfound & Hstatus & Hnone & _).
    destruct (getBookingById_row _ db details Hfound) as (_ & _ & Hid & Hin).
    exists (row details). split; [| exact Hid].
    apply Hlist. simpl. split; [exact Hin |]. split; [| exact I].
    split; [exact Hstatus |]. rewrite Hid.
    now apply getPurchaseOrderByBookingId_none.
  - intros b data e db1 Huniq Hin Hsame Hrun.
    apply Hlist in Hin. simpl in Hin. destruct Hin as (Hin & (Hstatus & Hpo) & _).
    assert (Hfound : getBookingById (Booking.id b) db
                     = Some (mkDetails b (findBillboard (Booking.billboardId b) db))).
    { unfold getBookingById.
      destruct (find (fun x => String.eqb (Booking.id x) (Booking.id b)) (bookings db))
        as [b' |] eqn:Hf.
      - apply find_some in Hf. destruct Hf as [Hin' Heq]. apply String.eqb_eq in Heq.
        rewrite (NoDup_map_eq Booking.id (bookings db) b' b Huniq Hin' Hin Heq).
        reflexivity.
      - pose proof (find_none _ _ Hf b Hin) as Hc. simpl in Hc.
        rewrite String.eqb_refl in Hc. discriminate. }
    assert (Hnone : getPurchaseOrderByBookingId (Booking.id b) db = None).
    { unfold getPurchaseOrderByBookingId.
      destruct (find (fun p => String.eqb (PurchaseOrder.bookingId p) (Booking.id b))
                     (purchaseOrders db)) as [p |] eqn:Hf; [| reflexivity].
      apply find_some in Hf. destruct Hf as [Hpin Heq]. apply String.eqb_eq in Heq.
      exfalso. exact (Hpo p Hpin Heq). }
    apply (includes_In validStatuses) in Hstatus.
    unfold createPurchaseOrder, bind at 1, query at 1 in Hrun.
    rewrite Hsame, Hfound in Hrun. unfold bind at 1, query at 1 in Hrun.
    rewrite Hnone in Hrun. cbn [row billboard] in Hrun. rewrite Hstatus in Hrun.
    cbv [negb] in Hrun. unfold bind at 1 in Hrun.
    assert (Hstore : message e = "integer out of range"
                     \/ message e = "numeric field overflow");
      [| destruct Hstore as [-> | ->]; repeat split; discriminate].
    destruct (SequenceService.getNextSequence SequenceEntityType.po db)
      as [[code | err] db0] eqn:Hseq;
      [| injection Hrun as <- _; left; exact (getNextSequence_throws _ _ _ _ Hseq)].
    unfold bind at 1 in Hrun.
    match type of Hrun with
    | context [storeDecimal ?t ?d] =>
        destruct (storeDecimal t d) as [[v | err] d'] eqn:Hstore
    end.
    + exfalso. unfold bind at 1, defaultRandom at 1 in Hrun.
      unfold bind at 1, write at 1 in Hrun. unfold bind at 1 in Hrun.
      match type of Hrun with
      | context [BookingService.updateBookingStatus ?i ?s ?u ?d] =>
          destruct (updateBookingStatus_run i s u d) as (set & _ & Hupd);
            [simpl; auto 10 | rewrite Hupd in Hrun]
      end.
      unfold query in Hrun. discriminate.
    + injection Hrun as <- _. right. exact (storeDecimal_throws _ _ _ _ Hstore).
Qed.

(** X23: [updatePurchaseOrder] throws, writing nothing, when the purchase
    order is not found, and when the actual value it is given does not fit
    its column; otherwise it returns the row with the given fields
    replaced, whatever the dates are, and it changes neither a booking nor
    the number or the booking of any purchase order, so it keeps one
    purchase order per booking. *)
Theorem updatePurchaseOrder_keeps_links :
  forall (db : DB) (id : UUID) (data : UpdatePurchaseOrderDto.t),
    (getPurchaseOrderById id db = None ->
     updatePurchaseOrder id data db
     = (Throw (mkError "Purchase order not found"), db))
    /\ (forall existing actualValue,
          getPurchaseOrderById id db = Some existing ->
          UpdatePurchaseOrderDto.actualValue data = Some actualValue ->
          10 ^ 14 <= Z.abs actualValue ->
          updatePurchaseOrder id data db
          = (Throw (mkError "numeric field overflow"), db))
    /\ (forall existing,
          getPurchaseOrderById id db = Some existing ->
          (forall actualValue,
              UpdatePurchaseOrderDto.actualValue data = Some actualValue ->
              Z.abs actualValue < 10 ^ 14) ->
          exists db',
            updatePurchaseOrder id data db
            = (Ok (Some (applyPurchaseOrderUpdate data existing)), db')
            /\ bookings db' = bookings db
            /\ map PurchaseOrder.bookingId (purchaseOrders db')
               = map PurchaseOrder.bookingId (purchaseOrders db)
            /\ map PurchaseOrder.poNumber (purchaseOrders db')
               = map PurchaseOrder.poNumber (purchaseOrders db)
            /\ (onePurchaseOrderPerBooking db -> onePurchaseOrderPerBooking db')).
Proof.
  intros db id data. split; [| split].
  - intros Hnone. unfold updatePurchaseOrder, bind, query. rewrite Hnone. reflexivity.
  - intros existing actualValue Hfound Hvalue Hbig.
    unfold updatePurchaseOrder, bind at 1, query at 1. rewrite Hfound, Hvalue.
    unfold bind at 1, bind at 1, storeDecimal.
    apply Z.ltb_ge in Hbig. rewrite Hbig. reflexivity.
  - intros existing Hfound Hfits.
    assert (Hstore : match UpdatePurchaseOrderDto.actualValue data with
                     | Some actualValue => storeDecimal (Supplied actualValue) ;;; ret tt
                     | None => ret tt
                     end db = (Ok tt, db)).
    { destruct (UpdatePurchaseOrderDto.actualValue data) as [v |]; [| reflexivity].
      unfold bind, storeDecimal. specialize (Hfits v eq_refl).
      apply Z.ltb_lt in Hfits. rewrite Hfits. reflexivity. }
    unfold updatePurchaseOrder, bind at 1, query at 1. rewrite Hfound.
    unfold bind at 1. rewrite Hstore. cbv [bind write query].
    set (upd := fun p : PurchaseOrder.t =>
                  if String.eqb (PurchaseOrder.id p) id
                  then applyPurchaseOrderUpdate data p else p).
    assert (Hb : forall l, map PurchaseOrder.bookingId (map upd l)
                           = map PurchaseOrder.bookingId l).
    { intros l. rewrite map_map. apply map_ext. intros p. unfold upd.
      destruct (String.eqb (PurchaseOrder.id p) id); reflexivity. }
    assert (Hn : forall l, map PurchaseOrder.poNumber (map upd l)
                           = map PurchaseOrder.poNumber l).
    { intros l. rewrite map_map. apply map_ext. intros p. unfold upd.
      destruct (String.eqb (PurchaseOrder.id p) id); reflexivity. }
    assert (Hget : getPurchaseOrderById id
                     (with_purchaseOrders db (map upd (purchaseOrders db)))
                   = Some (applyPurchaseOrderUpdate data existing)).
    { unfold getPurchaseOrderById in *. simpl purchaseOrders. simpl bookings.
      destruct (find (fun p => String.eqb (PurchaseOrder.id p) id) (purchaseOrders db))
        as [p |] eqn:Hf; [| discriminate].
      destruct (existsb (fun b => String.eqb (Booking.id b) (PurchaseOrder.bookingId p))
                        (bookings db)) eqn:Hex; [| discriminate].
      injection Hfound as <-.
      assert (Hf' : forall l q,
                 find (fun p => String.eqb (PurchaseOrder.id p) id) l = Some q ->
                 find (fun p => String.eqb (PurchaseOrder.id p) id) (map upd l)
                 = Some (applyPurchaseOrderUpdate data q)).
      { clear. induction l as [| a l IH]; intros q Hq; [discriminate |].
        simpl in *.
        destruct (String.eqb (PurchaseOrder.id a) id) eqn:Ha.
        - injection Hq as <-.
          replace (upd a) with (applyPurchaseOrderUpdate data a)
            by (unfold upd; rewrite Ha; reflexivity).
          simpl. rewrite Ha. reflexivity.
        - replace (upd a) with a by (unfold upd; rewrite Ha; reflexivity).
          rewrite Ha. exact (IH q Hq). }
      rewrite (Hf' _ _ Hf). simpl PurchaseOrder.bookingId. rewrite Hex. reflexivity. }
    eexists. split; [rewrite Hget; reflexivity |].
    split; [reflexivity |]. split; [apply Hb |]. split; [apply Hn |].
    unfold onePurchaseOrderPerBooking. simpl purchaseOrders. rewrite Hb. auto.
Qed.

(** ** Campaigns *)

Lemma NoDup_map_filter {Row Key} (key : Row -> Key) (keep : Row -> bool)
      (rows : list Row) (Hkeys : NoDup (map key rows)) :
  NoDup (map key (filter keep rows)).
Proof.
  revert Hkeys. induction rows as [| a l IH]; simpl; intros Hnd; [constructor |].
  inversion Hnd as [| ? ? Hnotin Hnd']; subst.
  destruct (keep a); simpl; [| auto].
  constructor; [| auto].
  intros Hin. apply Hnotin. apply in_map_iff in Hin. destruct Hin as (x & Hx & Hxin).
  apply filter_In in Hxin. rewrite <- Hx. apply in_map. apply Hxin.
Qed.

(** With unique billboard identifiers the batch lookup finds as many rows
    as identifiers were requested only if no identifier was requested
    twice. *)
Lemma billboardsResolved_NoDup (data : CreateCampaignDto.t) (db : DB) :
  uniqueBillboardIds db ->
  billboardsResolved data db ->
  NoDup (map BillboardSelection.billboardId (CreateCampaignDto.billboards data)).
Proof.
  intros Huniq Hres. unfold billboardsResolved in Hres.
  set (ids := map BillboardSelection.billboardId (CreateCampaignDto.billboards data)) in *.
  set (found := filter (fun b => existsb (String.eqb (Billboard.id b)) ids)
                       (billboards db)) in *.
  apply (NoDup_incl_NoDup (l := map Billboard.id found)).
  - apply NoDup_map_filter. exact Huniq.
  - rewrite length_map. rewrite Hres. apply Nat.le_refl.
  - intros id Hin. apply in_map_iff in Hin. destruct Hin as (b & <- & Hb).
    apply filter_In in Hb. destruct Hb as [_ Hex].
    apply existsb_exists in Hex. destruct Hex as (x & Hx & Heq).
    apply String.eqb_eq in Heq. now rewrite Heq.
Qed.

(** X17: with unique billboard identifiers, a campaign request that names
    one billboard twice, as a request for two slots of one digital billboard
    does, is always refused with "One or more billboards not found", before
    any availability check and without a write. *)
Theorem createCampaign_refuses_repeated_billboard :
  forall (data : CreateCampaignDto.t) (db : DB) (startDate endDate : CalendarDate),
    uniqueBillboardIds db ->
    CreateCampaignDto.startDate data = Some startDate ->
    CreateCampaignDto.endDate data = Some endDate ->
    ~ NoDup (map BillboardSelection.billboardId (CreateCampaignDto.billboards data)) ->
    createCampaign data db
    = (Throw (mkError "One or more billboards not found"), db).
Proof.
  intros data db startDate endDate Huniq Hs He Hdup.
  unfold createCampaign. rewrite Hs, He.
  destruct (CreateCampaignDto.billboards data) as [| x xs] eqn:Hx.
  { exfalso. apply Hdup. constructor. }
  rewrite <- Hx. unfold bind, query.
  match goal with
  | |- context [Nat.eqb ?a ?b] => destruct (Nat.eqb a b) eqn:Hlen
  end; [| reflexivity].
  exfalso. apply Hdup. apply Nat.eqb_eq in Hlen.
  rewrite <- Hx. exact (billboardsResolved_NoDup data db Huniq Hlen).
Qed.

(** What a successful [createCampaign] checked before it wrote. *)
Lemma createCampaign_checked (data : CreateCampaignDto.t) (db db' : DB)
      (res : option CampaignDetails) :
  createCampaign data db = (Ok res, db') ->
  exists startDate endDate,
    CreateCampaignDto.startDate data = Some startDate
    /\ CreateCampaignDto.endDate data = Some endDate
    /\ CreateCampaignDto.billboards data <> []
    /\ billboardsResolved data db
    /\ forall s, In s (CreateCampaignDto.billboards data) ->
         exists r, checkAvailability (selectionQuery startDate endDate s) db = Ok r
                   /\ available r = true.
Proof.
  intros Hrun. unfold createCampaign in Hrun.
  destruct (CreateCampaignDto.billboards data) as [| x xs] eqn:Hx; [discriminate |].
  destruct (CreateCampaignDto.startDate data) as [startDate |]; [| discriminate].
  destruct (CreateCampaignDto.endDate data) as [endDate |]; [| discriminate].
  cbv iota in Hrun. rewrite <- Hx in Hrun.
  unfold bind at 1, query at 1 in Hrun.
  match type of Hrun with
  | context [Nat.eqb ?a ?b] => destruct (Nat.eqb a b) eqn:Hlen; cbv [negb] in Hrun;
                               [| unfold throw in Hrun; discriminate]
  end.
  unfold bind at 1 in Hrun.
  match type of Hrun with
  | context [checkSelections ?s ?e ?d ?l db] =>
      destruct (checkSelections s e d l db) as [[u | err] db1] eqn:Hcheck; [| discriminate];
      destruct (checkSelections_ok s e d l db db1 u Hcheck) as [_ Havail]
  end.
  exists startDate, endDate.
  split; [reflexivity |]. split; [reflexivity |].
  split; [discriminate |].
  split; [unfold billboardsResolved; apply Nat.eqb_eq; exact Hlen |].
  rewrite <- Hx. exact Havail.
Qed.

Lemma ForallOrdPairs_app {A} (R : A -> A -> Prop) (l1 l2 : list A) :
  ForallOrdPairs R l1 -> ForallOrdPairs R l2 ->
  (forall x y, In x l1 -> In y l2 -> R x y) ->
  ForallOrdPairs R (l1 ++ l2).
Proof.
  induction 1 as [| a l Ha Hl IH]; intros H2 Hcross; simpl; [exact H2 |].
  constructor.
  - apply Forall_app. split; [exact Ha |].
    apply Forall_forall. intros y Hy. apply Hcross; [now left | exact Hy].
  - apply IH; [exact H2 |]. intros x y Hx Hy. apply Hcross; [now right | exact Hy].
Qed.

Lemma Forall2_In_r {A B} (R : A -> B -> Prop) (l : list A) (l' : list B) (y : B) :
  Forall2 R l l' -> In y l' -> exists x, In x l /\ R x y.
Proof.
  induction 1 as [| a b l l' Hab Hrest IH]; intros Hin; [destruct Hin |].
  destruct Hin as [<- | Hin].
  - exists a. split; [now left | exact Hab].
  - destruct (IH Hin) as (x & Hx & Hxy). exists x. split; [now right | exact Hxy].
Qed.

(** Bookings written for selections of pairwise different billboards are on
    pairwise different billboards. *)
Lemma new_bookings_apart (startDate endDate : CalendarDate)
      (selections : list BillboardSelection.t) (new : list Booking.t) :
  Forall2 (bookingOfSelection startDate endDate) selections new ->
  NoDup (map BillboardSelection.billboardId selections) ->
  ForallOrdPairs (fun a b => Booking.billboardId a <> Booking.billboardId b) new.
Proof.
  induction 1 as [| s b selections new Hsb Hrest IH]; intros Hnd; [constructor |].
  simpl in Hnd. inversion Hnd as [| ? ? Hnotin Hnd']; subst.
  constructor; [| exact (IH Hnd')].
  apply Forall_forall. intros y Hy Heq.
  destruct (Forall2_In_r _ _ _ y Hrest Hy) as (s' & Hs' & Hs'y).
  apply Hnotin. destruct Hsb as (Hb & _). destruct Hs'y as (Hy' & _).
  rewrite <- Hb, Heq, Hy'. now apply in_map.
Qed.

(** X18: with unique billboard identifiers [createCampaign] keeps the
    bookings table free of double bookings: every booking it writes was
    checked against the table as it stood, and no two of them are on the
    same billboard. *)
Theorem createCampaign_keeps_noDoubleBooking :
  forall (data : CreateCampaignDto.t) (db db' : DB) (res : option CampaignDetails),
    noDoubleBooking db ->
    uniqueBillboardIds db ->
    createCampaign data db = (Ok res, db') ->
    noDoubleBooking db'.
Proof.
  intros data db db' res Hinv Huniq Hrun.
  destruct (createCampaign_checked data db db' res Hrun)
    as (startDate & endDate & Hs & He & _ & Hres & Havail).
  destruct (createCampaign_inserted data db db' res Hrun)
    as (startDate' & endDate' & new & Hs' & He' & Hbk & Hbb & Hall).
  rewrite Hs in Hs'. injection Hs' as <-. rewrite He in He'. injection He' as <-.
  unfold noDoubleBooking. rewrite Hbk.
  eapply ForallOrdPairs_impl; [intros a b; apply compatible_ext; exact Hbb |].
  apply ForallOrdPairs_app.
  - exact Hinv.
  - eapply ForallOrdPairs_impl;
      [| exact (new_bookings_apart startDate endDate _ new Hall
                  (billboardsResolved_NoDup data db Huniq Hres))].
    intros a b Hne Hsame. contradiction.
  - intros x y Hx Hy.
    destruct (Forall2_In_r _ _ _ y Hall Hy) as (s & Hsin & Hsy).
    destruct (Havail s Hsin) as (r & Hr & Ha).
    destruct Hsy as (Hyb & Hyslot & Hystart & Hyend & _).
    apply (admitted_row_compatible (selectionQuery startDate endDate s) db r);
      [exact Hr | exact Ha | exact Hyb | exact Hystart | exact Hyend | | exact Hx | exact I].
    intros n Hn. rewrite Hyslot in Hn. apply number_or_null_some in Hn. exact Hn.
Qed.

Lemma In_insertByStartDate (x b : Booking.t) (l : list Booking.t) :
  In x (insertByStartDate b l) <-> x = b \/ In x l.
Proof.
  induction l as [| a l IH]; simpl.
  - intuition.
  - destruct (Booking.startDate b <? Booking.startDate a); simpl; [intuition |].
    rewrite IH. intuition.
Qed.

Lemma length_insertByStartDate (b : Booking.t) (l : list Booking.t) :
  List.length (insertByStartDate b l) = S (List.length l).
Proof.
  induction l as [| a l IH]; simpl; [reflexivity |].
  destruct (Booking.startDate b <? Booking.startDate a); simpl; [reflexivity |].
  now rewrite IH.
Qed.

Lemma length_orderByStartDate (l : list Booking.t) :
  List.length (orderByStartDate l) = List.length l.
Proof.
  unfold orderByStartDate.
  assert (H : forall acc, List.length (fold_left (fun s b => insertByStartDate b s) l acc)
                          = (List.length l + List.length acc)%nat).
  { induction l as [| a l IH]; intros acc; simpl; [reflexivity |].
    rewrite IH, length_insertByStartDate. lia. }
  rewrite H. simpl. lia.
Qed.

Lemma bookingCount_positive (id : UUID) (db : DB) (details : CampaignDetails) :
  getCampaignById id db = Some details ->
  ((0 <? bookingCount details)%nat = true
   <-> exists b, In b (bookings db) /\ Booking.campaignId b = Some id).
Proof.
  unfold getCampaignById. intros H.
  destruct (find (fun c => String.eqb (Campaign.id c) id) (campaigns db)); [| discriminate].
  injection H as <-. simpl. rewrite length_orderByStartDate, Nat.ltb_lt.
  assert (Hopt : forall b, option_string_eqb (Booking.campaignId b) id = true
                           <-> Booking.campaignId b = Some id).
  { intros b. unfold option_string_eqb. destruct (Booking.campaignId b) as [c |].
    - rewrite String.eqb_eq. split; congruence.
    - split; discriminate. }
  split.
  - intros Hlen.
    destruct (filter (fun b => option_string_eqb (Booking.campaignId b) id) (bookings db))
      as [| b l] eqn:Hf; [simpl in Hlen; lia |].
    assert (Hin : In b (filter (fun b => option_string_eqb (Booking.campaignId b) id)
                               (bookings db))) by (rewrite Hf; now left).
    apply filter_In in Hin. exists b. split; [apply Hin | apply Hopt, Hin].
  - intros (b & Hin & Hc).
    assert (Hin' : In b (filter (fun b => option_string_eqb (Booking.campaignId b) id)
                                (bookings db))).
    { apply filter_In. split; [exact Hin | now apply Hopt]. }
    destruct (filter (fun b => option_string_eqb (Booking.campaignId b) id) (bookings db));
      [destruct Hin' | simpl; lia].
Qed.

(** X19: [deleteCampaign] throws, writing nothing, when the campaign does
    not exist and when some booking still refers to it; otherwise it removes
    the campaign and leaves every booking as it is. *)
Theorem deleteCampaign_only_empty :
  forall (db : DB) (id : UUID),
    (getCampaignById id db = None ->
     deleteCampaign id db = (Throw (mkError "Campaign not found"), db))
    /\ (forall details b,
          getCampaignById id db = Some details ->
          In b (bookings db) -> Booking.campaignId b = Some id ->
          deleteCampaign id db
          = (Throw (mkError
               "Cannot delete campaign with existing bookings. Remove bookings from the campaign first."),
             db))
    /\ (forall details,
          getCampaignById id db = Some details ->
          (forall b, In b (bookings db) -> Booking.campaignId b <> Some id) ->
          exists db',
            deleteCampaign id db = (Ok tt, db')
            /\ getCampaignById id db' = None
            /\ bookings db' = bookings db
            /\ forall c, In c (campaigns db')
                         <-> In c (campaigns db) /\ Campaign.id c <> id).
Proof.
  intros db id. split; [| split].
  - intros Hnone. unfold deleteCampaign, bind, query. rewrite Hnone. reflexivity.
  - intros details b Hfound Hin Hc. unfold deleteCampaign, bind, query. rewrite Hfound.
    assert (Hpos : (0 <? bookingCount details)%nat = true).
    { apply (bookingCount_positive id db details Hfound). eauto. }
    rewrite Hpos. reflexivity.
  - intros details Hfound Hnone. unfold deleteCampaign, bind, query. rewrite Hfound.
    assert (Hzero : (0 <? bookingCount details)%nat = false).
    { destruct (0 <? bookingCount details)%nat eqn:Hpos; [| reflexivity].
      apply (bookingCount_positive id db details Hfound) in Hpos.
      destruct Hpos as (b & Hin & Hc). exfalso. exact (Hnone b Hin Hc). }
    rewrite Hzero. cbv [write]. eexists. split; [reflexivity |].
    split; [| split; [reflexivity |]].
    + unfold getCampaignById. simpl campaigns.
      assert (Hf : find (fun c => String.eqb (Campaign.id c) id)
                        (filter (fun c => negb (String.eqb (Campaign.id c) id))
                                (campaigns db)) = None).
      { clear. induction (campaigns db) as [| a l IH]; [reflexivity |]. simpl.
        destruct (String.eqb (Campaign.id a) id) eqn:Ha; simpl;
          [| rewrite Ha]; exact IH. }
      rewrite Hf. reflexivity.
    + intros c. simpl campaigns.
      rewrite filter_In, negb_true_iff, String.eqb_neq. reflexivity.
Qed.

Lemma createBookings_linked (data : CreateCampaignDto.t) (startDate endDate : CalendarDate)
      (c : Campaign.t) (details : list Billboard.t)
      (selections : list BillboardSelection.t) :
  forall (total total' : JS.Number) (db db' : DB),
    createBookings data startDate endDate c details selections total db = (Ok total', db') ->
    exists new,
      bookings db' = (bookings db ++ new)%list
      /\ campaigns db' = campaigns db
      /\ Forall (fun b => Booking.campaignId b = Some (Campaign.id c)) new.
Proof.
  induction selections as [| s rest IH]; intros total total' db db' Hrun.
  - simpl in Hrun. injection Hrun as _ <-. exists [].
    rewrite app_nil_r. repeat split. constructor.
  - cbn [createBookings] in Hrun.
    destruct (findDetails details (BillboardSelection.billboardId s)) as [billboard |];
      [| exact (IH _ _ _ _ Hrun)].
    unfold bind at 1 in Hrun.
    destruct (getNextSequence_run SequenceEntityType.booking db) as [(code & rows & Hseq) | (err & Hseq)];
      [| rewrite Hseq in Hrun; discriminate].
    rewrite Hseq in Hrun. unfold bind at 1 in Hrun.
    match type of Hrun with
    | context [storeDecimal ?t ?d] =>
        destruct (storeDecimal_run t d) as [[v Hv] | [e He]];
          [rewrite Hv in Hrun | rewrite He in Hrun; discriminate]
    end.
    unfold bind at 1, defaultRandom at 1 in Hrun.
    unfold bind at 1, write at 1 in Hrun.
    apply IH in Hrun. destruct Hrun as (new & Hbk & Hcs & Hall).
    simpl in Hbk, Hcs. rewrite <- app_assoc in Hbk. simpl in Hbk.
    eexists. split; [exact Hbk |]. split; [exact Hcs |].
    constructor; [reflexivity | exact Hall].
Qed.

(** The campaign row and the bookings a successful [createCampaign] leaves
    behind carry the identifier handed out for the campaign. *)
Lemma createCampaign_linked (data : CreateCampaignDto.t) (db db' : DB)
      (res : option CampaignDetails) :
  createCampaign data db = (Ok res, db') ->
  exists new,
    bookings db' = (bookings db ++ new)%list
    /\ Forall (fun b => Booking.campaignId b = Some (nextUuid db)) new
    /\ (exists c, In c (campaigns db') /\ Campaign.id c = nextUuid db)
    /\ res = getCampaignById (nextUuid db) db'.
Proof.
  intros Hrun. unfold createCampaign in Hrun.
  destruct (CreateCampaignDto.billboards data) as [| x xs] eqn:Hx; [discriminate |].
  destruct (CreateCampaignDto.startDate data) as [startDate |]; [| discriminate].
  destruct (CreateCampaignDto.endDate data) as [endDate |]; [| discriminate].
  cbv iota in Hrun. rewrite <- Hx in Hrun.
  unfold bind at 1, query at 1 in Hrun.
  match type of Hrun with
  | context [negb ?c] => destruct c; cbv [negb] in Hrun;
                         [| unfold throw in Hrun; discriminate]
  end.
  unfold bind at 1 in Hrun.
  match type of Hrun with
  | context [checkSelections ?s ?e ?d ?l db] =>
      destruct (checkSelections s e d l db) as [[u | err] db1] eqn:Hcheck; [| discriminate];
      destruct (checkSelections_ok s e d l db db1 u Hcheck) as [-> _]
  end.
  unfold bind at 1 in Hrun.
  destruct (getNextSequence_run SequenceEntityType.campaign db) as [(code & rows & Hseq) | (err & Hseq)];
    [| rewrite Hseq in Hrun; discriminate].
  rewrite Hseq in Hrun.
  unfold bind at 1, defaultRandom at 1 in Hrun.
  unfold bind at 1, write at 1 in Hrun.
  unfold bind at 1 in Hrun.
  match type of Hrun with
  | context [createBookings ?a ?s ?e ?c ?d ?l ?t ?st] =>
      destruct (createBookings a s e c d l t st) as [[total | err] db2] eqn:Hloop;
        [| discriminate];
      apply createBookings_linked in Hloop
  end.
  destruct Hloop as (new & Hbk & Hcs & Hall).
  unfold bind at 1 in Hrun.
  match type of Hrun with
  | context [storeDecimal ?t ?d] =>
      destruct (storeDecimal_run t d) as [[v Hv] | [e He]];
        [rewrite Hv in Hrun | rewrite He in Hrun; discriminate]
  end.
  cbv [bind write query] in Hrun. injection Hrun as Hres Hdb.
  simpl in Hbk, Hcs, Hall, Hres, Hdb.
  exists new. split; [subst db'; exact Hbk |]. split; [exact Hall |].
  split; [| subst db'; symmetry; exact Hres].
  subst db'. simpl campaigns. rewrite Hcs.
  eexists. split.
  - apply in_map. apply in_or_app. right. left. reflexivity.
  - simpl. rewrite String.eqb_refl. reflexivity.
Qed.

Lemma find_present {A} (f : A -> bool) (l : list A) (x : A) :
  In x l -> f x = true -> exists y, find f l = Some y /\ f y = true.
Proof.
  intros Hin Hx. destruct (find f l) as [y |] eqn:Hf.
  - exists y. split; [reflexivity |]. apply find_some in Hf. apply Hf.
  - rewrite (find_none f l Hf x Hin) in Hx. discriminate.
Qed.

Lemma length_filter_app_all {A} (f : A -> bool) (l new : list A) :
  Forall (fun x => f x = true) new ->
  (List.length new <= List.length (filter f (l ++ new)%list))%nat.
Proof.
  intros Hall. rewrite filter_app, length_app.
  assert (Hnew : filter f new = new).
  { induction Hall as [| a new Ha _ IH]; [reflexivity |]. simpl. rewrite Ha, IH. reflexivity. }
  rewrite Hnew. lia.
Qed.

(** X20: the campaign a successful [createCampaign] returns carries the
    identifier handed out for it and counts at least one booking per
    selection; [deleteCampaign] of that campaign is then refused, so a
    campaign made by [createCampaign] cannot be deleted as it stands. *)
Theorem createCampaign_then_deleteCampaign_refused :
  forall (data : CreateCampaignDto.t) (db db' : DB) (res : option CampaignDetails),
    createCampaign data db = (Ok res, db') ->
    exists details,
      res = Some details
      /\ Campaign.id (campaign_row details) = nextUuid db
      /\ (1 <= List.length (CreateCampaignDto.billboards data) <= bookingCount details)%nat
      /\ deleteCampaign (nextUuid db) db'
         = (Throw (mkError
              "Cannot delete campaign with existing bookings. Remove bookings from the campaign first."),
            db').
Proof.
  intros data db db' res Hrun.
  destruct (createCampaign_linked data db db' res Hrun) as (new & Hbk & Hall & (c & Hc & Hid) & Hres).
  destruct (createCampaign_inserted data db db' res Hrun)
    as (startDate & endDate & new' & _ & _ & Hbk' & _ & Hall').
  destruct (createCampaign_checked data db db' res Hrun) as (_ & _ & _ & _ & Hne & _).
  rewrite Hbk in Hbk'. apply app_inv_head in Hbk'. subst new'.
  apply Forall2_length in Hall'.
  destruct (find_present (fun c => String.eqb (Campaign.id c) (nextUuid db)) (campaigns db') c Hc)
    as (c' & Hfind & Hc'); [apply String.eqb_eq; exact Hid |].
  apply String.eqb_eq in Hc'.
  assert (Hdetails : exists details,
             getCampaignById (nextUuid db) db' = Some details
             /\ Campaign.id (campaign_row details) = nextUuid db
             /\ (List.length new <= bookingCount details)%nat).
  { unfold getCampaignById. rewrite Hfind. eexists. split; [reflexivity |].
    split; [exact Hc' |]. simpl. rewrite length_orderByStartDate, Hbk.
    apply length_filter_app_all.
    eapply Forall_impl; [| exact Hall]. intros b Hb. simpl in Hb.
    unfold option_string_eqb. rewrite Hb. apply String.eqb_refl. }
  destruct Hdetails as (details & Hget & Hdid & Hcount).
  assert (Hlen : (1 <= List.length (CreateCampaignDto.billboards data))%nat).
  { destruct (CreateCampaignDto.billboards data); [contradiction | simpl; lia]. }
  exists details. split; [rewrite Hres; exact Hget |]. split; [exact Hdid |].
  split; [lia |].
  unfold deleteCampaign, bind, query. rewrite Hget.
  assert (Hpos : (0 <? bookingCount details)%nat = true) by (apply Nat.ltb_lt; lia).
  rewrite Hpos. reflexivity.
Qed.

(** ** Available billboards *)

Lemma findBillboard_In (db : DB) (billboard : Billboard.t) :
  uniqueBillboardIds db ->
  In billboard (billboards db) ->
  findBillboard (Billboard.id billboard) db = Some billboard.
Proof.
  unfold uniqueBillboardIds, findBillboard. intros Huniq Hin.
  destruct (find_present (fun b => String.eqb (Billboard.id b) (Billboard.id billboard))
                         (billboards db) billboard Hin (String.eqb_refl _))
    as (y & Hfind & Hy).
  rewrite Hfind. f_equal. apply find_some in Hfind. destruct Hfind as [Hyin _].
  apply String.eqb_eq in Hy.
  exact (NoDup_map_eq Billboard.id (billboards db) y billboard Huniq Hyin Hin Hy).
Qed.

Lemma filter_nil_iff {A} (f : A -> bool) (l : list A) :
  filter f l = [] <-> forall x, In x l -> f x = false.
Proof.
  induction l as [| a l IH]; simpl.
  - split; [intros _ x [] | reflexivity].
  - destruct (f a) eqn:Ha.
    + split; [discriminate |]. intros H. rewrite (H a (or_introl eq_refl)) in Ha. discriminate.
    + rewrite IH. split.
      * intros H x [<- | Hx]; [exact Ha | exact (H x Hx)].
      * intros H x Hx. apply H. now right.
Qed.

Lemma map_nil_iff {A B} (f : A -> B) (l : list A) : map f l = [] <-> l = [].
Proof. destruct l; simpl; split; congruence. Qed.

(** The whole-billboard probe: its conflicts are the blocking bookings. *)
Lemma billboard_probe (db : DB) (billboard : Billboard.t) (id : UUID)
      (startDate endDate : CalendarDate) :
  findBillboard id db = Some billboard ->
  exists r,
    checkAvailability (AvailabilityQuery.mk id startDate endDate None None) db = Ok r
    /\ (forall c, In c (conflicts r)
                  <-> exists b, In b (bookings db) /\ blocks id startDate endDate b
                                /\ c = selectConflict b)
    /\ (available r = true
        <-> forall b, In b (bookings db) -> ~ blocks id startDate endDate b).
Proof.
  intros Hf.
  destruct (checkAvailability_found (AvailabilityQuery.mk id startDate endDate None None)
                                    db billboard Hf) as (r & Hr & Hc & Ha).
  assert (Hcond : forall b,
             and_ (availabilityConditions billboard
                     (AvailabilityQuery.mk id startDate endDate None None)) b = true
             <-> blocks id startDate endDate b).
  { intros b. rewrite availabilityConditions_spec.
    unfold onBillboard, overlaps, notExcluded, slotAdmits, blocks. simpl.
    split.
    - intros (Hb & (Hs & He) & _ & _). repeat split; [exact Hb | exact Hs | lia].
    - intros (Hb & Hs & He). repeat split; [exact Hb | exact Hs | lia | discriminate]. }
  exists r. split; [exact Hr |]. split.
  - intros c. rewrite Hc, in_map_iff. split.
    + intros (b & Hcb & Hin). apply filter_In in Hin. destruct Hin as [Hin Hp].
      exists b. split; [exact Hin |]. split; [apply Hcond; exact Hp | now symmetry].
    + intros (b & Hin & Hp & Hcb). exists b. split; [now symmetry |].
      apply filter_In. split; [exact Hin | apply Hcond; exact Hp].
  - rewrite Ha, length_zero_true, Hc, map_nil_iff, filter_nil_iff. split.
    + intros H b Hin Hp. apply Hcond in Hp. rewrite (H b Hin) in Hp. discriminate.
    + intros H b Hin.
      destruct (and_ (availabilityConditions billboard
                        (AvailabilityQuery.mk id startDate endDate None None)) b) eqn:Hp;
        [| reflexivity].
      exfalso. apply (H b Hin). apply Hcond. exact Hp.
Qed.

(** The probe of one slot of a digital billboard. *)
Lemma slot_probe (db : DB) (billboard : Billboard.t) (id : UUID)
      (startDate endDate : CalendarDate) (slot : Z) :
  findBillboard id db = Some billboard ->
  Billboard.type billboard = "digital" ->
  exists r,
    checkAvailability
      (AvailabilityQuery.mk id startDate endDate (Some (Some slot)) None) db = Ok r
    /\ (available r = true <-> slotFree db id startDate endDate slot).
Proof.
  intros Hf Hd.
  destruct (checkAvailability_found (AvailabilityQuery.mk id startDate endDate (Some (Some slot)) None)
                                    db billboard Hf) as (r & Hr & Hc & Ha).
  assert (Hcond : forall b,
             and_ (availabilityConditions billboard
                     (AvailabilityQuery.mk id startDate endDate (Some (Some slot)) None)) b = true
             <-> blocks id startDate endDate b /\ Booking.slotNumber b = Some slot).
  { intros b. rewrite availabilityConditions_spec.
    unfold onBillboard, overlaps, notExcluded, slotAdmits, blocks. simpl.
    split.
    - intros (Hb & (Hs & He) & _ & Hslot).
      split; [repeat split; [exact Hb | exact Hs | lia] |].
      destruct (Hslot Hd _ eq_refl) as (n & Hn & Hbn). injection Hn as <-. exact Hbn.
    - intros ((Hb & Hs & He) & Hslot).
      repeat split; [exact Hb | exact Hs | lia |].
      intros _ n Hn. injection Hn as <-. exists slot. auto. }
  exists r. split; [exact Hr |].
  rewrite Ha, length_zero_true, Hc, map_nil_iff, filter_nil_iff. unfold slotFree. split.
  - intros H b Hin Hp Hslot.
    assert (Ht : and_ (availabilityConditions billboard
                         (AvailabilityQuery.mk id startDate endDate (Some (Some slot)) None)) b = true)
      by (apply Hcond; split; assumption).
    rewrite (H b Hin) in Ht. discriminate.
  - intros H b Hin.
    destruct (and_ (availabilityConditions billboard
                      (AvailabilityQuery.mk id startDate endDate (Some (Some slot)) None)) b) eqn:Hp;
      [| reflexivity].
    apply Hcond in Hp. destruct Hp as [Hp Hslot]. exfalso. exact (H b Hin Hp Hslot).
Qed.

Lemma probeSlots_spec (db : DB) (billboard : Billboard.t) (id : UUID)
      (startDate endDate : CalendarDate) :
  findBillboard id db = Some billboard ->
  Billboard.type billboard = "digital" ->
  forall (remaining : nat) (slot : Z),
  exists slots,
    probeSlots id startDate endDate slot remaining db = (Ok slots, db)
    /\ forall k, In k slots
                 <-> slot <= k < slot + Z.of_nat remaining
                     /\ slotFree db id startDate endDate k.
Proof.
  intros Hf Hd. induction remaining as [| remaining IH]; intros slot.
  - exists []. split; [reflexivity |]. intros k. split; [intros [] | lia].
  - cbn [probeSlots]. unfold bind at 1, attempt at 1.
    destruct (slot_probe db billboard id startDate endDate slot Hf Hd) as (r & Hr & Ha).
    rewrite Hr. unfold bind at 1.
    destruct (IH (slot + 1)) as (rest & Hrest & Hspec). rewrite Hrest. unfold ret.
    eexists. split; [reflexivity |]. intros k.
    destruct (available r) eqn:Hav.
    + simpl. rewrite Hspec. split.
      * intros [<- | [Hrange Hfree]]; (split; [lia |]); [apply Ha; reflexivity | exact Hfree].
      * intros [Hrange Hfree]. destruct (Z.eq_dec slot k) as [Heq | Hne]; [now left | right].
        split; [lia | exact Hfree].
    + rewrite Hspec. split.
      * intros [Hrange Hfree]. split; [lia | exact Hfree].
      * intros [Hrange Hfree]. split; [| exact Hfree].
        destruct (Z.eq_dec slot k) as [Heq | Hne]; [| lia].
        subst k. apply Ha in Hfree. discriminate.
Qed.

(** What [getAvailableBillboards] reports for one billboard of the table. *)
Lemma describeBillboard_spec (db : DB) (billboard : Billboard.t)
      (startDate endDate : CalendarDate) :
  findBillboard (Billboard.id billboard) db = Some billboard ->
  exists entry,
    describeBillboard startDate endDate billboard db = (Ok entry, db)
    /\ listed entry = billboard
    /\ (forall c, In c (listedConflicts entry)
                  <-> exists b, In b (bookings db)
                                /\ blocks (Billboard.id billboard) startDate endDate b
                                /\ c = selectConflict b)
    /\ (forall n, Billboard.type billboard = "digital" ->
                  Billboard.slotCount billboard = Some n -> n <> 0 ->
                  (forall k, In k (availableSlots entry)
                             <-> 1 <= k <= n
                                 /\ slotFree db (Billboard.id billboard) startDate endDate k)
                  /\ (isAvailable entry = true
                      <-> exists k, 1 <= k <= n
                                    /\ slotFree db (Billboard.id billboard)
                                                startDate endDate k))
    /\ (Billboard.type billboard <> "digital"
        \/ Billboard.slotCount billboard = None
        \/ Billboard.slotCount billboard = Some 0 ->
        availableSlots entry = []
        /\ (isAvailable entry = true
            <-> forall b, In b (bookings db) ->
                          ~ blocks (Billboard.id billboard) startDate endDate b)).
Proof.
  intros Hf. unfold describeBillboard. unfold bind at 1, attempt at 1.
  destruct (billboard_probe db billboard (Billboard.id billboard) startDate endDate Hf)
    as (r & Hr & Hc & Ha).
  rewrite Hr.
  destruct (Billboard.slotCount billboard) as [n |] eqn:Hn.
  - destruct (String.eqb (Billboard.type billboard) "digital") eqn:Hd.
    + apply String.eqb_eq in Hd. destruct (n =? 0) eqn:Hz; cbv [andb negb].
      * apply Z.eqb_eq in Hz. subst n. eexists. split; [reflexivity |].
        split; [reflexivity |]. split; [exact Hc |]. split.
        -- intros n' _ Hn' Hnz. injection Hn' as <-. contradiction.
        -- intros _. split; [reflexivity | exact Ha].
      * apply Z.eqb_neq in Hz.
        destruct (probeSlots_spec db billboard (Billboard.id billboard) startDate endDate
                                  Hf Hd (Z.to_nat n) 1) as (slots & Hslots & Hspec).
        unfold bind. rewrite Hslots. unfold ret.
        assert (Hk : forall k, In k slots
                               <-> 1 <= k <= n
                                   /\ slotFree db (Billboard.id billboard) startDate endDate k).
        { intros k. rewrite Hspec. split; intros [Hrange Hfree]; (split; [lia | exact Hfree]). }
        eexists. split; [reflexivity |]. split; [reflexivity |]. split; [exact Hc |]. split.
        -- intros n' _ Hn' _. injection Hn' as <-. split; [exact Hk |].
           unfold isAvailable. fold (negb (Nat.eqb (List.length slots) 0)).
           rewrite negb_true_iff, length_zero_false. split.
           ++ intros (k & Hin). exists k. apply Hk. exact Hin.
           ++ intros (k & Hin). exists k. apply Hk. exact Hin.
        -- intros [Hnd | [Hnone | Hzero]]; [contradiction | discriminate |].
           injection Hzero as ->. contradiction.
    + apply String.eqb_neq in Hd. cbv [andb].
      eexists. split; [reflexivity |]. split; [reflexivity |]. split; [exact Hc |]. split.
      * intros n' Hd'. contradiction.
      * intros _. split; [reflexivity | exact Ha].
  - eexists. split; [reflexivity |]. split; [reflexivity |]. split; [exact Hc |]. split.
    + intros n' _ Hn'. discriminate.
    + intros _. split; [reflexivity | exact Ha].
Qed.

Lemma describeAll_run (db : DB) (startDate endDate : CalendarDate)
      (allBillboards : list Billboard.t) :
  (forall billboard, In billboard allBillboards ->
     findBillboard (Billboard.id billboard) db = Some billboard) ->
  exists entries,
    describeAll startDate endDate allBillboards db = (Ok entries, db)
    /\ Forall2 (fun billboard entry =>
                  describeBillboard startDate endDate billboard db = (Ok entry, db))
               allBillboards entries.
Proof.
  induction allBillboards as [| billboard rest IH]; intros Hfound.
  - exists []. split; [reflexivity | constructor].
  - cbn [describeAll]. unfold bind at 1.
    destruct (describeBillboard_spec db billboard startDate endDate
                (Hfound billboard (or_introl eq_refl))) as (entry & Hentry & _).
    rewrite Hentry. unfold bind at 1.
    destruct IH as (entries & Hentries & Hall); [intros b Hb; apply Hfound; now right |].
    rewrite Hentries. unfold ret. eexists. split; [reflexivity |].
    constructor; [exact Hentry | exact Hall].
Qed.

Lemma Forall2_map_eq {A B} (f : B -> A) (R : A -> B -> Prop) (l : list A) (l' : list B) :
  (forall x y, R x y -> f y = x) -> Forall2 R l l' -> map f l' = l.
Proof.
  intros Hf. induction 1 as [| a b l l' Hab _ IH]; [reflexivity |].
  simpl. rewrite (Hf a b Hab), IH. reflexivity.
Qed.

Lemma getAvailableBillboards_run (orderByName : list Billboard.t -> list Billboard.t)
      (db : DB) (startDate endDate : CalendarDate) :
  rowsOf orderByName ->
  uniqueBillboardIds db ->
  exists entries,
    getAvailableBillboards orderByName startDate endDate db = (Ok entries, db)
    /\ Forall2 (fun billboard entry =>
                  describeBillboard startDate endDate billboard db = (Ok entry, db))
               (orderByName (filter (fun b => String.eqb (Billboard.status b) "active")
                                    (billboards db)))
               entries.
Proof.
  intros orderByName_rows Huniq. unfold getAvailableBillboards, bind, query.
  apply describeAll_run. intros billboard Hin.
  apply orderByName_rows in Hin. apply filter_In in Hin.
  apply findBillboard_In; [exact Huniq | apply Hin].
Qed.

Lemma getAvailableBillboards_entry (orderByName : list Billboard.t -> list Billboard.t)
      (db : DB) (startDate endDate : CalendarDate)
      (entries : list AvailableBillboard) (entry : AvailableBillboard) :
  rowsOf orderByName ->
  uniqueBillboardIds db ->
  getAvailableBillboards orderByName startDate endDate db = (Ok entries, db) ->
  In entry entries ->
  In (listed entry) (billboards db)
  /\ Billboard.status (listed entry) = "active"
  /\ describeBillboard startDate endDate (listed entry) db = (Ok entry, db).
Proof.
  intros orderByName_rows Huniq Hrun Hin.
  destruct (getAvailableBillboards_run orderByName db startDate endDate orderByName_rows Huniq)
    as (entries' & Hrun' & Hall).
  rewrite Hrun in Hrun'. injection Hrun' as <-.
  destruct (Forall2_In_r _ _ _ entry Hall Hin) as (billboard & Hb & Hentry).
  apply orderByName_rows in Hb. apply filter_In in Hb. destruct Hb as [Hb Hstatus].
  destruct (describeBillboard_spec db billboard startDate endDate
              (findBillboard_In db billboard Huniq Hb)) as (entry' & Hentry' & Hlisted & _).
  rewrite Hentry in Hentry'. injection Hentry' as <-. rewrite Hlisted.
  split; [exact Hb |]. split; [apply String.eqb_eq; exact Hstatus | exact Hentry].
Qed.

(** X21: [getAvailableBillboards] never throws and writes nothing; it lists
    the active billboards in the order of the query, one entry each, and the
    conflicts of an entry are the bookings of any status and any slot that
    are on the billboard and share a day with the range. *)
Theorem getAvailableBillboards_lists_active :
  forall (orderByName : list Billboard.t -> list Billboard.t)
         (db : DB) (startDate endDate : CalendarDate),
    rowsOf orderByName ->
    uniqueBillboardIds db ->
    exists entries,
      getAvailableBillboards orderByName startDate endDate db = (Ok entries, db)
      /\ map listed entries
         = orderByName (filter (fun b => String.eqb (Billboard.status b) "active")
                               (billboards db))
      /\ forall entry, In entry entries ->
           Billboard.status (listed entry) = "active"
           /\ forall c, In c (listedConflicts entry)
                        <-> exists b, In b (bookings db)
                                      /\ blocks (Billboard.id (listed entry))
                                                startDate endDate b
                                      /\ c = selectConflict b.
Proof.
  intros orderByName db startDate endDate orderByName_rows Huniq.
  destruct (getAvailableBillboards_run orderByName db startDate endDate orderByName_rows Huniq)
    as (entries & Hrun & Hall).
  exists entries. split; [exact Hrun |]. split.
  - apply (Forall2_map_eq listed _ _ _) with (2 := Hall).
    intros billboard entry Hentry.
    assert (Hin : In billboard (orderByName
                     (filter (fun b => String.eqb (Billboard.status b) "active")
                             (billboards db))) -> listed entry = billboard).
    { intros Hb. apply orderByName_rows in Hb. apply filter_In in Hb.
      destruct (describeBillboard_spec db billboard startDate endDate
                  (findBillboard_In db billboard Huniq (proj1 Hb)))
        as (entry' & Hentry' & Hlisted & _).
      rewrite Hentry in Hentry'. injection Hentry' as <-. exact Hlisted. }
    unfold describeBillboard, bind, attempt in Hentry.
    destruct (checkAvailability _ db); [| discriminate].
    destruct (Billboard.slotCount billboard) as [n |].
    + destruct (String.eqb (Billboard.type billboard) "digital" && negb (n =? 0)).
      * destruct (probeSlots _ _ _ _ _ db) as [[slots | err] db1]; [| discriminate].
        unfold ret in Hentry. injection Hentry as <- _. reflexivity.
      * unfold ret in Hentry. injection Hentry as <-. reflexivity.
    + unfold ret in Hentry. injection Hentry as <-. reflexivity.
  - intros entry Hin.
    destruct (getAvailableBillboards_entry orderByName db startDate endDate entries entry
                orderByName_rows Huniq Hrun Hin) as (Hb & Hstatus & Hentry).
    split; [exact Hstatus |].
    destruct (describeBillboard_spec db (listed entry) startDate endDate
                (findBillboard_In db (listed entry) Huniq Hb))
      as (entry' & Hentry' & _ & Hc & _).
    rewrite Hentry in Hentry'. injection Hentry' as <-. exact Hc.
Qed.

(** X22: in the result of [getAvailableBillboards], a digital billboard
    with a slot count [n] other than zero lists exactly the slots [1..n]
    that no blocking booking carries, and is available exactly when some
    such slot exists, so bookings without a slot number never make it
    unavailable; every other billboard lists no slot and is available
    exactly when no booking blocks it. *)
Theorem getAvailableBillboards_slots :
  forall (orderByName : list Billboard.t -> list Billboard.t)
         (db : DB) (startDate endDate : CalendarDate)
         (entries : list AvailableBillboard) (entry : AvailableBillboard),
    rowsOf orderByName ->
    uniqueBillboardIds db ->
    getAvailableBillboards orderByName startDate endDate db = (Ok entries, db) ->
    In entry entries ->
    (forall n, Billboard.type (listed entry) = "digital" ->
               Billboard.slotCount (listed entry) = Some n -> n <> 0 ->
               (forall k, In k (availableSlots entry)
                          <-> 1 <= k <= n
                              /\ slotFree db (Billboard.id (listed entry)) startDate endDate k)
               /\ (isAvailable entry = true
                   <-> exists k, 1 <= k <= n
                                 /\ slotFree db (Billboard.id (listed entry))
                                             startDate endDate k))
    /\ (Billboard.type (listed entry) <> "digital"
        \/ Billboard.slotCount (listed entry) = None
        \/ Billboard.slotCount (listed entry) = Some 0 ->
        availableSlots entry = []
        /\ (isAvailable entry = true
            <-> forall b, In b (bookings db) ->
                          ~ blocks (Billboard.id (listed entry)) startDate endDate b)).
Proof.
  intros orderByName db startDate endDate entries entry orderByName_rows Huniq Hrun Hin.
  destruct (getAvailableBillboards_entry orderByName db startDate endDate entries entry
              orderByName_rows Huniq Hrun Hin) as (Hb & _ & Hentry).
  destruct (describeBillboard_spec db (listed entry) startDate endDate
              (findBillboard_In db (listed entry) Huniq Hb))
    as (entry' & Hentry' & _ & _ & Hdigital & Hother).
  rewrite Hentry in Hentry'. injection Hentry' as <-.
  split; [exact Hdigital | exact Hother].
Qed.
(** ** Runs on the small store *)

Lemma Example_billboards_unique : uniqueBillboardIds Example.empty.
Proof.
  unfold uniqueBillboardIds. simpl.
  repeat (apply NoDup_cons; [simpl; intuition discriminate |]). apply NoDup_nil.
Qed.

Lemma Example_booked_sound : noDoubleBooking Example.booked /\ uniqueBookingIds Example.booked.
Proof.
  split.
  - unfold noDoubleBooking. simpl. repeat constructor.
  - unfold uniqueBookingIds. simpl.
    repeat (apply NoDup_cons; [simpl; intuition discriminate |]). apply NoDup_nil.
Qed.

(** Slot 1 of the digital billboard is booked: one booking, no pair. *)
Lemma Example_slotOneBooked_sound : noDoubleBooking Example.slotOneBooked.
Proof. unfold noDoubleBooking. simpl. repeat constructor. Qed.

(** Two bookings of the static billboard on days apart. *)
Lemma Scenario_twoStatic_sound :
  noDoubleBooking Scenario.twoStatic /\ uniqueBookingIds Scenario.twoStatic.
Proof.
  split.
  - unfold noDoubleBooking. simpl. repeat constructor.
    intros _ [_ Hoverlap]. vm_compute in Hoverlap. exfalso. apply Hoverlap. reflexivity.
  - unfold uniqueBookingIds. simpl.
    repeat (apply NoDup_cons; [simpl; intuition discriminate |]). apply NoDup_nil.
Qed.

(** Three bookings of the digital billboard over common days, one per slot. *)
Lemma Scenario_threeSlots_sound : noDoubleBooking Scenario.threeSlots.
Proof.
  assert (Hpair : forall b1 b2 n1 n2,
             Booking.billboardId b1 = "bb-digital" ->
             Booking.slotNumber b1 = Some n1 -> Booking.slotNumber b2 = Some n2 ->
             n1 <> n2 -> compatible Scenario.threeSlots b1 b2).
  { intros b1 b2 n1 n2 Hb H1 H2 Hne _ _. exists Example.digitalBillboard.
    rewrite Hb. split; [reflexivity |]. split; [reflexivity |].
    intros (n & Hn1 & Hn2). rewrite H1 in Hn1. rewrite H2 in Hn2. congruence. }
  unfold noDoubleBooking. simpl.
  repeat constructor; eapply Hpair; try reflexivity; discriminate.
Qed.

Lemma getNextSequence_counts_witness :
  (exists db',
      SequenceService.getNextSequence SequenceEntityType.booking Example.booked
      = (Ok "BK-2024-0002", db')
      /\ SequenceService.getCurrentSequence SequenceEntityType.booking db' = 2
      /\ SequenceService.getCurrentSequence SequenceEntityType.campaign db' = 0)
  /\ SequenceService.getNextSequence SequenceEntityType.booking Scenario.exhausted
     = (Throw (mkError "integer out of range"), Scenario.exhausted).
Proof.
  split.
  - destruct (getNextSequence_counts SequenceEntityType.booking Example.booked)
      as [Hbelow _].
    destruct Hbelow as (code & db' & Hrun & Hcur & Hcode & Hother & _);
      [vm_compute; reflexivity |].
    exists db'. split; [| split].
    + rewrite Hrun, Hcode; [reflexivity | vm_compute; discriminate].
    + rewrite Hcur. reflexivity.
    + rewrite Hother; [reflexivity | discriminate].
  - destruct (getNextSequence_counts SequenceEntityType.booking Scenario.exhausted)
      as [_ Hfull].
    apply Hfull. vm_compute. discriminate.
Defined.

Lemma sequence_codes_unique_witness :
  "BK-2024-0001" <> "BK-2024-0002"
  /\ (sequenceCode SequenceEntityType.booking 2024 7
      = sequenceCode SequenceEntityType.campaign 2024 7 -> False).
Proof.
  destruct sequence_codes_unique as [Hinj Hnext]. split.
  - apply (Hnext SequenceEntityType.booking Example.empty
                 "BK-2024-0001" Scenario.counted "BK-2024-0002" Scenario.countedAgain).
    + vm_compute. discriminate.
    + vm_compute. reflexivity.
    + vm_compute. reflexivity.
  - intros Heq.
    destruct (Hinj SequenceEntityType.booking SequenceEntityType.campaign 2024 7 7)
      as [He _]; [lia | lia | exact Heq | discriminate He].
Defined.

Lemma createBooking_rejects_double_booking_witness :
  (exists r b,
      In b (bookings Example.slotOneBooked)
      /\ Booking.id b = "uuid-1"
      /\ checkAvailability (bookingQuery Scenario.slotOneAgain) Example.slotOneBooked = Ok r
      /\ In (selectConflict b) (conflicts r)
      /\ createBooking Scenario.slotOneAgain Example.slotOneBooked
         = (Throw (mkError (notAvailableMessage (conflicts r))), Example.slotOneBooked))
  /\ (checkAvailability (bookingQuery Scenario.nullSlotRequest) Example.slotOneBooked
      = Ok (mkAvailability true [])
      /\ createBooking Scenario.nullSlotRequest Example.slotOneBooked
         = (Ok Scenario.nullSlotCreated, Scenario.nullSlotBooked)
      /\ exists b1 b2,
           bookings Scenario.nullSlotBooked = [b1; b2]
           /\ Booking.billboardId b1 = Booking.billboardId b2
           /\ rangesOverlap b1 b2
           /\ Booking.slotNumber b1 = Some 1
           /\ Booking.slotNumber b2 = None).
Proof.
  split.
  - apply (createBooking_rejects_double_booking
             Example.slotOneRequest Scenario.slotOneAgain Example.empty
             Example.slotOneBooked Scenario.slotOneCreated Example.digitalBillboard).
    + vm_compute. reflexivity.
    + reflexivity.
    + reflexivity.
    + vm_compute. discriminate.
    + vm_compute. discriminate.
    + right. right. exists 1. repeat split. discriminate.
  - destruct (createBooking_rejects_double_booking
                Example.slotOneRequest Scenario.nullSlotRequest Example.empty
                Example.slotOneBooked Scenario.slotOneCreated Example.digitalBillboard)
      as [_ Hnull].
    + vm_compute. reflexivity.
    + reflexivity.
    + reflexivity.
    + vm_compute. discriminate.
    + vm_compute. discriminate.
    + destruct (Hnull eq_refl eq_refl) as (Hcheck & _ & Hwritten).
      split; [exact Hcheck |].
      assert (Hrun : createBooking Scenario.nullSlotRequest Example.slotOneBooked
                     = (Ok Scenario.nullSlotCreated, Scenario.nullSlotBooked))
        by (vm_compute; reflexivity).
      split; [exact Hrun |].
      destruct (Hwritten _ _ Hrun) as (b2 & Hbk & Hbb & Hs & He & Hslot).
      exists (bookingRow Example.slotOneRequest "uuid-1" "BK-2024-0001" 1000000), b2.
      split; [exact Hbk |]. split; [rewrite Hbb; reflexivity |].
      split; [| split; [reflexivity | exact Hslot]].
      unfold rangesOverlap. rewrite Hs, He. vm_compute. split; discriminate.
Defined.

Lemma createBooking_keeps_noDoubleBooking_witness :
  noDoubleBooking Scenario.twoSlots
  /\ exists b1 b2,
       bookings Scenario.twoSlots = [b1; b2]
       /\ Booking.billboardId b1 = Booking.billboardId b2
       /\ rangesOverlap b1 b2.
Proof.
  split.
  - apply (createBooking_keeps_noDoubleBooking
             Scenario.slotTwoRequest Example.slotOneBooked Scenario.twoSlots
             Scenario.slotTwoCreated).
    + unfold noDoubleBooking. simpl. repeat constructor.
    + vm_compute. reflexivity.
  - eexists. eexists. split; [reflexivity |]. split; [reflexivity |].
    vm_compute. split; discriminate.
Defined.

Lemma shortCloseBooking_completes_witness :
  exists db' details',
    shortCloseBooking "uuid-1" (calendarDate 2024 7 5) "early" None Example.booked
    = (Ok (Some details'), db')
    /\ Booking.status (row details') = "completed"
    /\ Booking.actualEndDate (row details') = Some (calendarDate 2024 7 5)
    /\ Booking.endDate (row details') = calendarDate 2024 7 10
    /\ exists e, deleteBooking "uuid-1" db' = (Throw e, db').
Proof.
  destruct (shortCloseBooking_completes
              Example.booked "uuid-1" (calendarDate 2024 7 5) "early" None
              (mkDetails Example.staticBooking (Some Example.staticBillboard)))
    as (db' & details' & Hrun & _ & Hstatus & Hactual & _ & Hend & _ & _ & Hdelete).
  - reflexivity.
  - left. reflexivity.
  - vm_compute. split; [discriminate | reflexivity].
  - exists db', details'. repeat split; assumption.
Defined.

Lemma deleteBooking_only_created_witness :
  (exists db',
      deleteBooking "uuid-1" Example.booked = (Ok tt, db')
      /\ getBookingById "uuid-1" db' = None)
  /\ (exists e, deleteBooking "uuid-1" Scenario.reopened = (Throw e, Scenario.reopened))
  /\ deleteBooking "uuid-1" Example.confirmed
     = (Throw (mkError ("Only bookings in " ++ dquote ++ "created" ++ dquote
                          ++ " status can be deleted")), Example.confirmed)
  /\ deleteBooking "uuid-9" Example.booked
     = (Throw (mkError "Booking not found"), Example.booked).
Proof.
  split; [| split; [| split]].
  - destruct (deleteBooking_only_created Example.booked "uuid-1") as (_ & _ & _ & Hcreated).
    destruct (Hcreated (mkDetails Example.staticBooking (Some Example.staticBillboard))
                       eq_refl eq_refl) as (db' & Hrun & Hnone & _).
    + intros p [].
    + exists db'. split; assumption.
  - destruct (deleteBooking_only_created Scenario.reopened "uuid-1")
      as (_ & _ & Hrestricted & _).
    apply (Hrestricted (mkDetails Example.staticBooking (Some Example.staticBillboard))
                       Scenario.purchaseOrder).
    + reflexivity.
    + reflexivity.
    + left. reflexivity.
    + reflexivity.
  - destruct (deleteBooking_only_created Example.confirmed "uuid-1") as (_ & Hother & _).
    apply (Hother (mkDetails (withStatus "confirmed" Example.staticBooking)
                             (Some Example.staticBillboard))).
    + reflexivity.
    + simpl. discriminate.
  - destruct (deleteBooking_only_created Example.booked "uuid-9") as (Hnone & _).
    apply Hnone. reflexivity.
Defined.

Lemma deleteBooking_frees_like_exclusion_witness :
  checkAvailability Example.overlapQuery Scenario.deleted
  = checkAvailability
      (AvailabilityQuery.mk "bb-static" (calendarDate 2024 7 5) (calendarDate 2024 7 8)
                            None (Some "uuid-1"))
      Example.booked.
Proof.
  apply (deleteBooking_frees_like_exclusion Example.booked Scenario.deleted "uuid-1" tt).
  - vm_compute. reflexivity.
  - reflexivity.
Defined.

Lemma createBooking_deleteBooking_roundtrip_witness :
  exists details db2,
    Scenario.created = Some details
    /\ Booking.id (row details) = "uuid-1"
    /\ Booking.status (row details) = "created"
    /\ In (row details) (bookings Example.booked)
    /\ deleteBooking "uuid-1" Example.booked = (Ok tt, db2)
    /\ bookings db2 = []
    /\ forall q, checkAvailability q db2 = checkAvailability q Example.empty.
Proof.
  apply (createBooking_deleteBooking_roundtrip
           Example.staticRequest Example.empty Example.booked Scenario.created).
  - intros b [].
  - intros p [].
  - vm_compute. reflexivity.
Defined.


Lemma updateBookingStatus_any_transition_witness :
  (exists res db',
      updateBookingStatus "uuid-1" "invoiced" None Example.booked = (Ok res, db')
      /\ res = Some (withStatus "invoiced" Example.staticBooking)
      /\ getBookingById "uuid-1" db'
         = Some (mkDetails (withStatus "invoiced" Example.staticBooking)
                           (Some Example.staticBillboard)))
  /\ exists e,
      updateBookingStatus "uuid-1" "cancelled" None Example.booked
      = (Throw e, Example.booked).
Proof.
  split.
  - destruct (updateBookingStatus_any_transition Example.booked "uuid-1" "invoiced" None)
      as [_ Hvalid].
    destruct Hvalid as (res & db' & Hrun & Hfound & _); [simpl; auto 10 |].
    destruct (Hfound (mkDetails Example.staticBooking (Some Example.staticBillboard))
                     eq_refl) as (Hres & Hget).
    exists res, db'. split; [exact Hrun |]. split; [exact Hres | exact Hget].
  - destruct (updateBookingStatus_any_transition Example.booked "uuid-1" "cancelled" None)
      as [Hinvalid _].
    eexists. apply Hinvalid. simpl. intuition discriminate.
Defined.

Lemma updateBooking_keeps_noDoubleBooking_witness :
  (noDoubleBooking Scenario.near /\ uniqueBookingIds Scenario.near)
  /\ exists b1 b2,
       bookings Scenario.near = [b1; b2]
       /\ Booking.billboardId b1 = Booking.billboardId b2
       /\ Booking.endDate b1 + 1 = Booking.startDate b2.
Proof.
  split.
  - apply (updateBooking_keeps_noDoubleBooking
             "uuid-2" Scenario.nearRequest Scenario.twoStatic Scenario.near
             Scenario.nearResult).
    + apply Scenario_twoStatic_sound.
    + apply Scenario_twoStatic_sound.
    + simpl. discriminate.
    + vm_compute. reflexivity.
  - eexists. eexists. split; [reflexivity |]. split; reflexivity.
Defined.

Lemma lifecycle_keeps_noDoubleBooking_witness :
  noDoubleBooking (snd (updateBookingStatus "uuid-2" "active" None Scenario.threeSlots))
  /\ noDoubleBooking
       (snd (shortCloseBooking "uuid-3" (calendarDate 2024 7 5) "early" None
                               Scenario.threeSlots))
  /\ noDoubleBooking (snd (deleteBooking "uuid-2" Scenario.threeSlots))
  /\ List.length (bookings (snd (deleteBooking "uuid-2" Scenario.threeSlots))) = 2%nat.
Proof.
  destruct (lifecycle_keeps_noDoubleBooking Scenario.threeSlots "uuid-2")
    as (Hstatus & _ & Hdelete); [exact Scenario_threeSlots_sound |].
  destruct (lifecycle_keeps_noDoubleBooking Scenario.threeSlots "uuid-3")
    as (_ & Hclose & _); [exact Scenario_threeSlots_sound |].
  split; [apply Hstatus |]. split; [apply Hclose |]. split; [exact Hdelete |].
  vm_compute. reflexivity.
Defined.

Lemma createPurchaseOrder_one_per_booking_witness :
  onePurchaseOrderPerBooking Scenario.ordered
  /\ purchaseOrders Scenario.ordered = [Scenario.purchaseOrder]
  /\ PurchaseOrderService.createPurchaseOrder Example.purchaseOrderRequest Scenario.ordered
     = (Throw (mkError "Purchase order already exists for this booking"), Scenario.ordered).
Proof.
  destruct (createPurchaseOrder_one_per_booking
              Example.purchaseOrderRequest Example.confirmed Scenario.ordered
              Scenario.orderResult) as (Hone & _ & Hagain).
  - constructor.
  - vm_compute. reflexivity.
  - split; [exact Hone |]. split; [reflexivity |]. apply Hagain. reflexivity.
Defined.

Lemma deletePurchaseOrder_reverts_booking_witness :
  (exists db' details',
      PurchaseOrderService.deletePurchaseOrder "uuid-2" None Scenario.ordered = (Ok tt, db')
      /\ PurchaseOrderService.getPurchaseOrderById "uuid-2" db' = None
      /\ getBookingById "uuid-1" db' = Some details'
      /\ Booking.status (row details') = "completed")
  /\ PurchaseOrderService.deletePurchaseOrder "uuid-9" None Scenario.ordered
     = (Throw (mkError "Purchase order not found"), Scenario.ordered).
Proof.
  destruct (deletePurchaseOrder_reverts_booking Scenario.ordered "uuid-2" None)
    as [_ Hfound].
  destruct (deletePurchaseOrder_reverts_booking Scenario.ordered "uuid-9" None)
    as [Hmissing _].
  split; [| apply Hmissing; reflexivity].
  destruct (Hfound Scenario.purchaseOrder)
    as (db' & details' & Hrun & Hgone & _ & Hbooking & Hstatus & _).
  - vm_compute. reflexivity.
  - exists db', details'. repeat split; assumption.
Defined.

Lemma eligible_bookings_match_createPurchaseOrder_witness :
  (exists b, In b (PurchaseOrderService.getBookingsEligibleForPO None Example.confirmed)
             /\ Booking.id b = "uuid-1")
  /\ ~ In Example.staticBooking
          (PurchaseOrderService.getBookingsEligibleForPO None Example.booked).
Proof.
  split.
  - destruct (eligible_bookings_match_createPurchaseOrder Example.confirmed)
      as (_ & Hcreated & _).
    apply (Hcreated Example.purchaseOrderRequest Scenario.orderResult Scenario.ordered).
    vm_compute. reflexivity.
  - destruct (eligible_bookings_match_createPurchaseOrder Example.booked)
      as (Hlisted & _).
    intros Hin. apply Hlisted in Hin. destruct Hin as (_ & (Hstatus & _) & _).
    simpl in Hstatus. intuition discriminate.
Defined.

Lemma updatePurchaseOrder_keeps_links_witness :
  (exists db',
      PurchaseOrderService.updatePurchaseOrder "uuid-2" Scenario.valueUpdate Scenario.ordered
      = (Ok (Some (PurchaseOrderService.applyPurchaseOrderUpdate
                     Scenario.valueUpdate Scenario.purchaseOrder)), db')
      /\ bookings db' = bookings Scenario.ordered
      /\ onePurchaseOrderPerBooking db')
  /\ PurchaseOrderService.updatePurchaseOrder "uuid-2" Scenario.oversizedUpdate
                                              Scenario.ordered
     = (Throw (mkError "numeric field overflow"), Scenario.ordered).
Proof.
  split.
  - destruct (updatePurchaseOrder_keeps_links Scenario.ordered "uuid-2" Scenario.valueUpdate)
      as (_ & _ & Hfound).
    destruct (Hfound Scenario.purchaseOrder) as (db' & Hrun & Hbookings & _ & _ & Hone).
    + vm_compute. reflexivity.
    + intros v Hv. injection Hv as <-. vm_compute. reflexivity.
    + exists db'. split; [exact Hrun |]. split; [exact Hbookings |].
      apply Hone. unfold onePurchaseOrderPerBooking. simpl.
      repeat (apply NoDup_cons; [simpl; intuition discriminate |]). apply NoDup_nil.
  - destruct (updatePurchaseOrder_keeps_links Scenario.ordered "uuid-2"
                                              Scenario.oversizedUpdate)
      as (_ & Hrefused & _).
    apply (Hrefused Scenario.purchaseOrder 100000000000000).
    + vm_compute. reflexivity.
    + reflexivity.
    + vm_compute. discriminate.
Defined.

Lemma createCampaign_refuses_repeated_billboard_witness :
  createCampaign Scenario.twoSlotsRequest Example.empty
  = (Throw (mkError "One or more billboards not found"), Example.empty).
Proof.
  apply (createCampaign_refuses_repeated_billboard
           Scenario.twoSlotsRequest Example.empty
           (calendarDate 2024 7 5) (calendarDate 2024 7 8)).
  - exact Example_billboards_unique.
  - reflexivity.
  - reflexivity.
  - simpl. intros Hnd. inversion Hnd as [| x l Hnotin Hrest]. apply Hnotin. left. reflexivity.
Defined.

Lemma createCampaign_keeps_noDoubleBooking_witness :
  noDoubleBooking Scenario.beside
  /\ exists b1 b2 b3,
       bookings Scenario.beside = [b1; b2; b3]
       /\ Booking.billboardId b1 = Booking.billboardId b2
       /\ rangesOverlap b1 b2.
Proof.
  split.
  - apply (createCampaign_keeps_noDoubleBooking
             Scenario.besideRequest Example.slotOneBooked Scenario.beside
             Scenario.besideResult).
    + exact Example_slotOneBooked_sound.
    + exact Example_billboards_unique.
    + vm_compute. reflexivity.
  - do 3 eexists. split; [reflexivity |]. split; [reflexivity |].
    vm_compute. split; discriminate.
Defined.

Lemma deleteCampaign_only_empty_witness :
  (exists db',
      deleteCampaign "camp-1" Scenario.planned = (Ok tt, db')
      /\ getCampaignById "camp-1" db' = None)
  /\ deleteCampaign "camp-2" Scenario.planned
     = (Throw (mkError "Campaign not found"), Scenario.planned).
Proof.
  destruct (deleteCampaign_only_empty Scenario.planned "camp-1") as (_ & _ & Hempty).
  destruct (deleteCampaign_only_empty Scenario.planned "camp-2") as (Hmissing & _).
  split; [| apply Hmissing; reflexivity].
  destruct (Hempty (mkCampaignDetails Scenario.plannedCampaign [] 0))
    as (db' & Hrun & Hgone & _).
  - reflexivity.
  - intros b [].
  - exists db'. split; assumption.
Defined.

Lemma createCampaign_then_deleteCampaign_refused_witness :
  exists details,
    Scenario.campaignResult = Some details
    /\ Campaign.id (campaign_row details) = "uuid-1"
    /\ (1 <= 2 <= bookingCount details)%nat
    /\ deleteCampaign "uuid-1" Scenario.campaigned
       = (Throw (mkError
            "Cannot delete campaign with existing bookings. Remove bookings from the campaign first."),
          Scenario.campaigned).
Proof.
  apply (createCampaign_then_deleteCampaign_refused
           Example.campaignRequest Example.empty Scenario.campaigned
           Scenario.campaignResult).
  vm_compute. reflexivity.
Defined.

Lemma getAvailableBillboards_lists_active_witness :
  exists entries,
    getAvailableBillboards Scenario.tableOrder
                           (calendarDate 2024 7 5) (calendarDate 2024 7 8)
                           Example.slotOneBooked
    = (Ok entries, Example.slotOneBooked)
    /\ map listed entries = [Example.staticBillboard; Example.digitalBillboard].
Proof.
  destruct (getAvailableBillboards_lists_active
              Scenario.tableOrder Example.slotOneBooked
              (calendarDate 2024 7 5) (calendarDate 2024 7 8))
    as (entries & Hrun & Hlisted & _).
  - intros rows billboard Hin. exact Hin.
  - exact Example_billboards_unique.
  - exists entries. split; [exact Hrun |]. rewrite Hlisted. reflexivity.
Defined.

Lemma getAvailableBillboards_slots_witness :
  (forall k, In k (availableSlots Scenario.digitalEntry)
             <-> 1 <= k <= 3
                 /\ slotFree Example.slotOneBooked "bb-digital"
                             (calendarDate 2024 7 5) (calendarDate 2024 7 8) k)
  /\ (isAvailable Scenario.digitalEntry = true
      <-> exists k, 1 <= k <= 3
                    /\ slotFree Example.slotOneBooked "bb-digital"
                                (calendarDate 2024 7 5) (calendarDate 2024 7 8) k).
Proof.
  destruct (getAvailableBillboards_slots
              Scenario.tableOrder Example.slotOneBooked
              (calendarDate 2024 7 5) (calendarDate 2024 7 8)
              Scenario.availability Scenario.digitalEntry)
    as [Hdigital _].
  - intros rows billboard Hin. exact Hin.
  - exact Example_billboards_unique.
  - vm_compute. reflexivity.
  - right. left. reflexivity.
  - apply (Hdigital 3); [reflexivity | reflexivity | discriminate].
Defined.
